(** * Courseware module rendering and dispatch (lms/djangoapps/courseware/module_render.py)

    A shallow embedding of the request-handling glue of the courseware
    application: the table of contents, the chapter/section search, the
    construction of a module instance with its per-student records, and the
    two endpoints that forward a request to a module and write the records
    back.

    Python objects are modelled as follows.
    - A value that may be [None] is an [option].
    - A dict used as a map ([metadata], [request.POST]) is a [gmap].
    - Model instances ([StudentModule]) are mutable and shared: they live in
      a heap of objects addressed by references; the table of persisted rows
      is separate and is only written by [save].
    - A function that may raise runs in a state-and-exception monad; a raised
      exception keeps the mutations performed before it. *)

From Stdlib Require Import ZArith Ascii String DecimalString.
From stdpp Require Import base option list gmap strings fin_maps sorting.

Local Open Scope string_scope.
Local Open Scope list_scope.

(** ** Python string helpers *)

Module Py.

(** [s.partition(sep)] for a one-character separator: the part before the
  first occurrence, the separator, and the part after it; when the separator
  does not occur, the whole string and two empty strings. *)
Fixpoint partition (sep : ascii) (s : string) : string * string * string :=
match s with
| EmptyString => ("", "", "")
| String a rest =>
    if decide (a = sep) then ("", String sep "", rest)
    else let '(before, found, after) := partition sep rest in
         (String a before, found, after)
end.

(** [c in s] for a character [c]. *)
Fixpoint contains (c : ascii) (s : string) : bool :=
match s with
| EmptyString => false
| String a rest => if decide (a = c) then true else contains c rest
end.

(** [str(n)] for an integer. *)
Definition str_of_Z (n : Z) : string := NilZero.string_of_int (Z.to_int n).

(** [str(x)] for an integer or [None]. *)
Definition str_of_id (x : option Z) : string :=
match x with
| Some n => str_of_Z n
| None => "None"
end.

End Py.

(** ** Course structure: the part of the module/descriptor interface used by
       the table of contents and by [get_section] *)

(** The interface of the objects of the course tree (xmodule descriptors and
    module instances): a metadata dict and the two child listings. *)
Class XNode (T : Type) := {
  metadata : T → gmap string string;
  get_children : T → list T;
  get_display_items : T → list T
}.

Section Structure.
Context {T : Type} `{XNode T}.

(** [x.metadata.get('display_name')] *)
Definition display_name (x : T) : option string :=
  metadata x !! "display_name".

(** [x.metadata.get(key, '')] *)
Definition metadata_get_default (x : T) (key : string) : string :=
  default "" (metadata x !! key).

(** *** toc_for_course (the loops; the full function is below, after
        get_module) *)

Record SectionEntry := {
  sec_name : option string;
  sec_format : string;
  sec_due : string;
  sec_active : bool
}.

Record ChapterEntry := {
  chap_name : option string;
  chap_sections : list SectionEntry;
  chap_active : bool
}.

(** The body of the inner loop: the entry appended for one section. *)
Definition section_entry (active_chapter active_section : option string)
    (chapter section : T) : SectionEntry :=
  let active := bool_decide (display_name chapter = active_chapter) &&
                bool_decide (display_name section = active_section) in
  {| sec_name := display_name section;
     sec_format := metadata_get_default section "format";
     sec_due := metadata_get_default section "due";
     sec_active := active |}.

(** [sections = list(); for section in chapter.get_display_items():
    sections.append(...)] *)
Definition toc_sections (active_chapter active_section : option string)
    (chapter : T) : list SectionEntry :=
  fold_left
    (λ sections section,
       sections ++ [section_entry active_chapter active_section chapter section])
    (get_display_items chapter) [].

(** The body of the outer loop: the entry appended for one chapter. *)
Definition chapter_entry (active_chapter active_section : option string)
    (chapter : T) : ChapterEntry :=
  {| chap_name := display_name chapter;
     chap_sections := toc_sections active_chapter active_section chapter;
     chap_active := bool_decide (display_name chapter = active_chapter) |}.

(** [chapters = list(); for chapter in course.get_display_items():
    ...; chapters.append(...)] *)
Definition toc_chapters (course : T)
    (active_chapter active_section : option string) : list ChapterEntry :=
  fold_left
    (λ chapters chapter,
       chapters ++ [chapter_entry active_chapter active_section chapter])
    (get_display_items course) [].

(** *** get_section *)

(** [found = None; for x in xs: if x.metadata.get('display_name') == name:
    found = x; break] *)
Fixpoint first_named (name : option string) (xs : list T) : option T :=
  match xs with
  | [] => None
  | x :: rest =>
      if bool_decide (display_name x = name) then Some x
      else first_named name rest
  end.

Definition get_section (course_module : option T)
    (chapter section : option string) : option T :=
  match course_module with
  | None => None
  | Some course =>
      match first_named chapter (get_children course) with
      | None => None
      | Some chapter_module =>
          first_named section (get_children chapter_module)
      end
  end.

(** [x] is the first element of [xs], in list order, whose display name is
    [name]. *)
Definition is_first_named (name : option string) (xs : list T) (x : T) : Prop :=
  ∃ before after,
    xs = before ++ x :: after ∧
    display_name x = name ∧
    Forall (λ y, display_name y ≠ name) before.

(** The relation between a chapter and its entry in the table. *)
Definition chapter_listed (active_chapter active_section : option string)
    (chapter : T) (entry : ChapterEntry) : Prop :=
  chap_name entry = display_name chapter ∧
  (chap_active entry = true ↔ display_name chapter = active_chapter) ∧
  Forall2
    (λ section sentry,
       sec_name sentry = display_name section ∧
       (sec_active sentry = true ↔
          display_name chapter = active_chapter ∧
          display_name section = active_section))
    (get_display_items chapter) (chap_sections entry).

End Structure.

(** ** Users, persisted records, exceptions *)

(** [request.user]: an [AnonymousUser] (no id, not authenticated, not staff)
    or a row of the user table. *)
Inductive User :=
  | AnonymousUser
  | RegisteredUser (id : Z) (staff : bool).

Global Instance User_eq_dec : EqDecision User.
Proof. solve_decision. Defined.

Definition user_id (u : User) : option Z :=
  match u with
  | AnonymousUser => None
  | RegisteredUser id _ => Some id
  end.

Definition is_authenticated (u : User) : bool :=
  match u with
  | AnonymousUser => false
  | RegisteredUser _ _ => true
  end.

Definition is_staff (u : User) : bool :=
  match u with
  | AnonymousUser => false
  | RegisteredUser _ staff => staff
  end.

(** A [StudentModule] model instance. [pk] is [None] until the object has a
    row in the table. Grades are numbers, here integers; [state] is a
    serialized blob. *)
Record StudentModule := mkStudentModule {
  pk : option nat;
  student : User;
  module_type : string;
  module_state_key : string;
  state : option string;
  grade : option Z;
  max_grade : option Z
}.

Definition with_pk (k : nat) (o : StudentModule) : StudentModule :=
  mkStudentModule (Some k) (student o) (module_type o) (module_state_key o)
                  (state o) (grade o) (max_grade o).

Definition with_state (s : option string) (o : StudentModule) : StudentModule :=
  mkStudentModule (pk o) (student o) (module_type o) (module_state_key o)
                  s (grade o) (max_grade o).

Definition with_grade (g : option Z) (o : StudentModule) : StudentModule :=
  mkStudentModule (pk o) (student o) (module_type o) (module_state_key o)
                  (state o) g (max_grade o).

(** The exceptions that appear in this file and in the calls it makes.
    [IntegrityError] is what the table raises when an insert breaks its
    uniqueness constraint. [InvalidReference] belongs to the model: it is the
    outcome of reading an object that is not in the heap, which the functions
    below never do. *)
Inductive Exn :=
  | Http404
  | ItemNotFoundError (location : string)
  | DoesNotExist
  | KeyError (key : string)
  | IndexError
  | ValueError
  | TypeError
  | Exception (msg : string)
  | IntegrityError
  | InvalidReference.

(** [str(err)], which the file applies to the errors of the header parsing
    only; the exceptions that never reach it have no text here. *)
Definition str_of_exn (e : Exn) : string :=
  match e with
  | Http404 => ""
  | ItemNotFoundError l => l
  | DoesNotExist => "User matching query does not exist."
  | KeyError k => "'" +:+ k +:+ "'"
  | IndexError => "list index out of range"
  | ValueError => "No JSON object could be decoded"
  | TypeError => "string indices must be integers"
  | Exception msg => msg
  | IntegrityError => ""
  | InvalidReference => ""
  end.

(** ** The module interface *)

(** What the module store gives for a location. [shared_state_key] is
    [getattr(descriptor, 'shared_state_key', None)]; [location_url] is
    [descriptor.location.url()]. *)
Record Descriptor := {
  category : string;
  location_url : string;
  shared_state_key : option string;
  resources_fs : string
}.

(** The data carried by an [I4xSystem]. Its function-valued attributes
    ([track_function], [get_module], [render_template], [replace_urls]) are
    closures over the request and are not part of the record. What a module
    does through them lies in the module classes, outside this file: a
    module that loads its children calls [get_module] again, for each child,
    and that call creates the records of the child. The model follows one
    call of [get_module], for the module it is made for. *)
Record I4xSystem := {
  ajax_url : string;
  xqueue_callback_url : string;
  filestore : string;
  exception404 : Exn;
  sys_DEBUG : bool;
  seed : option Z;
  position : option string
}.

(** [I4xSystem.set('position', val)] *)
Definition I4xSystem_set_position (val : option string) (s : I4xSystem) : I4xSystem :=
  {| ajax_url := ajax_url s; xqueue_callback_url := xqueue_callback_url s;
     filestore := filestore s; exception404 := exception404 s;
     sys_DEBUG := sys_DEBUG s; seed := seed s; position := val |}.

(** [get_score()] returns [None] or a dict with the keys [score] and
    [total]; this is the dict. *)
Record Score := { score : Z; total : Z }.

(** [request.POST]: each key has a list of values. *)
Abbreviation QueryDict := (gmap string (list string)).

(** The x_module interface as this file uses it. A module instance is a
    value of [Mod]; the getters read the instance; [handle_ajax] mutates it,
    so it returns the new instance next to its result, or the exception it
    raises. A module has no reference to the records of this file, and its
    constructor and getters are functions of their arguments: module classes
    whose constructor or getters raise are outside the model. *)
Class XModule (Mod : Type) := {
  XModule_node :: XNode Mod;
  xmodule_constructor : Descriptor → I4xSystem → option string → option string → Mod;
  module_id : Mod → string;
  get_instance_state : Mod → option string;
  get_shared_state : Mod → option string;
  get_score : Mod → option Score;
  max_score : Mod → option Z;
  handle_ajax : Mod → string → QueryDict → Exn + (string * Mod)
}.

(** [replace_static_urls] and [add_histogram] replace the [get_html]
    attribute of the module object and nothing else: the instance keeps the
    list of wrappers applied to its [get_html], innermost last. *)
Inductive HtmlWrapper :=
  | StaticUrls (prefix : string)
  | Histogram.

Record XInstance (Mod : Type) := mkXInstance {
  xmod : Mod;
  html_wrappers : list HtmlWrapper
}.
Arguments mkXInstance {Mod} _ _.
Arguments xmod {Mod} _.
Arguments html_wrappers {Mod} _.

Definition replace_static_urls {Mod} (module : XInstance Mod) (prefix : string)
    : XInstance Mod :=
  mkXInstance (xmod module) (StaticUrls prefix :: html_wrappers module).

Definition add_histogram {Mod} (module : XInstance Mod) : XInstance Mod :=
  mkXInstance (xmod module) (Histogram :: html_wrappers module).

(** The decoded [xqueue_header]: a JSON object, or another JSON value. *)
Inductive Json :=
  | JObject (fields : gmap string string)
  | JOther.

(** The environment of the application: the settings read by this file, the
    module store, the user table and the JSON decoder. *)
Record Env := {
  MITX_ROOT_URL : string;
  DISPLAY_HISTOGRAMS_TO_STAFF : bool;
  DEBUG : bool;
  modulestore : gmap string Descriptor;
  auth_user : gmap Z bool;
  json_loads : string → option Json
}.

Record Request := {
  req_user : User;
  POST : QueryDict
}.

Record HttpResponse := { content : string }.

(** ** The store and its monad *)

(** What a run leaves behind, in order. *)
Inductive Event :=
  | EvSave (ref : nat) (row : StudentModule)
  | EvLogDebug (id : string) (user : User)
  | EvLogException (e : Exn)
  | EvHandleAjax (dispatch : string) (data : QueryDict).

(** [db]: the rows of the StudentModule table, a row's primary key being its
    index (rows are never deleted). [heap]: the model instances alive in the
    request. [cache]: the list held by the request's [StudentModuleCache]
    object, as references into the heap. *)
Record World := mkWorld {
  db : list StudentModule;
  heap : list StudentModule;
  cache : list nat;
  trace : list Event
}.

Inductive Result (A : Type) :=
  | Ok (a : A)
  | Raise (e : Exn).
Arguments Ok {A} _.
Arguments Raise {A} _.

Definition M (A : Type) : Type := World → Result A * World.

Global Instance M_ret : MRet M := λ A a w, (Ok a, w).

Global Instance M_bind : MBind M := λ A B f m w,
  match m w with
  | (Ok a, w') => f a w'
  | (Raise e, w') => (Raise e, w')
  end.

Definition raise {A} (e : Exn) : M A := λ w, (Raise e, w).

Definition emit (ev : Event) : M unit := λ w,
  (Ok (), mkWorld (db w) (heap w) (cache w) (trace w ++ [ev])).

(** [try: body except: log.exception(...); raise] *)
Definition log_and_reraise {A} (body : M A) : M A := λ w,
  match body w with
  | (Ok a, w') => (Ok a, w')
  | (Raise e, w') => (emit (EvLogException e) ;; raise e) w'
  end.

(** Lifting a pure call that may raise. *)
Definition lift_exn {A} (r : Exn + A) : M A :=
  match r with
  | inl e => raise e
  | inr a => mret a
  end.

(** *** Model instances *)

(** Reading an attribute of a model instance goes through the heap. *)
Definition deref (r : nat) : M StudentModule := λ w,
  match heap w !! r with
  | Some o => (Ok o, w)
  | None => (Raise InvalidReference, w)
  end.

(** Assigning an attribute of a model instance. *)
Definition modify (r : nat) (f : StudentModule → StudentModule) : M unit := λ w,
  match heap w !! r with
  | Some o => (Ok (), mkWorld (db w) (<[r := f o]> (heap w)) (cache w) (trace w))
  | None => (Raise InvalidReference, w)
  end.

(** [StudentModule(...)]: a new instance, without a row. *)
Definition new_instance (o : StudentModule) : M nat := λ w,
  (Ok (length (heap w)), mkWorld (db w) (heap w ++ [o]) (cache w) (trace w)).

(** The table holds a record of the student of [o] with the state key of
    [o]. *)
Definition occupied (rows : list StudentModule) (o : StudentModule) : Prop :=
  Exists (λ row, student row = student o ∧
                 module_state_key row = module_state_key o) rows.

Global Instance occupied_dec rows o : Decision (occupied rows o).
Proof. unfold occupied. apply _. Defined.

(** Modelled from the spec: [obj.save()] of the model class StudentModule,
    which is in models.py, not among the sources. An object that has a key
    updates its row: it comes from the table or from an earlier [save], and
    rows are never deleted, so its row exists. An object without a key is
    inserted as a new row and gets the position of the row as its key. The
    data model of the spec has at most one persisted record per student and
    module, and per student and shared key: the table refuses, with
    IntegrityError, the insert of a second row with the student and the
    state key of a row it holds, and stays as it was. *)
Definition save (r : nat) : M unit := λ w,
  match heap w !! r with
  | None => (Raise InvalidReference, w)
  | Some o =>
      match pk o with
      | Some k =>
          (Ok (), mkWorld (<[k := o]> (db w)) (heap w) (cache w)
                          (trace w ++ [EvSave r o]))
      | None =>
          if decide (occupied (db w) o) then (Raise IntegrityError, w)
          else
            let o' := with_pk (length (db w)) o in
            (Ok (), mkWorld (db w ++ [o']) (<[r := o']> (heap w)) (cache w)
                            (trace w ++ [EvSave r o']))
      end
  end.

(** *** StudentModuleCache *)

(** Modelled from the spec: the class StudentModuleCache of models.py, which
    is not among the sources. The cache of a user holds that student's
    persisted records, loaded as objects when the cache is built, each with
    the key of its row (none for a user who is not authenticated); [lookup]
    returns the first cached record with the given module type and state
    key, or [None]; [append] adds a record at the end. *)
Definition StudentModuleCache_new (user : User) (descriptor : Descriptor) : M unit := λ w,
  let rows := if is_authenticated user
              then filter (λ row, student row = user) (imap with_pk (db w))
              else [] in
  (Ok (), mkWorld (db w) (heap w ++ rows)
                  (seq (length (heap w)) (length rows)) (trace w)).

(** Modelled from the spec: the search behind [StudentModuleCache.lookup],
    over the cached references in order. *)
Fixpoint lookup_refs (objs : list StudentModule) (refs : list nat)
    (type key : string) : option nat :=
  match refs with
  | [] => None
  | r :: rest =>
      match objs !! r with
      | Some o =>
          if bool_decide (module_type o = type) && bool_decide (module_state_key o = key)
          then Some r else lookup_refs objs rest type key
      | None => lookup_refs objs rest type key
      end
  end.

(** Modelled from the spec: [StudentModuleCache.lookup(module_type,
    module_state_key)]. *)
Definition cache_lookup (type key : string) : M (option nat) := λ w,
  (Ok (lookup_refs (heap w) (cache w) type key), w).

(** Modelled from the spec: [StudentModuleCache.append(student_module)]. *)
Definition cache_append (r : nat) : M unit := λ w,
  (Ok (), mkWorld (db w) (heap w) (cache w ++ [r]) (trace w)).

(** ** The functions of module_render.py *)

Section Render.
Context {Mod : Type} `{XModule Mod}.
Variable env : Env.

(** [modulestore().get_item(location)] *)
Definition modulestore_get_item (location : string) : M Descriptor :=
  match modulestore env !! location with
  | Some descriptor => mret descriptor
  | None => raise (ItemNotFoundError location)
  end.

(** [User.objects.get(id=userid)] *)
Definition User_objects_get (userid : Z) : M User :=
  match auth_user env !! userid with
  | Some staff => mret (RegisteredUser userid staff)
  | None => raise DoesNotExist
  end.

(** [module.metadata['data_dir']] *)
Definition metadata_getitem (module : Mod) (key : string) : M string :=
  match metadata module !! key with
  | Some v => mret v
  | None => raise (KeyError key)
  end.

(** [x.state if x is not None else None] *)
Definition state_of (x : option nat) : M (option string) :=
  match x with
  | Some r => o ← deref r; mret (state o)
  | None => mret None
  end.

(** *** get_module *)

(** The system context of a module instance: the [I4xSystem(...)] call of
    get_module followed by [system.set('position', position)]. *)
Definition make_system (user : User) (descriptor : Descriptor)
    (position : option string) : I4xSystem :=
  let ajax_url := MITX_ROOT_URL env +:+ "/modx/" +:+ location_url descriptor +:+ "/" in
  let xqueue_callback_url :=
    MITX_ROOT_URL env +:+ "/xqueue/" +:+ Py.str_of_id (user_id user) +:+ "/"
      +:+ location_url descriptor +:+ "/" in
  let system :=
    {| ajax_url := ajax_url;
       xqueue_callback_url := xqueue_callback_url;
       filestore := resources_fs descriptor;
       exception404 := Http404;
       sys_DEBUG := DEBUG env;
       seed := user_id user;
       position := None |} in
  I4xSystem_set_position position system.

Definition get_module (user : User) (location : string)
    (position : option string)
    : M (XInstance Mod * option nat * option nat * string) :=
  descriptor ← modulestore_get_item location;
  instance_module ← cache_lookup (category descriptor) (location_url descriptor);
  shared_module ←
    match shared_state_key descriptor with
    | Some key => cache_lookup (category descriptor) key
    | None => mret None
    end;
  instance_state ← state_of instance_module;
  shared_state ← state_of shared_module;
  let system := make_system user descriptor position in
  let module := mkXInstance
                  (xmodule_constructor descriptor system instance_state shared_state) [] in
  replace_prefix ← metadata_getitem (xmod module) "data_dir";
  let module := replace_static_urls module replace_prefix in
  let module := if DISPLAY_HISTOGRAMS_TO_STAFF env && is_staff user
                then add_histogram module else module in
  if is_authenticated user then
    instance_module ←
      match instance_module with
      | None =>
          r ← new_instance
                {| pk := None;
                   student := user;
                   module_type := category descriptor;
                   module_state_key := module_id (xmod module);
                   state := get_instance_state (xmod module);
                   grade := None;
                   max_grade := max_score (xmod module) |};
          save r ;;
          cache_append r ;;
          mret (Some r)
      | Some r => mret (Some r)
      end;
    shared_module ←
      match shared_module, shared_state_key descriptor with
      | None, Some key =>
          r ← new_instance
                {| pk := None;
                   student := user;
                   module_type := category descriptor;
                   module_state_key := key;
                   state := get_shared_state (xmod module);
                   grade := None;
                   max_grade := None |};
          save r ;;
          cache_append r ;;
          mret (Some r)
      | _, _ => mret shared_module
      end;
    mret (module, instance_module, shared_module, category descriptor)
  else
    mret (module, instance_module, shared_module, category descriptor).

(** *** toc_for_course *)

Definition toc_for_course (user : User) (course : Descriptor)
    (active_chapter active_section : option string) : M (list ChapterEntry) :=
  StudentModuleCache_new user course ;;
  '(course_module, _, _, _) ← get_module user (location_url course) None;
  mret (toc_chapters (xmod course_module) active_chapter active_section).

(** *** The two endpoints *)

(** [json.loads(get.pop('xqueue_header')[0])], with the copy of the POST
    data after the pop. *)
Definition pop_xqueue_header (get : QueryDict) : Exn + (Json * QueryDict) :=
  match get !! "xqueue_header" with
  | None => inl (KeyError "xqueue_header")
  | Some [] => inl IndexError
  | Some (v :: _) =>
      match json_loads env v with
      | Some header => inr (header, delete "xqueue_header" get)
      | None => inl ValueError
      end
  end.

(** The [try ... except Exception as err: raise Exception(msg)] around it. *)
Definition parse_xqueue_header (get : QueryDict) : M (Json * QueryDict) :=
  match pop_xqueue_header get with
  | inr r => mret r
  | inl err =>
      raise (Exception ("Error in xqueue_callback " +:+ str_of_exn err
                        +:+ ": Invalid return format"))
  end.

(** [header['queuekey']] *)
Definition header_getitem (header : Json) (key : string) : Exn + string :=
  match header with
  | JObject fields =>
      match fields !! key with
      | Some v => inr v
      | None => inl (KeyError key)
      end
  | JOther => inl TypeError
  end.

(** [get.update({key: v})] on a QueryDict appends to the values of the key. *)
Definition querydict_update (get : QueryDict) (key v : string) : QueryDict :=
  <[key := default [] (get !! key) ++ [v]]> get.

(** [try: ajax_return = instance.handle_ajax(dispatch, data)
    except: log.exception(...); raise] *)
Definition call_handle_ajax (instance : XInstance Mod) (dispatch : string)
    (data : QueryDict) : M (string * XInstance Mod) :=
  log_and_reraise
    (emit (EvHandleAjax dispatch data) ;;
     '(ajax_return, m') ← lift_exn (handle_ajax (xmod instance) dispatch data);
     mret (ajax_return, mkXInstance m' (html_wrappers instance))).

(** The block shared by both endpoints:
    [instance_module.state = instance.get_instance_state()
     if instance.get_score():
         instance_module.grade = instance.get_score()['score']
     if instance_module.grade != oldgrade or instance_module.state != old_instance_state:
         instance_module.save()] *)
Definition save_instance_module (instance : XInstance Mod) (instance_module : nat)
    (oldgrade : option Z) (old_instance_state : option string) : M unit :=
  modify instance_module (with_state (get_instance_state (xmod instance))) ;;
  match get_score (xmod instance) with
  | Some sc => modify instance_module (with_grade (Some (score sc)))
  | None => mret ()
  end ;;
  o ← deref instance_module;
  if bool_decide (grade o ≠ oldgrade) || bool_decide (state o ≠ old_instance_state)
  then save instance_module
  else mret ().

Definition xqueue_callback (request : Request) (userid : Z) (id dispatch : string)
    : M HttpResponse :=
  '(header, get) ← parse_xqueue_header (POST request);
  user ← User_objects_get userid;
  descriptor ← modulestore_get_item id;
  StudentModuleCache_new user descriptor ;;
  '(instance, instance_module, shared_module, module_type) ←
    get_module (req_user request) id None;
  match instance_module with
  | None =>
      emit (EvLogDebug id (req_user request)) ;;
      raise Http404
  | Some instance_module =>
      o ← deref instance_module;
      let oldgrade := grade o in
      let old_instance_state := state o in
      queuekey ← lift_exn (header_getitem header "queuekey");
      let get := querydict_update get "queuekey" queuekey in
      '(ajax_return, instance) ← call_handle_ajax instance dispatch get;
      save_instance_module instance instance_module oldgrade old_instance_state ;;
      mret {| content := "" |}
  end.

Definition modx_dispatch (request : Request) (dispatch : string) (id : string)
    : M HttpResponse :=
  let '(dispatch, _, _) := Py.partition "?" dispatch in
  descriptor ← modulestore_get_item id;
  StudentModuleCache_new (req_user request) descriptor ;;
  '(instance, instance_module, shared_module, module_type) ←
    get_module (req_user request) id None;
  match instance_module with
  | None =>
      emit (EvLogDebug id (req_user request)) ;;
      raise Http404
  | Some instance_module =>
      o ← deref instance_module;
      let oldgrade := grade o in
      let old_instance_state := state o in
      old_shared_state ← state_of shared_module;
      '(ajax_return, instance) ← call_handle_ajax instance dispatch (POST request);
      save_instance_module instance instance_module oldgrade old_instance_state ;;
      match shared_module with
      | Some shared_module =>
          modify shared_module (with_state (get_shared_state (xmod instance))) ;;
          s ← deref shared_module;
          if bool_decide (state s ≠ old_shared_state)
          then save shared_module
          else mret ()
      | None => mret ()
      end ;;
      mret {| content := ajax_return |}
  end.

End Render.

(** ** Properties of runs *)

(** The state of the object a lookup has found, [None] when it found none. *)
Definition state_at (w : World) (x : option nat) : option string :=
  match x with
  | Some r =>
      match heap w !! r with
      | Some o => state o
      | None => None
      end
  | None => None
  end.

(** The world after [r = StudentModule(...); r.save(); cache.append(r)] for
    a new object [o] that the table accepts: one more row, one more object,
    one more cache entry and one save event. *)
Definition created (w : World) (o : StudentModule) : World :=
  let row := with_pk (length (db w)) o in
  mkWorld (db w ++ [row]) (heap w ++ [row]) (cache w ++ [length (heap w)])
          (trace w ++ [EvSave (length (heap w)) row]).

(** The world after [r = StudentModule(...)] and an [r.save()] that the table
    has refused: the object exists, without a row, and is not in the
    cache. *)
Definition refused (w : World) (o : StudentModule) : World :=
  mkWorld (db w) (heap w ++ [o]) (cache w) (trace w).

Definition is_save (ev : Event) : bool :=
  match ev with
  | EvSave _ _ => true
  | _ => false
  end.


(** The events [evs] are the outcome of a conditional save of the object
    [r]: exactly one save event, of a row satisfying [P], when [changed]
    holds, and no event otherwise. *)
Definition saved_iff (evs : list Event) (r : nat) (changed : Prop)
    (P : StudentModule → Prop) : Prop :=
  (changed ∧ ∃ row, evs = [EvSave r row] ∧ P row) ∨ (¬ changed ∧ evs = []).

(** The invariant of the data model: no two persisted records have the same
    student and the same state key (a module location or a shared key). *)
Definition at_most_one_record (rows : list StudentModule) : Prop :=
  ∀ i j a b,
    rows !! i = Some a → rows !! j = Some b →
    student a = student b → module_state_key a = module_state_key b →
    i = j.

Section RenderSpec.
Context {Mod : Type} `{XModule Mod}.

(** The records get_module builds for a student without one. *)
Definition new_instance_record (user : User) (d : Descriptor) (module : Mod)
    : StudentModule :=
  {| pk := None; student := user; module_type := category d;
     module_state_key := module_id module;
     state := get_instance_state module; grade := None;
     max_grade := max_score module |}.

Definition new_shared_record (user : User) (d : Descriptor) (key : string)
    (module : Mod) : StudentModule :=
  {| pk := None; student := user; module_type := category d;
     module_state_key := key;
     state := get_shared_state module; grade := None;
     max_grade := None |}.

End RenderSpec.

(** The two URL patterns that lead to the views of this file:
    [/modx/<id>/<dispatch>] and [/xqueue/<userid>/<id>/<dispatch>]. *)
Inductive Endpoint :=
  | ModxDispatch
  | XqueueCallback (userid : Z).

Section Serving.
Context {Mod : Type} `{XModule Mod}.
Variable env : Env.

Definition serve (e : Endpoint) (request : Request) (id dispatch : string)
    : M HttpResponse :=
  match e with
  | ModxDispatch => modx_dispatch env request dispatch id
  | XqueueCallback userid => xqueue_callback env request userid id dispatch
  end.

(** The endpoint, started in [w], reaches its call of get_module in the
    world [w0]: the steps before it have succeeded and the cache is
    built. *)
Definition reaches_get_module (e : Endpoint) (request : Request) (id : string)
    (w w0 : World) : Prop :=
  match e with
  | ModxDispatch =>
      ∃ d, modulestore env !! id = Some d ∧
           StudentModuleCache_new (req_user request) d w = (Ok (), w0)
  | XqueueCallback userid =>
      ∃ header get staff d,
        pop_xqueue_header env (POST request) = inr (header, get) ∧
        auth_user env !! userid = Some staff ∧
        modulestore env !! id = Some d ∧
        StudentModuleCache_new (RegisteredUser userid staff) d w = (Ok (), w0)
  end.

(** The command and the data the endpoint passes to handle_ajax, or the
    exception raised while preparing them. *)
Definition forwarded (e : Endpoint) (request : Request) (dispatch : string)
    : Exn + (string * QueryDict) :=
  match e with
  | ModxDispatch => inr ((Py.partition "?" dispatch).1.1, POST request)
  | XqueueCallback _ =>
      match pop_xqueue_header env (POST request) with
      | inl err => inl err
      | inr (header, get) =>
          match header_getitem header "queuekey" with
          | inl err => inl err
          | inr queuekey => inr (dispatch, querydict_update get "queuekey" queuekey)
          end
      end
  end.

(** The events [evs] save the instance record [r], with the state and the
    grade of the module [m], exactly when one of the two differs from the
    value the record [old] held. *)
Definition instance_saved_iff_changed (m : Mod) (old : StudentModule) (r : nat)
    (evs : list Event) : Prop :=
  let new_state := get_instance_state m in
  let new_grade := match get_score m with
                   | Some sc => Some (score sc)
                   | None => grade old
                   end in
  saved_iff evs r (new_grade ≠ grade old ∨ new_state ≠ state old)
            (λ row, state row = new_state ∧ grade row = new_grade).

(** The same for the shared record, which only modx_dispatch writes. *)
Definition shared_saved_iff_changed (e : Endpoint) (m : Mod) (w1 : World)
    (shared_module : option nat) (evs : list Event) : Prop :=
  match e, shared_module with
  | ModxDispatch, Some r =>
      saved_iff evs r (get_shared_state m ≠ state_at w1 (Some r))
                (λ row, state row = get_shared_state m)
  | _, _ => evs = []
  end.

End Serving.

Section RecordsSpec.
Context {Mod : Type} `{XModule Mod}.
Variable env : Env.



End RecordsSpec.

(** The object [r] and its row [row] did not exist in [w] and are, in [w'],
    in the heap, in the table, in the cache, and saved. *)
Definition newly_created (w w' : World) (r : nat) (row : StudentModule) : Prop :=
  heap w !! r = None ∧
  heap w' !! r = Some row ∧
  (∃ k, pk row = Some k ∧ db w !! k = None ∧ db w' !! k = Some row) ∧
  EvSave r row ∈ trace w' ∧
  r ∈ cache w'.

(** [w'] has the rows, objects, cache entries and events of [w], followed by
    others. *)
Definition extends (w w' : World) : Prop :=
  (∃ rows, db w' = db w ++ rows) ∧
  (∃ objs, heap w' = heap w ++ objs) ∧
  (∃ refs, cache w' = cache w ++ refs) ∧
  (∃ evs, trace w' = trace w ++ evs ∧ Forall (λ ev, is_save ev = true) evs).

(** ** A concrete module type and environment, for evaluating the model *)

Module Demo.

(** A module whose state, shared state and score change on request. *)
#[warnings="-register-all"]
Inductive DemoModule := mkDemo {
  d_id : string;
  d_metadata : gmap string string;
  d_items : list DemoModule;
  d_state : option string;
  d_shared : option string;
  d_score : option Score
}.

(** The chapters of the demo course: a hidden chapter and a visible one. *)
Definition leaf (name : string) : DemoModule :=
  mkDemo name {[ "display_name" := name ]} [] None None None.

Definition chapter (name : string) (sections : list DemoModule) : DemoModule :=
  mkDemo name {[ "display_name" := name ]} sections None None None.

Definition course_chapters : list DemoModule :=
  [chapter "hidden" [leaf "Draft"];
   chapter "Week 1" [leaf "Intro"; leaf "Homework"]].

Definition course_tree : DemoModule :=
  mkDemo "course" ∅ course_chapters None None None.

(** The module built for a descriptor: a course has the chapters above, any
    other module has no children; the states default to an empty object. The
    metadata of an html module has no data_dir. *)
Definition demo_constructor (d : Descriptor) (system : I4xSystem)
    (instance_state shared_state : option string) : DemoModule :=
  mkDemo (location_url d)
         (if decide (category d = "html") then {[ "display_name" := "Demo" ]}
          else {[ "data_dir" := "demo"; "display_name" := "Demo" ]})
         (if decide (category d = "course") then course_chapters else [])
         (Some (default "{}" instance_state)) (Some (default "{}" shared_state)) None.

Definition demo_handle_ajax (m : DemoModule) (dispatch : string) (data : QueryDict)
    : Exn + (string * DemoModule) :=
  if decide (dispatch = "score_update") then
    inr ("updated",
         mkDemo (d_id m) (d_metadata m) (d_items m) (Some "graded") (d_shared m)
                (Some {| score := 1; total := 1 |}))
  else if decide (dispatch = "share") then
    inr ("shared",
         mkDemo (d_id m) (d_metadata m) (d_items m) (d_state m) (Some "note")
                (d_score m))
  else if decide (dispatch = "crash") then inl ValueError
  else inr (dispatch, m).


Global Instance demo_node : XNode DemoModule := {
  metadata := d_metadata;
  get_children := d_items;
  get_display_items := d_items
}.

Global Instance demo_xmodule : XModule DemoModule := {
  xmodule_constructor := demo_constructor;
  module_id := d_id;
  get_instance_state := d_state;
  get_shared_state := d_shared;
  get_score := d_score;
  max_score := λ _, Some 1%Z;
  handle_ajax := demo_handle_ajax
}.

Definition problem_url : string := "i4x://edx/demo/problem/p1".

Definition problem : Descriptor :=
  {| category := "problem"; location_url := problem_url;
     shared_state_key := None; resources_fs := "fs" |}.

Definition video_url : string := "i4x://edx/demo/video/v1".

Definition video : Descriptor :=
  {| category := "video"; location_url := video_url;
     shared_state_key := Some "lecture"; resources_fs := "fs" |}.

Definition course_url : string := "i4x://edx/demo/course/2012".

Definition course : Descriptor :=
  {| category := "course"; location_url := course_url;
     shared_state_key := None; resources_fs := "fs" |}.

Definition page_url : string := "i4x://edx/demo/html/h1".

Definition page : Descriptor :=
  {| category := "html"; location_url := page_url;
     shared_state_key := None; resources_fs := "fs" |}.

(** [json.loads] on the texts the examples post: an object whose members
    are strings without escapes, and the literals null, true and false.
    Text that is not JSON, such as a bare key, is refused, as json.loads
    refuses it with ValueError. *)
Definition dquote : ascii := "034"%char.

Fixpoint skip_ws (s : string) : string :=
  match s with
  | String c rest => if decide (c = " "%char) then skip_ws rest else s
  | EmptyString => s
  end.

(** The text of a JSON string after its opening quote, and what follows
    its closing quote. *)
Fixpoint read_string (s : string) : option (string * string) :=
  match s with
  | EmptyString => None
  | String c rest =>
      if decide (c = dquote) then Some (EmptyString, rest)
      else if decide (c = "\"%char) then None
      else
        match read_string rest with
        | Some (text, after) => Some (String c text, after)
        | None => None
        end
  end.

(** A quoted string at the start of [s]. *)
Definition read_quoted (s : string) : option (string * string) :=
  match skip_ws s with
  | String c rest => if decide (c = dquote) then read_string rest else None
  | EmptyString => None
  end.

(** The members of an object, up to its closing brace and the end of the
    text. *)
Fixpoint read_members (fuel : nat) (s : string) (fields : gmap string string)
    : option (gmap string string) :=
  match fuel with
  | O => None
  | S fuel =>
      match read_quoted s with
      | Some (key, s1) =>
          match skip_ws s1 with
          | String ":" s2 =>
              match read_quoted s2 with
              | Some (value, s3) =>
                  match skip_ws s3 with
                  | String "," s4 => read_members fuel s4 (<[key := value]> fields)
                  | String "}" s4 =>
                      if decide (skip_ws s4 = EmptyString)
                      then Some (<[key := value]> fields) else None
                  | _ => None
                  end
              | None => None
              end
          | _ => None
          end
      | None => None
      end
  end.

Definition demo_json_loads (s : string) : option Json :=
  match skip_ws s with
  | String "{" rest =>
      match skip_ws rest with
      | String "}" rest' =>
          if decide (skip_ws rest' = EmptyString) then Some (JObject ∅) else None
      | _ => JObject <$> read_members (String.length s) rest ∅
      end
  | text =>
      if decide (text = "null" ∨ text = "true" ∨ text = "false")
      then Some JOther else None
  end.

(** The header the queue posts: [{"queuekey": key}] as JSON text. *)
Definition xqueue_header (key : string) : string :=
  "{" +:+ String dquote "queuekey" +:+ String dquote ": "
      +:+ String dquote key +:+ String dquote "}".

Definition demo_env : Env :=
  {| MITX_ROOT_URL := "";
     DISPLAY_HISTOGRAMS_TO_STAFF := false;
     DEBUG := false;
     modulestore := {[ problem_url := problem; video_url := video;
                       course_url := course; page_url := page ]};
     auth_user := {[ 1%Z := false; 2%Z := false ]};
     json_loads := demo_json_loads |}.

Definition alice : User := RegisteredUser 1 false.
Definition bob : User := RegisteredUser 2 false.

Definition empty_world : World := mkWorld [] [] [] [].

(** Bob already has a record for the problem; Alice has none. *)
Definition bob_row : StudentModule :=
  {| pk := Some 0; student := bob; module_type := "problem";
     module_state_key := problem_url; state := Some "{}"; grade := None;
     max_grade := Some 1%Z |}.

Definition bob_world : World := mkWorld [bob_row] [] [] [].

(** A grading callback for Alice's problem, posted in Bob's session. *)
Definition callback_request : Request :=
  {| req_user := bob; POST := {[ "xqueue_header" := [xqueue_header "key-1"] ]} |}.

(** The same callback posted without a session. *)
Definition anonymous_callback : Request :=
  {| req_user := AnonymousUser;
     POST := {[ "xqueue_header" := [xqueue_header "key-1"] ]} |}.

Definition ajax_request (u : User) : Request :=
  {| req_user := u; POST := ∅ |}.

End Demo.

(** ** grade_histogram *)

(** The order [list.sort] uses on grades: [None] sorts before every
    number. *)
Definition grade_le (a b : option Z) : Prop :=
  match a, b with
  | None, _ => True
  | Some _, None => False
  | Some x, Some y => (x ≤ y)%Z
  end.

Global Instance grade_le_dec : RelDecision grade_le.
Proof. intros [x|] [y|]; simpl; apply _. Defined.

(** [key=lambda x: x[0]] *)
Definition entry_le (x y : option Z * nat) : Prop := grade_le x.1 y.1.

Global Instance entry_le_dec : RelDecision entry_le.
Proof. intros x y. unfold entry_le. apply _. Defined.

(** One more record with grade [g] in the groups of a GROUP BY. *)
Fixpoint bump (g : option Z) (groups : list (option Z * nat)) : list (option Z * nat) :=
  match groups with
  | [] => [(g, 1)]
  | (g', n) :: rest =>
      if decide (g = g') then (g', S n) :: rest else (g', n) :: bump g rest
  end.

(** [SELECT grade, COUNT(student_id) ... GROUP BY grade] over the selected
    rows: one entry per grade, in the order in which the grades first
    occur. *)
Definition group_by_grade (rows : list StudentModule) : list (option Z * nat) :=
  fold_left (λ groups row, bump (grade row) groups) rows [].

(** [grade_histogram(module_id)] over the table [rows]. The column
    [module_id] of the query is the state key of the record, where get_module
    stores [module.id]. *)
Definition grade_histogram (rows : list StudentModule) (module_id : string)
    : list (option Z * nat) :=
  let fetched :=
    group_by_grade (filter (λ row, module_state_key row = module_id) rows) in
  let grades := merge_sort entry_le fetched in
  match grades with
  | [(None, _)] => []
  | _ => grades
  end.

(** The number of records in [groups] counted under the grade [g]. *)
Definition group_count (g : option Z) (groups : list (option Z * nat)) : nat :=
  sum_list (map snd (filter (λ entry, entry.1 = g) groups)).

(** The number of records of the module [module_id] with the grade [g]. *)
Definition records_with_grade (rows : list StudentModule) (module_id : string)
    (g : option Z) : nat :=
  length (filter (λ row, module_state_key row = module_id ∧ grade row = g) rows).

(** Strictly before, in the order of the sort. *)
Definition grade_lt (a b : option Z) : Prop := grade_le a b ∧ a ≠ b.

(** ** Whose records a request touches *)

(** Two rows are the same record up to what a request may write: they
    agree on the student, the module type, the state key and the maximal
    grade. *)
Definition same_record (a b : StudentModule) : Prop :=
  student a = student b ∧ module_type a = module_type b ∧
  module_state_key a = module_state_key b ∧ max_grade a = max_grade b.

(** Every object of the cache is a record of one of the students [us] and
    has, at its key, a row that is the same record. *)
Definition cache_owned (us : User → Prop) (w : World) : Prop :=
  ∀ r o, r ∈ cache w → heap w !! r = Some o →
    us (student o) ∧
    ∃ k row, pk o = Some k ∧ db w !! k = Some row ∧ same_record row o.

(** From [w] to [w']: every row is still there, at its key, as the same
    record, and unchanged unless it belongs to one of [us]; the rows that are
    new belong to [us]; the events added to the trace save only records of
    [us]; and a table with at most one record per student and state key
    remains one. *)
Definition rows_kept (us : User → Prop) (w w' : World) : Prop :=
  (∀ k row, db w !! k = Some row →
     ∃ row', db w' !! k = Some row' ∧ same_record row row' ∧
             (¬ us (student row) → row' = row)) ∧
  (∀ k row, db w !! k = None → db w' !! k = Some row → us (student row)) ∧
  (∃ evs, trace w' = trace w ++ evs ∧
          ∀ r row, EvSave r row ∈ evs → us (student row)) ∧
  (at_most_one_record (db w) → at_most_one_record (db w')).

(** A computation that runs with the cache [c] and keeps it, keeps its
    objects owned, keeps the rows and adds none. *)
Definition keeps {A} (us : User → Prop) (c : list nat) (m : M A) : Prop :=
  ∀ w r w', cache w = c → cache_owned us w → m w = (r, w') →
            cache w' = c ∧ cache_owned us w' ∧ rows_kept us w w' ∧
            length (db w') = length (db w).

(** The students whose records an endpoint may write: the user of the
    session when authenticated and, for the callback, the user named in the
    URL. *)
Definition writers (env : Env) (e : Endpoint) (request : Request) (s : User) : Prop :=
  (is_authenticated (req_user request) = true ∧ s = req_user request) ∨
  match e with
  | ModxDispatch => False
  | XqueueCallback userid =>
      ∃ staff, auth_user env !! userid = Some staff ∧ s = RegisteredUser userid staff
  end.

(** ** Rendering: get_html and its wrappers *)

(** The context add_histogram passes to the template
    staff_problem_info.html. *)
Record StaffContext := {
  ctx_definition : string;
  ctx_metadata : string;
  ctx_element_id : string;
  ctx_edit_link : bool;
  ctx_histogram : string;
  ctx_render_histogram : bool;
  ctx_module_content : string
}.

(** What rendering takes from outside this file: the [get_html] the module
    had before it was wrapped, [replace_urls] of static_replace, the template
    engine, [json.dumps] on the three values it is applied to,
    [module.location.html_id()], and the feature flag DISPLAY_EDIT_LINK. *)
Record Renderer (Mod : Type) := {
  original_get_html : Mod → string;
  replace_urls : string → string → string;
  render_to_string : string → StaffContext → string;
  dumps_definition : Mod → string;
  dumps_metadata : Mod → string;
  dumps_histogram : list (option Z * nat) → string;
  html_id : Mod → string;
  DISPLAY_EDIT_LINK : bool
}.
Arguments original_get_html {Mod} _ _.
Arguments replace_urls {Mod} _ _ _.
Arguments render_to_string {Mod} _ _ _.
Arguments dumps_definition {Mod} _ _.
Arguments dumps_metadata {Mod} _ _.
Arguments dumps_histogram {Mod} _ _.
Arguments html_id {Mod} _ _.
Arguments DISPLAY_EDIT_LINK {Mod} _.

(** The outcome of [module.get_html()]: the text, or the NameError of a
    name that is bound nowhere. *)
Inductive HtmlResult :=
  | Html (text : string)
  | NameError (name : string).

Section Rendering.
Context {Mod : Type} `{XModule Mod}.
Variable env : Env.
Variable R : Renderer Mod.

(** [module.get_html()] for a module whose [get_html] has been replaced by
    the wrappers [wrappers], outermost first, with the table [rows].
    - replace_static_urls: [replace_urls(original_get_html(),
      staticfiles_prefix=prefix)].
    - add_histogram: the histogram is computed first; the condition of the
      edit link reads [module_xml], which is bound neither in the function
      nor in the file, as soon as DISPLAY_EDIT_LINK and DEBUG are both set;
      otherwise [edit_link] is [False] and the template is rendered around
      [original_get_html()]. *)
Fixpoint get_html (rows : list StudentModule) (wrappers : list HtmlWrapper)
    (module : Mod) : HtmlResult :=
  match wrappers with
  | [] => Html (original_get_html R module)
  | StaticUrls prefix :: inner =>
      match get_html rows inner module with
      | Html text => Html (replace_urls R text prefix)
      | NameError name => NameError name
      end
  | Histogram :: inner =>
      let histogram := grade_histogram rows (module_id module) in
      let render_histogram := bool_decide (0 < length histogram) in
      if DISPLAY_EDIT_LINK R && DEBUG env then NameError "module_xml"
      else
        let edit_link := false in
        match get_html rows inner module with
        | Html text =>
            Html (render_to_string R "staff_problem_info.html"
                    {| ctx_definition := dumps_definition R module;
                       ctx_metadata := dumps_metadata R module;
                       ctx_element_id := html_id R module;
                       ctx_edit_link := edit_link;
                       ctx_histogram := dumps_histogram R histogram;
                       ctx_render_histogram := render_histogram;
                       ctx_module_content := text |})
        | NameError name => NameError name
        end
  end.

(** [instance.get_html()] for an instance returned by get_module. *)
Definition instance_get_html (rows : list StudentModule)
    (instance : XInstance Mod) : HtmlResult :=
  get_html rows (html_wrappers instance) (xmod instance).

End Rendering.

(** A renderer and a staff configuration for evaluating get_html. *)
Module DemoRender.

Definition renderer (edit_link : bool) : Renderer Demo.DemoModule :=
  {| original_get_html := λ m, "<p>" +:+ Demo.d_id m +:+ "</p>";
     replace_urls := λ text prefix, "[" +:+ prefix +:+ "]" +:+ text;
     render_to_string := λ template ctx,
       template +:+ "(" +:+ ctx_module_content ctx +:+ ")";
     dumps_definition := λ _, "{}";
     dumps_metadata := λ _, "{}";
     dumps_histogram := λ h, Py.str_of_Z (Z.of_nat (length h));
     html_id := Demo.d_id;
     DISPLAY_EDIT_LINK := edit_link |}.

Definition staff_env (debug : bool) : Env :=
  {| MITX_ROOT_URL := "";
     DISPLAY_HISTOGRAMS_TO_STAFF := true;
     DEBUG := debug;
     modulestore := modulestore Demo.demo_env;
     auth_user := {[ 3%Z := true ]};
     json_loads := Demo.demo_json_loads |}.

Definition carol : User := RegisteredUser 3 true.

(** Two graded records and an ungraded one for the problem. *)
Definition graded_rows : list StudentModule :=
  [ {| pk := Some 0; student := Demo.alice; module_type := "problem";
       module_state_key := Demo.problem_url; state := None;
       grade := Some 1%Z; max_grade := Some 1%Z |};
    Demo.bob_row;
    {| pk := Some 2; student := carol; module_type := "problem";
       module_state_key := Demo.problem_url; state := None;
       grade := Some 0%Z; max_grade := Some 1%Z |} ].

End DemoRender.

(** ** The stored record of a student for a module *)

(** The row is a record of the student [u] with the module type [t] and the
    state key [k]. *)
Definition record_matches (u : User) (t k : string) (row : StudentModule) : Prop :=
  student row = u ∧ module_type row = t ∧ module_state_key row = k.

Global Instance record_matches_dec u t k row : Decision (record_matches u t k row).
Proof. unfold record_matches. apply _. Defined.

(** The first such row of the table, and its state. *)
Definition stored_record (rows : list StudentModule) (u : User) (t k : string)
    : option StudentModule :=
  snd <$> list_find (record_matches u t k) rows.

Definition stored_state (rows : list StudentModule) (u : User) (t k : string)
    : option string :=
  stored_record rows u t k ≫= state.

(** The object [r] is the record [o], and the row at its key [k] is that
    record. *)
Definition backed (w : World) (r : nat) (o : StudentModule) (k : nat) : Prop :=
  heap w !! r = Some o ∧ pk o = Some k ∧
  ∃ row, db w !! k = Some row ∧ o = with_pk k row.

(** * Properties *)

(** ** str.partition *)

Lemma partition_absent (c : ascii) (s : string) :
  Py.contains c s = false → Py.partition c s = (s, "", "").
Proof.
  induction s as [|a s IH]; simpl; [done|].
  destruct (decide (a = c)); [done|].
  intros Hs. by rewrite (IH Hs).
Qed.

Lemma partition_present (c : ascii) (s : string) :
  Py.contains c s = true →
  ∃ before after,
    Py.partition c s = (before, String c "", after) ∧
    s = before +:+ String c after ∧
    Py.contains c before = false.
Proof.
  induction s as [|a s IH]; simpl; [done|].
  destruct (decide (a = c)) as [->|Hne].
  - intros _. by exists "", s.
  - intros Hs. destruct (IH Hs) as (before & after & Hp & -> & Hb).
    exists (String a before), after. rewrite Hp. simpl.
    destruct (decide (a = c)); [done|]. by rewrite Hb.
Qed.

(** What precedes the first separator does not contain it and is a fixed
    point of the operation. *)
Lemma partition_before_stable (c : ascii) (s : string) :
  Py.partition c (Py.partition c s).1.1 = ((Py.partition c s).1.1, "", "").
Proof.
  destruct (Py.contains c s) eqn:Hs.
  - destruct (partition_present c s Hs) as (before & after & -> & _ & Hb).
    simpl. by apply partition_absent.
  - rewrite (partition_absent c s Hs). simpl. by apply partition_absent.
Qed.

Example partition_with_arguments :
  Py.partition "?" "problem_check?x=1&y=2?z" = ("problem_check", "?", "x=1&y=2?z").
Proof. reflexivity. Qed.

Example partition_plain :
  Py.partition "?" "problem_reset" = ("problem_reset", "", "").
Proof. reflexivity. Qed.

(** ** Linear search by display name *)

Section StructureFacts.
Context {T : Type} `{XNode T}.

Lemma first_named_Some (name : option string) (xs : list T) (x : T) :
  first_named name xs = Some x ↔ is_first_named name xs x.
Proof.
  induction xs as [|y xs IH]; simpl.
  - split; [done|]. intros (before & after & Heq & _). by destruct before.
  - case_bool_decide as Hy.
    + split.
      * intros [= ->]. exists [], xs. by repeat split.
      * intros (before & after & Heq & Hx & Hnone).
        destruct before as [|b before]; simpl in Heq.
        -- by injection Heq as ->.
        -- injection Heq as -> _. by apply Forall_cons in Hnone as [? _].
    + rewrite IH. split.
      * intros (before & after & -> & Hx & Hnone).
        exists (y :: before), after. repeat split; [done|by constructor].
      * intros (before & after & Heq & Hx & Hnone).
        destruct before as [|b before]; simpl in Heq.
        -- injection Heq as -> _. done.
        -- injection Heq as -> ->. apply Forall_cons in Hnone as [_ ?].
           by exists before, after.
Qed.

Lemma first_named_None (name : option string) (xs : list T) :
  first_named name xs = None ↔ Forall (λ y, display_name y ≠ name) xs.
Proof.
  induction xs as [|y xs IH]; simpl.
  - split; [constructor|done].
  - case_bool_decide as Hy.
    + split; [done|]. intros [? _]%Forall_cons. done.
    + rewrite IH. split; [by constructor|]. by intros [_ ?]%Forall_cons.
Qed.

(** C6: get_section returns the first child of the course whose display
    name is the chapter name and, within it, the first child whose display
    name is the section name; it returns None when the course is None, when
    no child has the chapter name, and when no grandchild has the section
    name. *)
Theorem get_section_linear_search (course_module : option T)
    (chapter section : option string) :
  (∀ s, get_section course_module chapter section = Some s ↔
        ∃ course chapter_module,
          course_module = Some course ∧
          is_first_named chapter (get_children course) chapter_module ∧
          is_first_named section (get_children chapter_module) s) ∧
  (course_module = None → get_section course_module chapter section = None) ∧
  (∀ course, course_module = Some course →
     Forall (λ c, display_name c ≠ chapter) (get_children course) →
     get_section course_module chapter section = None) ∧
  (∀ course, course_module = Some course →
     Forall (λ c, Forall (λ s, display_name s ≠ section) (get_children c))
            (get_children course) →
     get_section course_module chapter section = None).
Proof.
  repeat split.
  - destruct course_module as [course|]; simpl; [|done].
    destruct (first_named chapter (get_children course)) as [cm|] eqn:Hc; [|done].
    intros Hs. exists course, cm.
    by rewrite <- !first_named_Some.
  - intros (course & cm & -> & Hc & Hs). simpl.
    apply first_named_Some in Hc. rewrite Hc. by apply first_named_Some.
  - by intros ->.
  - intros course -> Hnone. simpl.
    apply first_named_None in Hnone. by rewrite Hnone.
  - intros course -> Hnone. simpl.
    destruct (first_named chapter (get_children course)) as [cm|] eqn:Hc; [|done].
    apply first_named_None.
    apply first_named_Some in Hc as (before & after & Heq & _).
    rewrite Heq in Hnone. apply Forall_app in Hnone as [_ Hnone].
    by apply Forall_cons in Hnone as [? _].
Qed.

(** ** The table of contents *)

Lemma fold_left_append {A B} (f : A → B) (xs : list A) (acc : list B) :
  fold_left (λ acc x, acc ++ [f x]) xs acc = acc ++ map f xs.
Proof.
  revert acc. induction xs as [|x xs IH]; intros acc; simpl.
  - by rewrite app_nil_r.
  - by rewrite IH, <- app_assoc.
Qed.

Lemma toc_sections_map (active_chapter active_section : option string) (chapter : T) :
  toc_sections active_chapter active_section chapter =
  map (section_entry active_chapter active_section chapter)
      (get_display_items chapter).
Proof. unfold toc_sections. by rewrite fold_left_append. Qed.

Lemma toc_chapters_map (course : T) (active_chapter active_section : option string) :
  toc_chapters course active_chapter active_section =
  map (chapter_entry active_chapter active_section) (get_display_items course).
Proof. unfold toc_chapters. by rewrite fold_left_append. Qed.

Lemma toc_chapters_listed (course : T) (active_chapter active_section : option string) :
  Forall2 (chapter_listed active_chapter active_section)
          (get_display_items course)
          (toc_chapters course active_chapter active_section).
Proof.
  rewrite toc_chapters_map. apply Forall2_fmap_r, Forall_Forall2_diag.
  apply Forall_forall. intros chapter _. unfold chapter_listed. simpl.
  split; [done|]. split; [apply bool_decide_eq_true|].
  rewrite toc_sections_map. apply Forall2_fmap_r, Forall_Forall2_diag.
  apply Forall_forall. intros section _. simpl. split; [done|].
  rewrite andb_true_iff, !bool_decide_eq_true. done.
Qed.

End StructureFacts.

(** The demo course: the search finds a section of a chapter, and nothing
    for a section of another chapter; its table of contents lists the hidden
    chapter. *)
Example get_section_found :
  get_section (Some Demo.course_tree) (Some "Week 1") (Some "Homework") =
  Some (Demo.leaf "Homework").
Proof. reflexivity. Qed.

Example get_section_other_chapter :
  get_section (Some Demo.course_tree) (Some "Week 1") (Some "Draft") = None.
Proof. reflexivity. Qed.

Example toc_lists_hidden_chapter :
  map (λ entry, (chap_name entry, chap_active entry,
                 map (λ s, (sec_name s, sec_active s)) (chap_sections entry)))
      (toc_chapters Demo.course_tree (Some "Week 1") (Some "Intro")) =
  [ (Some "hidden", false, [(Some "Draft", false)]);
    (Some "Week 1", true, [(Some "Intro", true); (Some "Homework", false)]) ].
Proof. reflexivity. Qed.

(** ** Running the monad *)

Lemma bind_run {A B} (m : M A) (f : A → M B) (w : World) :
  (m ≫= f) w =
  match m w with
  | (Ok a, w1) => f a w1
  | (Raise e, w1) => (Raise e, w1)
  end.
Proof. reflexivity. Qed.

Lemma bind_inv {A B} (m : M A) (f : A → M B) (w : World) r w' :
  (m ≫= f) w = (r, w') →
  (∃ a w1, m w = (Ok a, w1) ∧ f a w1 = (r, w')) ∨
  (∃ e, m w = (Raise e, w') ∧ r = Raise e).
Proof.
  rewrite bind_run. destruct (m w) as [[a|e] w1]; intros Hr.
  - left. by exists a, w1.
  - right. exists e. by simplify_eq.
Qed.

Lemma bind_Ok_inv {A B} (m : M A) (f : A → M B) (w : World) b w' :
  (m ≫= f) w = (Ok b, w') →
  ∃ a w1, m w = (Ok a, w1) ∧ f a w1 = (Ok b, w').
Proof.
  intros [Hr|(e & _ & ?)]%bind_inv; [done|discriminate].
Qed.

Lemma ret_inv {A} (a : A) (w : World) r w' :
  mret (M:=M) a w = (r, w') → r = Ok a ∧ w' = w.
Proof. unfold mret, M_ret. by intros [= <- <-]. Qed.




Lemma deref_run (x : nat) (w : World) o :
  heap w !! x = Some o → deref x w = (Ok o, w).
Proof. unfold deref. by intros ->. Qed.

Lemma modify_run (x : nat) f (w : World) o :
  heap w !! x = Some o →
  modify x f w = (Ok (), mkWorld (db w) (<[x := f o]> (heap w)) (cache w) (trace w)).
Proof. unfold modify. by intros ->. Qed.


Lemma lookup_refs_Some objs refs type key r :
  lookup_refs objs refs type key = Some r →
  ∃ o, objs !! r = Some o ∧ module_type o = type ∧ module_state_key o = key ∧
       r ∈ refs.
Proof.
  induction refs as [|r0 refs IH]; simpl; [done|].
  destruct (objs !! r0) as [o|] eqn:Ho.
  - destruct (bool_decide (module_type o = type) &&
              bool_decide (module_state_key o = key)) eqn:Hm.
    + intros [= <-]. apply andb_true_iff in Hm as [Ht Hk].
      apply bool_decide_eq_true in Ht, Hk.
      exists o. repeat split; try done. left.
    + intros Hr. destruct (IH Hr) as (o' & ? & ? & ? & ?).
      exists o'. repeat split; try done. by right.
  - intros Hr. destruct (IH Hr) as (o' & ? & ? & ? & ?).
    exists o'. repeat split; try done. by right.
Qed.



(** *** save *)

Lemma save_inv (x : nat) (w : World) r w' :
  save x w = (r, w') →
  match r with
  | Ok _ =>
      ∃ o row, heap w !! x = Some o ∧
        trace w' = trace w ++ [EvSave x row] ∧
        cache w' = cache w ∧
        heap w' = <[x := row]> (heap w) ∧
        match pk o with
        | Some k => row = o ∧ db w' = <[k := o]> (db w)
        | None => row = with_pk (length (db w)) o ∧ db w' = db w ++ [row]
        end
  | Raise e =>
      w' = w ∧
      (e = InvalidReference ∧ heap w !! x = None ∨
       e = IntegrityError ∧
         ∃ o, heap w !! x = Some o ∧ pk o = None ∧ occupied (db w) o)
  end.
Proof.
  unfold save. destruct (heap w !! x) as [o|] eqn:Ho.
  - destruct (pk o) eqn:Hpk.
    + intros [= <- <-]; simpl.
      exists o, o. rewrite Hpk. repeat split; try done.
      symmetry. by apply list_insert_id.
    + destruct (decide (occupied (db w) o)) as [Hocc|Hfree];
        intros [= <- <-]; simpl.
      * split; [done|]. right. split; [done|]. by exists o.
      * exists o, (with_pk (length (db w)) o). rewrite Hpk. by repeat split.
  - intros [= <- <-]. split; [done|]. by left.
Qed.

(** ** get_module *)

Section RenderFacts.
Context {Mod : Type} `{XModule Mod}.
Variable env : Env.

Lemma create_run (o : StudentModule) (w : World) :
  pk o = None →
  (r ← new_instance o; save r ;; cache_append r ;; mret (Some r)) w =
  if decide (occupied (db w) o) then (Raise IntegrityError, refused w o)
  else (Ok (Some (length (heap w))), created w o).
Proof.
  intros Hpk. unfold new_instance, save, cache_append, created, refused.
  rewrite !bind_run. simpl.
  rewrite lookup_app_r, Nat.sub_diag by lia. simpl. rewrite Hpk. simpl.
  destruct (decide (occupied (db w) o)); [done|].
  rewrite !bind_run. simpl. unfold mret, M_ret. do 3 f_equal.
  rewrite insert_app_r_alt, Nat.sub_diag by lia. done.
Qed.

Lemma state_of_found (w : World) type key :
  state_of (lookup_refs (heap w) (cache w) type key) w =
  (Ok (state_at w (lookup_refs (heap w) (cache w) type key)), w).
Proof.
  destruct (lookup_refs (heap w) (cache w) type key) as [r|] eqn:Hr; simpl; [|done].
  apply lookup_refs_Some in Hr as (o & Ho & _).
  by rewrite bind_run, (deref_run _ _ _ Ho), Ho.
Qed.

Lemma get_module_run (user : User) (location : string)
    (position : option string) (w : World) :
  get_module env user location position w =
  match modulestore env !! location with
  | None => (Raise (ItemNotFoundError location), w)
  | Some d =>
      let found_i := lookup_refs (heap w) (cache w) (category d) (location_url d) in
      let found_s :=
        match shared_state_key d with
        | Some key => lookup_refs (heap w) (cache w) (category d) key
        | None => None
        end in
      let m := xmodule_constructor d (make_system env user d position)
                 (state_at w found_i) (state_at w found_s) in
      match metadata m !! "data_dir" with
      | None => (Raise (KeyError "data_dir"), w)
      | Some prefix =>
          let module := replace_static_urls (mkXInstance m []) prefix in
          let module := if DISPLAY_HISTOGRAMS_TO_STAFF env && is_staff user
                        then add_histogram module else module in
          if is_authenticated user then
            let shared_step im w1 :=
              match found_s, shared_state_key d with
              | None, Some key =>
                  let o := new_shared_record user d key m in
                  if decide (occupied (db w1) o)
                  then (Raise IntegrityError, refused w1 o)
                  else (Ok (module, im, Some (length (heap w1)), category d),
                        created w1 o)
              | _, _ => (Ok (module, im, found_s, category d), w1)
              end in
            match found_i with
            | Some r => shared_step (Some r) w
            | None =>
                let o := new_instance_record user d m in
                if decide (occupied (db w) o)
                then (Raise IntegrityError, refused w o)
                else shared_step (Some (length (heap w))) (created w o)
            end
          else (Ok (module, found_i, found_s, category d), w)
      end
  end.
Proof.
  unfold get_module, modulestore_get_item.
  destruct (modulestore env !! location) as [d|]; [|done].
  rewrite bind_run. simpl. rewrite bind_run. simpl.
  rewrite bind_run.
  assert (Hs : (match shared_state_key d with
                | Some key => cache_lookup (category d) key
                | None => mret None
                end) w =
               (Ok (match shared_state_key d with
                    | Some key => lookup_refs (heap w) (cache w) (category d) key
                    | None => None
                    end), w)).
  { by destruct (shared_state_key d). }
  rewrite Hs. clear Hs.
  rewrite bind_run, state_of_found.
  rewrite bind_run.
  assert (Hs : state_of (match shared_state_key d with
                    | Some key => lookup_refs (heap w) (cache w) (category d) key
                    | None => None
                    end) w =
               (Ok (state_at w (match shared_state_key d with
                    | Some key => lookup_refs (heap w) (cache w) (category d) key
                    | None => None
                    end)), w)).
  { destruct (shared_state_key d); [apply state_of_found|done]. }
  rewrite Hs. clear Hs.
  cbv zeta. rewrite bind_run. unfold metadata_getitem. simpl.
  destruct (metadata _ !! "data_dir") as [prefix|]; [|done].
  simpl. destruct (is_authenticated user); [|done].
  destruct (DISPLAY_HISTOGRAMS_TO_STAFF env && is_staff user); simpl.
  all: rewrite bind_run.
  all:
  destruct (lookup_refs (heap w) (cache w) (category d) (location_url d))
    as [r|] eqn:Hi.
  all: try (rewrite create_run by done).
  all: unfold new_instance_record, new_shared_record; cbv beta zeta.
  all: try (destruct (decide (occupied (db w) _)); [done|]).
  all: simpl; rewrite bind_run.
  all: destruct (shared_state_key d) as [key|] eqn:Hk; [|done].
  all: match goal with
       | |- context [lookup_refs ?a ?b ?c ?k] => destruct (lookup_refs a b c k)
       end; [done|].
  all: rewrite create_run by done.
  all: by destruct (decide (occupied _ _)).
Qed.

(** A call that returns has run as if the table accepted every insert. *)
Lemma get_module_Ok_run (user : User) (location : string)
    (position : option string) (w : World) res w' :
  get_module env user location position w = (Ok res, w') →
  match modulestore env !! location with
  | None => (Raise (ItemNotFoundError location), w)
  | Some d =>
      let found_i := lookup_refs (heap w) (cache w) (category d) (location_url d) in
      let found_s :=
        match shared_state_key d with
        | Some key => lookup_refs (heap w) (cache w) (category d) key
        | None => None
        end in
      let m := xmodule_constructor d (make_system env user d position)
                 (state_at w found_i) (state_at w found_s) in
      match metadata m !! "data_dir" with
      | None => (Raise (KeyError "data_dir"), w)
      | Some prefix =>
          let module := replace_static_urls (mkXInstance m []) prefix in
          let module := if DISPLAY_HISTOGRAMS_TO_STAFF env && is_staff user
                        then add_histogram module else module in
          if is_authenticated user then
            let '(im, w1) :=
              match found_i with
              | Some r => (Some r, w)
              | None => (Some (length (heap w)),
                         created w (new_instance_record user d m))
              end in
            let '(sm, w2) :=
              match found_s, shared_state_key d with
              | None, Some key =>
                  (Some (length (heap w1)),
                   created w1 (new_shared_record user d key m))
              | _, _ => (found_s, w1)
              end in
            (Ok (module, im, sm, category d), w2)
          else (Ok (module, found_i, found_s, category d), w)
      end
  end = (Ok res, w').
Proof.
  rewrite get_module_run.
  destruct (modulestore env !! location) as [d|]; [|done].
  cbv beta zeta.
  destruct (metadata _ !! "data_dir") as [prefix|]; [|done].
  destruct (is_authenticated user); [|done].
  destruct (lookup_refs _ _ _ (location_url d));
    (destruct (shared_state_key d) as [key|];
     [destruct (lookup_refs _ _ _ key)|]);
    repeat case_decide; done.
Qed.



Lemma extends_refl (w : World) : extends w w.
Proof.
  repeat split; [by exists []; rewrite app_nil_r..|].
  exists []. by rewrite app_nil_r.
Qed.

Lemma extends_created (w w1 : World) (o : StudentModule) :
  extends w w1 → extends w (created w1 o).
Proof.
  intros ((rows & Hdb) & (objs & Hheap) & (refs & Hcache) & (evs & Htr & Hevs)).
  unfold created. repeat split; simpl.
  - eexists. by rewrite Hdb, <- app_assoc.
  - eexists. by rewrite Hheap, <- app_assoc.
  - eexists. by rewrite Hcache, <- app_assoc.
  - eexists. rewrite Htr, <- app_assoc. split; [done|].
    apply Forall_app. split; [done|]. by repeat constructor.
Qed.

Lemma extends_refused (w w1 : World) (o : StudentModule) :
  extends w w1 → extends w (refused w1 o).
Proof.
  intros (Hdb & (objs & Hheap) & Hcache & Htr).
  unfold refused. split; [done|]. split; [|done]. simpl.
  eexists. by rewrite Hheap, <- app_assoc.
Qed.

Lemma newly_created_created (w w1 : World) (o : StudentModule) :
  extends w w1 →
  newly_created w (created w1 o) (length (heap w1)) (with_pk (length (db w1)) o).
Proof.
  intros ((rows & Hdb) & (objs & Hheap) & _).
  unfold newly_created, created; simpl. repeat split.
  - apply lookup_ge_None. rewrite Hheap, length_app. lia.
  - by rewrite lookup_app_r, Nat.sub_diag by lia.
  - exists (length (db w1)). repeat split.
    + apply lookup_ge_None. rewrite Hdb, length_app. lia.
    + by rewrite lookup_app_r, Nat.sub_diag by lia.
  - apply elem_of_app. right. apply list_elem_of_singleton. done.
  - apply elem_of_app. right. by apply list_elem_of_singleton.
Qed.

Lemma newly_created_extends (w w1 w2 : World) r row :
  newly_created w w1 r row → extends w1 w2 → newly_created w w2 r row.
Proof.
  intros (Hfresh & Hheap & (k & Hpk & Hk & Hdb) & Hev & Hc)
         ((rows & Hdb2) & (objs & Hheap2) & (refs & Hcache2) & (evs & Htr2 & _)).
  repeat split; [done|..].
  - rewrite Hheap2. by apply lookup_app_l_Some.
  - exists k. repeat split; [done..|]. rewrite Hdb2. by apply lookup_app_l_Some.
  - rewrite Htr2. apply elem_of_app. by left.
  - rewrite Hcache2. apply elem_of_app. by left.
Qed.

Lemma occupied_created (w : World) (o o' : StudentModule) :
  occupied (db (created w o)) o' ↔
  occupied (db w) o' ∨
  student o = student o' ∧ module_state_key o = module_state_key o'.
Proof.
  unfold occupied. simpl. rewrite Exists_app, Exists_cons, Exists_nil. simpl.
  tauto.
Qed.

(** C2, as amended: for a module the store knows, whose metadata has a
    data_dir, and when the table accepts the records to insert (the user has
    no row with the state key of a record that is missing from the cache),
    get_module returns; for an authenticated user without an instance record
    in the cache it creates one, saves it and appends it to the cache, and
    likewise a shared record when the module has a shared state key and the
    cache has no record for it; for a user who is not authenticated it
    creates nothing and returns what the cache lookups found, which may be
    None. *)
Theorem get_module_creates_records (user : User) (location : string)
    (position : option string) (w : World) (d : Descriptor) (prefix : string) :
  let found_i := lookup_refs (heap w) (cache w) (category d) (location_url d) in
  let found_s :=
    match shared_state_key d with
    | Some key => lookup_refs (heap w) (cache w) (category d) key
    | None => None
    end in
  let m := xmodule_constructor d (make_system env user d position)
             (state_at w found_i) (state_at w found_s) in
  modulestore env !! location = Some d →
  metadata m !! "data_dir" = Some prefix →
  (is_authenticated user = true → found_i = None →
     ¬ occupied (db w) (new_instance_record user d m)) →
  (is_authenticated user = true →
     ∀ key, shared_state_key d = Some key → found_s = None →
       ¬ occupied (db w) (new_shared_record user d key m) ∧
       (found_i = None → key ≠ module_id m)) →
  ∃ module instance_module shared_module w',
    get_module env user location position w =
      (Ok (module, instance_module, shared_module, category d), w') ∧
    xmod module = m ∧
    (is_authenticated user = false →
       w' = w ∧ instance_module = found_i ∧ shared_module = found_s) ∧
    (is_authenticated user = true →
       match found_i with
       | Some r => instance_module = Some r
       | None =>
           ∃ r k, instance_module = Some r ∧
             newly_created w w' r (with_pk k (new_instance_record user d m))
       end ∧
       match found_s, shared_state_key d with
       | None, Some key =>
           ∃ r k, shared_module = Some r ∧
             newly_created w w' r (with_pk k (new_shared_record user d key m))
       | _, _ => shared_module = found_s
       end).
Proof.
  intros found_i found_s m Hd Hprefix Hfree_i Hfree_s.
  rewrite get_module_run, Hd. cbv beta zeta.
  subst m found_s found_i.
  set (found_i := lookup_refs _ _ _ (location_url d)) in *.
  set (found_s := match shared_state_key d with Some _ => _ | None => _ end) in *.
  set (m := xmodule_constructor _ _ _ _) in *.
  rewrite Hprefix.
  set (module := if DISPLAY_HISTOGRAMS_TO_STAFF env && is_staff user
                 then add_histogram (replace_static_urls (mkXInstance m []) prefix)
                 else replace_static_urls (mkXInstance m []) prefix).
  assert (Hm : xmod module = m).
  { subst module. by destruct (DISPLAY_HISTOGRAMS_TO_STAFF env && is_staff user). }
  clearbody module m. subst found_s. clearbody found_i.
  destruct (is_authenticated user).
  2: { eexists _, _, _, _. split; [done|]. split; [done|]. split; [done|]. done. }
  specialize (Hfree_i eq_refl). specialize (Hfree_s eq_refl).
  destruct found_i as [r|].
  - destruct (shared_state_key d) as [key|];
      [destruct (lookup_refs _ _ _ key) as [rs|]|].
    + eexists _, _, _, _. split; [done|]. split; [done|]. split; [done|]. by intros _.
    + destruct (Hfree_s key eq_refl eq_refl) as [Hfree _].
      rewrite decide_False by done.
      eexists _, _, _, _. split; [done|]. split; [done|]. split; [done|].
      intros _. split; [done|]. eexists _, _. split; [done|].
      apply newly_created_created, extends_refl.
    + eexists _, _, _, _. split; [done|]. split; [done|]. split; [done|]. by intros _.
  - rewrite decide_False by (by apply Hfree_i).
    destruct (shared_state_key d) as [key|];
      [destruct (lookup_refs _ _ _ key) as [rs|]|].
    + eexists _, _, _, _. split; [done|]. split; [done|]. split; [done|].
      intros _. split; [|done]. eexists _, _. split; [done|].
      apply newly_created_created, extends_refl.
    + destruct (Hfree_s key eq_refl eq_refl) as [Hfree Hne].
      rewrite decide_False.
      2: { rewrite occupied_created. intros [?|[_ Heq]]; [done|].
           simpl in Heq. by apply (Hne eq_refl). }
      eexists _, _, _, _. split; [done|]. split; [done|]. split; [done|].
      intros _. split.
      * eexists _, _. split; [done|].
        eapply newly_created_extends.
        -- apply newly_created_created, extends_refl.
        -- apply extends_created, extends_refl.
      * eexists _, _. split; [done|].
        apply newly_created_created, extends_created, extends_refl.
    + eexists _, _, _, _. split; [done|]. split; [done|]. split; [done|].
      intros _. split; [|done]. eexists _, _. split; [done|].
      apply newly_created_created, extends_refl.
Qed.

End RenderFacts.

(** ** The endpoints *)

Section ServeFacts.
Context {Mod : Type} `{XModule Mod}.
Variable env : Env.

(** get_module only adds to the world. *)
Lemma get_module_extends (user : User) (location : string)
    (position : option string) (w : World) r w' :
  get_module env user location position w = (r, w') → extends w w'.
Proof.
  rewrite get_module_run.
  destruct (modulestore env !! location) as [d|];
    [|intros [= <- <-]; apply extends_refl].
  cbv beta zeta.
  destruct (metadata _ !! "data_dir") as [prefix|];
    [|intros [= <- <-]; apply extends_refl].
  destruct (is_authenticated user); [|intros [= <- <-]; apply extends_refl].
  destruct (lookup_refs _ _ _ (location_url d));
    (destruct (shared_state_key d) as [key|];
     [destruct (lookup_refs _ _ _ key)|]);
    repeat case_decide;
    intros [= <- <-];
    repeat first [apply extends_created|apply extends_refused];
    apply extends_refl.
Qed.

(** A call that returns no instance record was made for a user who is not
    authenticated, and has changed nothing. *)
Lemma get_module_None (user : User) (location : string)
    (position : option string) (w : World) module sm mt w' :
  get_module env user location position w = (Ok (module, None, sm, mt), w') →
  is_authenticated user = false ∧ w' = w.
Proof.
  intros Hgm%get_module_Ok_run. revert Hgm.
  destruct (modulestore env !! location) as [d|]; [|done].
  cbv zeta.
  destruct (metadata _ !! "data_dir") as [prefix|]; [|done].
  destruct (is_authenticated user); [|by intros [= <- <- <- <- <-]].
  destruct (lookup_refs _ _ _ (location_url d));
    (destruct (shared_state_key d) as [key|];
     [destruct (lookup_refs _ _ _ key)|]);
    intros [=].
Qed.

Lemma created_heap_valid (w : World) (o : StudentModule) r :
  is_Some (heap w !! r) → is_Some (heap (created w o) !! r).
Proof.
  intros [x Hx]. exists x. simpl. by apply lookup_app_l_Some.
Qed.

Lemma created_heap_new (w : World) (o : StudentModule) :
  is_Some (heap (created w o) !! length (heap w)).
Proof.
  eexists. simpl. by rewrite lookup_app_r, Nat.sub_diag by lia.
Qed.

(** The objects of a new cache have a key. *)
Lemma StudentModuleCache_new_saved (user : User) (d : Descriptor) (w w0 : World) res :
  StudentModuleCache_new user d w = (res, w0) →
  ∀ r o, r ∈ cache w0 → heap w0 !! r = Some o → is_Some (pk o).
Proof.
  intros [= <- <-] r o Hr Ho. simpl in *.
  apply elem_of_seq in Hr as [Hge Hlt].
  rewrite lookup_app_r in Ho by done.
  assert (Hin : o ∈ (if is_authenticated user
                     then filter (λ row, student row = user) (imap with_pk (db w))
                     else [])).
  { apply list_elem_of_lookup. by eexists. }
  destruct (is_authenticated user); [|by apply elem_of_nil in Hin].
  apply list_elem_of_filter in Hin as [_ Hin].
  apply elem_of_lookup_imap in Hin as (k & row & -> & _). by eexists.
Qed.

Lemma reaches_get_module_saved (e : Endpoint) (request : Request) (id : string)
    (w w0 : World) :
  reaches_get_module env e request id w w0 →
  ∀ r o, r ∈ cache w0 → heap w0 !! r = Some o → is_Some (pk o).
Proof.
  destruct e as [|userid]; simpl.
  - intros (d & _ & Hnew). by eapply StudentModuleCache_new_saved.
  - intros (header & get & staff & d & _ & _ & _ & Hnew).
    by eapply StudentModuleCache_new_saved.
Qed.

(** When the objects of the cache have a key, the records get_module
    returns are objects of the heap that have a key. *)
Lemma get_module_saved (user : User) (location : string)
    (position : option string) (w : World) module im sm mt w' :
  (∀ r o, r ∈ cache w → heap w !! r = Some o → is_Some (pk o)) →
  get_module env user location position w = (Ok (module, im, sm, mt), w') →
  (∀ r, im = Some r → ∃ o, heap w' !! r = Some o ∧ is_Some (pk o)) ∧
  (∀ r, sm = Some r → ∃ o, heap w' !! r = Some o ∧ is_Some (pk o)).
Proof.
  intros Hsaved Hgm%get_module_Ok_run. revert Hgm.
  destruct (modulestore env !! location) as [d|]; [|done].
  cbv zeta.
  destruct (metadata _ !! "data_dir") as [prefix|]; [|done].
  assert (Hfound : ∀ type key r,
            lookup_refs (heap w) (cache w) type key = Some r →
            ∃ o, heap w !! r = Some o ∧ is_Some (pk o)).
  { intros type key r (o & Ho & _ & _ & Hr)%lookup_refs_Some.
    exists o. split; [done|]. by eapply Hsaved. }
  assert (Hold : ∀ w1 o' r,
            (∃ o, heap w1 !! r = Some o ∧ is_Some (pk o)) →
            ∃ o, heap (created w1 o') !! r = Some o ∧ is_Some (pk o)).
  { intros w1 o' r (o & Ho & Hpk). exists o. split; [|done].
    simpl. by apply lookup_app_l_Some. }
  assert (Hnew : ∀ w1 o',
            ∃ o, heap (created w1 o') !! length (heap w1) = Some o ∧
                 is_Some (pk o)).
  { intros w1 o'. eexists. simpl.
    split; [by rewrite lookup_app_r, Nat.sub_diag by lia|]. by eexists. }
  destruct (is_authenticated user).
  - destruct (lookup_refs _ _ _ (location_url d)) as [ri|] eqn:Hi;
      (destruct (shared_state_key d) as [key|];
       [destruct (lookup_refs _ _ _ key) as [rs|] eqn:Hs|]);
      intros [= <- <- <- <- <-]; split; intros r [= <-];
      first [by eapply Hfound
            |apply Hold; by eapply Hfound
            |apply Hnew
            |apply Hold, Hnew
            |apply Hold, Hold; by eapply Hfound
            |exact (Hnew (created w _) _)].
  - intros [= <- <- <- <- <-]. split; intros r Hr.
    + by eapply Hfound.
    + destruct (shared_state_key d); [by eapply Hfound|done].
Qed.

(** The records get_module returns are objects of the heap. *)
Lemma get_module_valid (user : User) (location : string)
    (position : option string) (w : World) module im sm mt w' :
  get_module env user location position w = (Ok (module, im, sm, mt), w') →
  (∀ r, im = Some r → is_Some (heap w' !! r)) ∧
  (∀ r, sm = Some r → is_Some (heap w' !! r)).
Proof.
  intros Hgm%get_module_Ok_run. revert Hgm.
  destruct (modulestore env !! location) as [d|]; [|done].
  cbv zeta.
  destruct (metadata _ !! "data_dir") as [prefix|]; [|done].
  assert (Hfound : ∀ type key r,
            lookup_refs (heap w) (cache w) type key = Some r →
            is_Some (heap w !! r)).
  { intros type key r (o & Ho & _)%lookup_refs_Some. by exists o. }
  destruct (is_authenticated user).
  - destruct (lookup_refs _ _ _ (location_url d)) as [ri|] eqn:Hi;
      (destruct (shared_state_key d) as [key|];
       [destruct (lookup_refs _ _ _ key) as [rs|] eqn:Hs|]);
      intros [= <- <- <- <- <-]; split; intros r [= <-];
      eauto using created_heap_valid, created_heap_new.
    apply (created_heap_new (created w _)).
  - intros [= <- <- <- <- <-]. split; intros r Hr.
    + eauto.
    + destruct (shared_state_key d); [eauto|done].
Qed.

(** *** The block that writes the instance record back *)

Lemma save_instance_module_run (instance : XInstance Mod) (im : nat)
    (w : World) (old : StudentModule) :
  heap w !! im = Some old →
  is_Some (pk old) →
  ∃ w' evs,
    save_instance_module instance im (grade old) (state old) w = (Ok (), w') ∧
    trace w' = trace w ++ evs ∧
    instance_saved_iff_changed (xmod instance) old im evs ∧
    (∀ r o, heap w !! r = Some o → ∃ o', heap w' !! r = Some o' ∧ pk o' = pk o) ∧
    (∀ r, r ≠ im → heap w' !! r = heap w !! r).
Proof.
  intros Hold [k Hpk]. unfold save_instance_module, instance_saved_iff_changed.
  assert (Him : im < length (heap w)) by (by eapply lookup_lt_Some).
  set (new_state := get_instance_state (xmod instance)).
  set (new_grade := match get_score (xmod instance) with
                    | Some sc => Some (score sc)
                    | None => grade old
                    end).
  set (cur := with_grade new_grade (with_state new_state old)).
  set (w0 := mkWorld (db w) (<[im := with_state new_state old]> (heap w))
                     (cache w) (trace w)).
  set (w1 := mkWorld (db w) (<[im := cur]> (heap w)) (cache w) (trace w)).
  assert (Hstep :
    match get_score (xmod instance) with
    | Some sc => modify im (with_grade (Some (score sc)))
    | None => mret ()
    end w0 = (Ok (), w1)).
  { subst w0 w1 cur new_grade. destruct (get_score (xmod instance)) as [sc|].
    - erewrite modify_run; simpl; [|by apply list_lookup_insert_eq].
      by rewrite list_insert_insert_eq.
    - unfold mret, M_ret. by destruct old. }
  assert (Hcur : heap w1 !! im = Some cur) by (by apply list_lookup_insert_eq).
  assert (Hpkcur : pk cur = Some k) by done.
  assert (Hvalid : ∀ r o, heap w !! r = Some o →
            ∃ o', <[im := cur]> (heap w) !! r = Some o' ∧ pk o' = pk o).
  { intros r o Hr. destruct (decide (r = im)) as [->|Hne].
    - rewrite Hold in Hr. injection Hr as <-. exists cur.
      split; [by apply list_lookup_insert_eq|congruence].
    - exists o. by rewrite list_lookup_insert_ne. }
  rewrite bind_run, (modify_run _ _ _ _ Hold). fold w0.
  rewrite bind_run, Hstep, bind_run, (deref_run _ _ _ Hcur).
  change (grade cur) with new_grade. change (state cur) with new_state.
  assert (Hheap1 : heap w1 = <[im := cur]> (heap w)) by done.
  assert (Htrace1 : trace w1 = trace w) by done.
  clearbody w1. clear Hstep w0.
  destruct (bool_decide (new_grade ≠ grade old) ||
            bool_decide (new_state ≠ state old)) eqn:Hchanged.
  - apply orb_true_iff in Hchanged.
    rewrite !bool_decide_eq_true in Hchanged.
    destruct (save im w1) as [[[]|e] w2] eqn:Hsave;
      apply save_inv in Hsave; simpl in Hsave.
    + destruct Hsave as (o & row & Ho & Htr & _ & Hheap & Hrow).
      rewrite Hcur in Ho. injection Ho as <-.
      rewrite Hpkcur in Hrow. destruct Hrow as [-> _].
      exists w2, [EvSave im cur]. split; [done|]. split; [|split; [|split]].
      * by rewrite Htr, Htrace1.
      * left. split; [done|]. by exists cur.
      * intros r o Hr. rewrite Hheap, Hheap1, list_insert_insert_eq.
        by apply Hvalid.
      * intros r Hr. rewrite Hheap, Hheap1.
        by rewrite !list_lookup_insert_ne.
    + destruct Hsave as (_ & [[_ Hnone]|[_ (o & Ho & Hnopk & _)]]).
      * by rewrite Hcur in Hnone.
      * rewrite Hcur in Ho. injection Ho as <-. congruence.
  - apply orb_false_iff in Hchanged.
    rewrite !bool_decide_eq_false in Hchanged.
    exists w1, []. split; [done|]. split; [|split; [|split]].
    + by rewrite app_nil_r.
    + right. split; [tauto|done].
    + intros r o Hr. rewrite Hheap1. by apply Hvalid.
    + intros r Hr. rewrite Hheap1. by rewrite list_lookup_insert_ne.
Qed.

(** *** The block that writes the shared record back *)

Lemma save_shared_module_run (m : Mod) (sm : nat) (old_shared_state : option string)
    (w : World) :
  (∃ old, heap w !! sm = Some old ∧ is_Some (pk old)) →
  ∃ w' evs,
    (modify sm (with_state (get_shared_state m)) ;;
     s ← deref sm;
     if bool_decide (state s ≠ old_shared_state) then save sm else mret ()) w =
      (Ok (), w') ∧
    trace w' = trace w ++ evs ∧
    saved_iff evs sm (get_shared_state m ≠ old_shared_state)
              (λ row, state row = get_shared_state m).
Proof.
  intros (old & Hold & k & Hpk).
  assert (Hsm : sm < length (heap w)) by (by eapply lookup_lt_Some).
  set (cur := with_state (get_shared_state m) old).
  rewrite bind_run, (modify_run _ _ _ _ Hold).
  set (w1 := mkWorld _ _ _ _).
  assert (Hcur : heap w1 !! sm = Some cur) by (by apply list_lookup_insert_eq).
  assert (Htrace1 : trace w1 = trace w) by done.
  clearbody w1.
  rewrite bind_run, (deref_run _ _ _ Hcur).
  change (state cur) with (get_shared_state m).
  case_bool_decide as Hchanged.
  - destruct (save sm w1) as [[[]|e] w2] eqn:Hsave;
      apply save_inv in Hsave; simpl in Hsave.
    + destruct Hsave as (o & row & Ho & Htr & _ & _ & Hrow).
      rewrite Hcur in Ho. injection Ho as <-.
      exists w2, [EvSave sm row]. repeat split.
      * by rewrite Htr, Htrace1.
      * left. split; [done|]. exists row. split; [done|].
        destruct (pk cur); destruct Hrow as [-> _]; done.
    + destruct Hsave as (_ & [[_ Hnone]|[_ (o & Ho & Hnopk & _)]]).
      * by rewrite Hcur in Hnone.
      * rewrite Hcur in Ho. injection Ho as <-. simpl in Hnopk. congruence.
  - exists w1, []. repeat split.
    + by rewrite app_nil_r.
    + right. split; [|done]. intros Hne. by apply Hne.
Qed.

(** *** The steps before get_module *)

Lemma reaches_get_module_db (e : Endpoint) (request : Request) (id : string)
    (w w0 : World) :
  reaches_get_module env e request id w w0 →
  db w0 = db w ∧ trace w0 = trace w ∧ is_Some (modulestore env !! id).
Proof.
  destruct e as [|userid]; simpl.
  - intros (d & Hd & [= <-]). by rewrite Hd.
  - intros (header & get & staff & d & _ & _ & Hd & [= <-]). by rewrite Hd.
Qed.

(** Either the endpoint reaches its call of get_module, or it raises,
    without having changed anything, an exception other than Http404. *)
Lemma serve_prologue (e : Endpoint) (request : Request) (id dispatch : string)
    (w : World) :
  (∃ w0, reaches_get_module env e request id w w0) ∨
  (∃ exn, serve env e request id dispatch w = (Raise exn, w) ∧ exn ≠ Http404).
Proof.
  destruct e as [|userid]; simpl.
  - unfold modx_dispatch, modulestore_get_item.
    destruct (Py.partition "?" dispatch) as [[cmd sep] rest].
    destruct (modulestore env !! id) as [d|].
    + left. by eexists _, d.
    + right. by eexists.
  - unfold xqueue_callback, parse_xqueue_header, User_objects_get,
      modulestore_get_item.
    destruct (pop_xqueue_header env (POST request)) as [err|[header get]].
    { right. by eexists. }
    destruct (auth_user env !! userid) as [staff|].
    2: { right. by eexists. }
    destruct (modulestore env !! id) as [d|].
    2: { right. by eexists. }
    left. by eexists _, header, get, staff, d.
Qed.

Lemma serve_get_module (e : Endpoint) (request : Request) (id dispatch : string)
    (w w0 : World) :
  reaches_get_module env e request id w w0 →
  serve env e request id dispatch w =
  match get_module env (req_user request) id None w0 with
  | (Raise exn, w1) => (Raise exn, w1)
  | (Ok (instance, None, shared_module, _), w1) =>
      (Raise Http404,
       mkWorld (db w1) (heap w1) (cache w1)
               (trace w1 ++ [EvLogDebug id (req_user request)]))
  | (Ok (instance, Some instance_module, shared_module, _), w1) =>
      match heap w1 !! instance_module with
      | None => (Raise InvalidReference, w1)
      | Some old =>
          match forwarded env e request dispatch with
          | inl exn => (Raise exn, w1)
          | inr (cmd, data) =>
              match e with
              | ModxDispatch =>
                  (old_shared_state ← state_of shared_module;
                   '(ajax_return, instance) ← call_handle_ajax instance cmd data;
                   save_instance_module instance instance_module
                                        (grade old) (state old) ;;
                   match shared_module with
                   | Some shared_module =>
                       modify shared_module
                              (with_state (get_shared_state (xmod instance))) ;;
                       s ← deref shared_module;
                       if bool_decide (state s ≠ old_shared_state)
                       then save shared_module
                       else mret ()
                   | None => mret ()
                   end ;;
                   mret {| content := ajax_return |}) w1
              | XqueueCallback _ =>
                  ('(ajax_return, instance) ← call_handle_ajax instance cmd data;
                   save_instance_module instance instance_module
                                        (grade old) (state old) ;;
                   mret {| content := "" |}) w1
              end
          end
      end
  end.
Proof.
  destruct e as [|userid]; simpl.
  - intros (d & Hd & Hcache).
    unfold modx_dispatch, modulestore_get_item.
    destruct (Py.partition "?" dispatch) as [[cmd sep] rest]. simpl.
    rewrite Hd, bind_run. simpl. rewrite bind_run, Hcache, bind_run.
    destruct (get_module env (req_user request) id None w0)
      as [[[[[instance [im|]] sm] mt]|exn] w1]; try done.
    rewrite bind_run. unfold deref at 1.
    by destruct (heap w1 !! im) as [old|].
  - intros (header & get & staff & d & Hpop & Hstaff & Hd & Hcache).
    unfold xqueue_callback, parse_xqueue_header, User_objects_get,
      modulestore_get_item.
    rewrite Hpop, Hstaff, Hd.
    do 4 (rewrite bind_run; cbn [mret M_ret]).
    rewrite Hcache, bind_run.
    destruct (get_module env (req_user request) id None w0)
      as [[[[[instance [im|]] sm] mt]|exn] w1]; try done.
    rewrite bind_run. unfold deref at 1.
    destruct (heap w1 !! im) as [old|]; [|done].
    rewrite bind_run.
    by destruct (header_getitem header "queuekey") as [exn|queuekey].
Qed.

End ServeFacts.

Section EndpointClaims.
Context {Mod : Type} `{XModule Mod}.
Variable env : Env.

Lemma call_handle_ajax_run (instance : XInstance Mod) (cmd : string)
    (data : QueryDict) (w : World) :
  call_handle_ajax instance cmd data w =
  match handle_ajax (xmod instance) cmd data with
  | inl exn =>
      (Raise exn,
       mkWorld (db w) (heap w) (cache w)
               (trace w ++ [EvHandleAjax cmd data; EvLogException exn]))
  | inr (ajax_return, m') =>
      (Ok (ajax_return, mkXInstance m' (html_wrappers instance)),
       mkWorld (db w) (heap w) (cache w) (trace w ++ [EvHandleAjax cmd data]))
  end.
Proof.
  unfold call_handle_ajax, log_and_reraise. rewrite bind_run. simpl.
  rewrite bind_run.
  destruct (handle_ajax (xmod instance) cmd data) as [exn|[ret m']]; simpl.
  - rewrite bind_run. simpl. by rewrite <- app_assoc.
  - done.
Qed.

Lemma state_of_valid (x : option nat) (w : World) :
  (∀ r, x = Some r → is_Some (heap w !! r)) →
  state_of x w = (Ok (state_at w x), w).
Proof.
  destruct x as [r|]; simpl; [|done].
  intros Hv. destruct (Hv r eq_refl) as [o Ho].
  by rewrite bind_run, (deref_run _ _ _ Ho), Ho.
Qed.

(** What an endpoint does once get_module has returned an instance
    record. *)
Lemma serve_run (e : Endpoint) (request : Request) (id dispatch : string)
    (w w0 w1 : World) instance im sm mt :
  reaches_get_module env e request id w w0 →
  get_module env (req_user request) id None w0 =
    (Ok (instance, Some im, sm, mt), w1) →
  ∃ old, heap w1 !! im = Some old ∧
    match forwarded env e request dispatch with
    | inl exn => serve env e request id dispatch w = (Raise exn, w1)
    | inr (cmd, data) =>
        match handle_ajax (xmod instance) cmd data with
        | inl exn =>
            serve env e request id dispatch w =
            (Raise exn,
             mkWorld (db w1) (heap w1) (cache w1)
                     (trace w1 ++ [EvHandleAjax cmd data; EvLogException exn]))
        | inr (ajax_return, m') =>
            ∃ w' isaves ssaves,
              serve env e request id dispatch w =
                (Ok {| content := match e with
                                  | ModxDispatch => ajax_return
                                  | XqueueCallback _ => ""
                                  end |}, w') ∧
              trace w' = trace w1 ++ [EvHandleAjax cmd data] ++ isaves ++ ssaves ∧
              instance_saved_iff_changed m' old im isaves ∧
              shared_saved_iff_changed e m' w1 sm ssaves
        end
    end.
Proof.
  intros Hreach Hgm.
  destruct (get_module_valid _ _ _ _ _ _ _ _ _ _ Hgm) as [_ Hsm].
  pose proof (reaches_get_module_saved _ _ _ _ _ _ Hreach) as Hsaved.
  destruct (get_module_saved _ _ _ _ _ _ _ _ _ _ Hsaved Hgm) as [Him Hsm'].
  destruct (Him im eq_refl) as (old & Hold & Hpk). exists old. split; [done|].
  rewrite (serve_get_module _ _ _ _ _ _ _ Hreach), Hgm, Hold.
  destruct (forwarded env e request dispatch) as [exn|[cmd data]]; [done|].
  destruct e as [|userid].
  - rewrite bind_run, (state_of_valid _ _ Hsm), bind_run, call_handle_ajax_run.
    destruct (handle_ajax (xmod instance) cmd data) as [exn|[ret m']]; [done|].
    set (w2 := mkWorld _ _ _ _).
    destruct (save_instance_module_run (mkXInstance m' (html_wrappers instance))
                im w2 old Hold Hpk) as (w3 & isaves & Hrun & Htr & Hi & Hvalid & _).
    rewrite bind_run, Hrun, bind_run.
    destruct sm as [s|].
    + destruct (save_shared_module_run m' s (state_at w1 (Some s)) w3)
        as (w4 & ssaves & Hrun' & Htr' & Hs).
      { destruct (Hsm' s eq_refl) as (o & Ho & Hpko).
        destruct (Hvalid s o Ho) as (o' & Ho' & Hpko').
        exists o'. split; [done|]. by rewrite Hpko'. }
      simpl in Hrun'. simpl. rewrite Hrun'. simpl.
      exists w4, isaves, ssaves. repeat split; [|done..].
      rewrite Htr', Htr. simpl. by rewrite <- !app_assoc.
    + simpl. exists w3, isaves, []. repeat split; [|done..].
      rewrite Htr. simpl. by rewrite <- !app_assoc, app_nil_r.
  - rewrite bind_run, call_handle_ajax_run.
    destruct (handle_ajax (xmod instance) cmd data) as [exn|[ret m']]; [done|].
    set (w2 := mkWorld _ _ _ _).
    destruct (save_instance_module_run (mkXInstance m' (html_wrappers instance))
                im w2 old Hold Hpk) as (w3 & isaves & Hrun & Htr & Hi & _).
    rewrite bind_run, Hrun. simpl.
    exists w3, isaves, []. repeat split; [|done..].
    rewrite Htr. simpl. by rewrite <- !app_assoc, app_nil_r.
Qed.

(** The exceptions raised while the data for handle_ajax are prepared are
    not Http404. *)
Lemma forwarded_exn (e : Endpoint) (request : Request) (dispatch : string) exn :
  forwarded env e request dispatch = inl exn →
  ∃ e' , exn = e' ∧ e' ≠ Http404.
Proof.
  destruct e as [|userid]; simpl; [done|].
  unfold pop_xqueue_header.
  destruct (POST request !! "xqueue_header") as [[|v vs]|].
  - intros [= <-]. by eexists.
  - destruct (json_loads env v) as [[fields|]|]; simpl.
    + destruct (fields !! "queuekey"); intros [= <-]. by eexists.
    + intros [= <-]. by eexists.
    + intros [= <-]. by eexists.
  - intros [= <-]. by eexists.
Qed.

(** A run that ends with a response has gone through get_module, which has
    returned an instance record, and through handle_ajax, which has
    returned. *)
Lemma serve_Ok_inv (e : Endpoint) (request : Request) (id dispatch : string)
    (w : World) resp w' :
  serve env e request id dispatch w = (Ok resp, w') →
  ∃ w0 w1 instance im sm mt old cmd data ajax_return m' isaves ssaves,
    reaches_get_module env e request id w w0 ∧
    get_module env (req_user request) id None w0 =
      (Ok (instance, Some im, sm, mt), w1) ∧
    heap w1 !! im = Some old ∧
    forwarded env e request dispatch = inr (cmd, data) ∧
    handle_ajax (xmod instance) cmd data = inr (ajax_return, m') ∧
    content resp = match e with
                   | ModxDispatch => ajax_return
                   | XqueueCallback _ => ""
                   end ∧
    trace w' = trace w1 ++ [EvHandleAjax cmd data] ++ isaves ++ ssaves ∧
    instance_saved_iff_changed m' old im isaves ∧
    shared_saved_iff_changed e m' w1 sm ssaves.
Proof.
  intros Hserve.
  destruct (serve_prologue env e request id dispatch w)
    as [[w0 Hreach]|(exn & Hraise & _)]; [|congruence].
  destruct (get_module env (req_user request) id None w0)
    as [[[[[instance [im|]] sm] mt]|exn] w1] eqn:Hgm.
  - destruct (serve_run _ _ _ dispatch _ _ _ _ _ _ _ Hreach Hgm)
      as (old & Hold & Hrun).
    destruct (forwarded env e request dispatch) as [exn|[cmd data]] eqn:Hfw;
      [congruence|].
    destruct (handle_ajax (xmod instance) cmd data) as [exn|[ret m']] eqn:Hajax;
      [congruence|].
    destruct Hrun as (w'' & isaves & ssaves & Hrun & Htr & Hi & Hs).
    rewrite Hserve in Hrun. injection Hrun as -> <-.
    by exists w0, w1, instance, im, sm, mt, old, cmd, data, ret, m', isaves, ssaves.
  - rewrite (serve_get_module _ _ _ _ _ _ _ Hreach), Hgm in Hserve. done.
  - rewrite (serve_get_module _ _ _ _ _ _ _ Hreach), Hgm in Hserve. done.
Qed.

(** C1: in a run of modx_dispatch or xqueue_callback in which handle_ajax
    returns, the endpoint returns a response, and the instance record is
    saved exactly when its grade or its state differs from the value held
    before handle_ajax was called; the state written is
    get_instance_state(), the grade written is get_score()['score'] when
    get_score() is truthy and the old grade otherwise. In modx_dispatch the
    shared record, when there is one, is saved exactly when
    get_shared_state() differs from the shared state held before the call.
    These conditional saves are the only events after the call of
    handle_ajax. *)
Theorem records_saved_iff_changed (e : Endpoint) (request : Request)
    (id dispatch : string) (w w0 w1 : World) instance im sm mt
    cmd data ajax_return m' :
  reaches_get_module env e request id w w0 →
  get_module env (req_user request) id None w0 =
    (Ok (instance, Some im, sm, mt), w1) →
  forwarded env e request dispatch = inr (cmd, data) →
  handle_ajax (xmod instance) cmd data = inr (ajax_return, m') →
  ∃ old resp w' isaves ssaves,
    heap w1 !! im = Some old ∧
    serve env e request id dispatch w = (Ok resp, w') ∧
    trace w' = trace w1 ++ [EvHandleAjax cmd data] ++ isaves ++ ssaves ∧
    instance_saved_iff_changed m' old im isaves ∧
    shared_saved_iff_changed e m' w1 sm ssaves.
Proof.
  intros Hreach Hgm Hfw Hajax.
  destruct (serve_run _ _ _ dispatch _ _ _ _ _ _ _ Hreach Hgm)
    as (old & Hold & Hrun).
  rewrite Hfw, Hajax in Hrun.
  destruct Hrun as (w' & isaves & ssaves & Hrun & Htr & Hi & Hs).
  by eexists old, _, w', isaves, ssaves.
Qed.

(** C10: when get_module has returned an instance record and handle_ajax
    returns, the endpoint returns a response: xqueue_callback answers with
    an empty body, whatever handle_ajax has returned, and modx_dispatch
    answers with the value handle_ajax has returned. *)
Theorem response_body (e : Endpoint) (request : Request)
    (id dispatch : string) (w w0 w1 : World) instance im sm mt
    cmd data ajax_return m' :
  reaches_get_module env e request id w w0 →
  get_module env (req_user request) id None w0 =
    (Ok (instance, Some im, sm, mt), w1) →
  forwarded env e request dispatch = inr (cmd, data) →
  handle_ajax (xmod instance) cmd data = inr (ajax_return, m') →
  ∃ w', serve env e request id dispatch w =
          (Ok match e with
              | ModxDispatch => {| content := ajax_return |}
              | XqueueCallback _ => {| content := "" |}
              end, w').
Proof.
  intros Hreach Hgm Hfw Hajax.
  destruct (serve_run _ _ _ dispatch _ _ _ _ _ _ _ Hreach Hgm)
    as (old & Hold & Hrun).
  rewrite Hfw, Hajax in Hrun.
  destruct Hrun as (w' & isaves & ssaves & Hrun & _).
  exists w'. rewrite Hrun. by destruct e.
Qed.

(** C4: when get_module returns no instance record the endpoint logs,
    raises Http404 and saves nothing; when it returns one, an Http404 that
    leaves the endpoint was raised by the module's handle_ajax, not by the
    endpoint. *)
Theorem not_found_iff_no_instance_record (e : Endpoint) (request : Request)
    (id dispatch : string) (w w0 w1 : World) instance instance_module sm mt :
  reaches_get_module env e request id w w0 →
  get_module env (req_user request) id None w0 =
    (Ok (instance, instance_module, sm, mt), w1) →
  (instance_module = None →
     ∃ w', serve env e request id dispatch w = (Raise Http404, w') ∧
           db w' = db w ∧
           trace w' = trace w ++ [EvLogDebug id (req_user request)]) ∧
  (instance_module ≠ None →
     ∀ w', serve env e request id dispatch w = (Raise Http404, w') →
           ∃ cmd data,
             forwarded env e request dispatch = inr (cmd, data) ∧
             handle_ajax (xmod instance) cmd data = inl Http404).
Proof.
  intros Hreach Hgm. split.
  - intros ->.
    destruct (get_module_None _ _ _ _ _ _ _ _ _ Hgm) as [_ ->].
    destruct (reaches_get_module_db _ _ _ _ _ _ Hreach) as (Hdb & Htr & _).
    rewrite (serve_get_module _ _ _ _ _ _ _ Hreach), Hgm.
    eexists. split; [done|]. simpl. by rewrite Hdb, Htr.
  - destruct instance_module as [im|]; [intros _|done]. intros w' Hserve.
    destruct (serve_run _ _ _ dispatch _ _ _ _ _ _ _ Hreach Hgm)
      as (old & Hold & Hrun).
    destruct (forwarded env e request dispatch) as [exn|[cmd data]] eqn:Hfw.
    + apply forwarded_exn in Hfw as (e' & -> & Hne). congruence.
    + exists cmd, data. split; [done|].
      destruct (handle_ajax (xmod instance) cmd data) as [exn|[ret m']].
      * congruence.
      * destruct Hrun as (? & ? & ? & Hrun & _). congruence.
Qed.

(** C5: when handle_ajax raises, the endpoint logs the exception and
    raises the same exception; nothing is saved after the failure, the
    table and the objects are as they were when handle_ajax was called. *)
Theorem handler_exception_reraised (e : Endpoint) (request : Request)
    (id dispatch : string) (w w0 w1 : World) instance im sm mt cmd data exn :
  reaches_get_module env e request id w w0 →
  get_module env (req_user request) id None w0 =
    (Ok (instance, Some im, sm, mt), w1) →
  forwarded env e request dispatch = inr (cmd, data) →
  handle_ajax (xmod instance) cmd data = inl exn →
  ∃ w', serve env e request id dispatch w = (Raise exn, w') ∧
        trace w' = trace w1 ++ [EvHandleAjax cmd data; EvLogException exn] ∧
        db w' = db w1 ∧
        heap w' = heap w1.
Proof.
  intros Hreach Hgm Hfw Hajax.
  destruct (serve_run _ _ _ dispatch _ _ _ _ _ _ _ Hreach Hgm)
    as (old & Hold & Hrun).
  rewrite Hfw, Hajax in Hrun. eexists. by split.
Qed.

End EndpointClaims.

Section OtherClaims.
Context {Mod : Type} `{XModule Mod}.
Variable env : Env.

(** C8: in the table toc_for_course returns, every chapter of the course's
    display items has its entry, in order, also a chapter named hidden;
    the entry of a chapter is active exactly when the chapter's display
    name is the active chapter, and the entry of a section is active
    exactly when, in addition, the section's display name is the active
    section. *)
Theorem toc_active_flags (user : User) (course : Descriptor)
    (active_chapter active_section : option string) (w : World) toc w' :
  toc_for_course env user course active_chapter active_section w = (Ok toc, w') →
  ∃ w0 course_module im sm mt,
    get_module env user (location_url course) None w0 =
      (Ok (course_module, im, sm, mt), w') ∧
    Forall2 (chapter_listed active_chapter active_section)
            (get_display_items (xmod course_module)) toc ∧
    (∀ chapter, chapter ∈ get_display_items (xmod course_module) →
       display_name chapter = Some "hidden" →
       ∃ entry, entry ∈ toc ∧ chap_name entry = Some "hidden").
Proof.
  unfold toc_for_course.
  intros (? & w0 & _ & Hrun)%bind_Ok_inv.
  apply bind_Ok_inv in Hrun as ([[[course_module im] sm] mt] & w1 & Hgm & Hret).
  apply ret_inv in Hret as [[= ->] ->].
  exists w0, course_module, im, sm, mt. split; [done|].
  pose proof (toc_chapters_listed (xmod course_module)
                active_chapter active_section) as Hlisted.
  split; [done|].
  intros chapter Hin Hhidden.
  apply list_elem_of_lookup in Hin as [i Hi].
  destruct (Forall2_lookup_l _ _ _ _ _ Hlisted Hi) as (entry & Hentry & Hname & _).
  exists entry. split.
  - apply list_elem_of_lookup. by exists i.
  - by rewrite Hname.
Qed.

(** C9: the command modx_dispatch forwards to handle_ajax is the part of
    the dispatch string before its first question mark, the whole string
    when it has none. Once get_module has returned an instance record,
    handle_ajax is called, once, with that command and the posted data, and
    its outcome is the outcome of the request: its exception, or a response
    with the value it returned. The rest of the string has no influence on
    the run, and every call of handle_ajax made by a run has that command
    and the posted data. *)
Theorem dispatch_cut_at_question_mark (request : Request)
    (dispatch id : string) (w : World) :
  let cmd := (Py.partition "?" dispatch).1.1 in
  let run := modx_dispatch env request dispatch id w in
  (Py.contains "?" dispatch = false → cmd = dispatch) ∧
  (Py.contains "?" dispatch = true →
     ∃ rest, dispatch = cmd +:+ String "?" rest) ∧
  Py.contains "?" cmd = false ∧
  (∀ w0 w1 instance im sm mt,
     reaches_get_module env ModxDispatch request id w w0 →
     get_module env (req_user request) id None w0 =
       (Ok (instance, Some im, sm, mt), w1) →
     (∃ evs, trace run.2 = trace w1 ++ EvHandleAjax cmd (POST request) :: evs ∧
             ∀ c data, EvHandleAjax c data ∉ evs) ∧
     run.1 = match handle_ajax (xmod instance) cmd (POST request) with
             | inl exn => Raise exn
             | inr (ajax_return, _) => Ok {| content := ajax_return |}
             end) ∧
  run = modx_dispatch env request cmd id w ∧
  ∃ evs, trace run.2 = trace w ++ evs ∧
         ∀ c data, EvHandleAjax c data ∈ evs → c = cmd ∧ data = POST request.
Proof.
  intros cmd run. subst run.
  assert (His : ∀ r changed P evs c data,
            saved_iff evs r changed P → EvHandleAjax c data ∉ evs).
  { intros r changed P evs c data [(_ & row & -> & _)|[_ ->]] Hin.
    - by apply list_elem_of_singleton in Hin.
    - by apply elem_of_nil in Hin. }
  split; [|split; [|split; [|split; [|split]]]].
  4: { intros w0 w1 instance im sm mt Hreach Hgm.
       change (modx_dispatch env request dispatch id)
         with (serve env ModxDispatch request id dispatch).
       destruct (serve_run env _ _ _ dispatch _ _ _ _ _ _ _ Hreach Hgm)
         as (old & Hold & Hrun).
       unfold forwarded in Hrun. fold cmd in Hrun.
       destruct (handle_ajax (xmod instance) cmd (POST request))
         as [exn|[ret m']].
       - rewrite Hrun. simpl. split; [|done].
         exists [EvLogException exn]. split; [done|].
         intros c data Hin. by apply list_elem_of_singleton in Hin.
       - destruct Hrun as (w' & isaves & ssaves & Hrun & Htr & Hi & Hs).
         rewrite Hrun. simpl. split; [|done].
         exists (isaves ++ ssaves). split; [done|].
         intros c data [Hin|Hin]%elem_of_app.
         + by eapply His in Hin.
         + destruct sm as [s|]; simpl in Hs.
           * by eapply His in Hin.
           * subst ssaves. by apply elem_of_nil in Hin. }
  - intros Hno. subst cmd. by rewrite partition_absent.
  - intros (before & after & Hp & Hd & _)%partition_present.
    subst cmd. rewrite Hp. by exists after.
  - subst cmd. destruct (Py.contains "?" dispatch) eqn:Hc.
    + by apply partition_present in Hc as (before & after & -> & _ & ?).
    + by rewrite partition_absent.
  - unfold modx_dispatch. subst cmd.
    rewrite partition_before_stable.
    by destruct (Py.partition "?" dispatch) as [[c sep] rest].
  - change (modx_dispatch env request dispatch id)
      with (serve env ModxDispatch request id dispatch).
    destruct (serve_prologue env ModxDispatch request id dispatch w)
      as [[w0 Hreach]|(exn & -> & _)].
    2: { exists []. split; [by rewrite app_nil_r|]. by intros c data ?%elem_of_nil. }
    destruct (reaches_get_module_db _ _ _ _ _ _ Hreach) as (_ & Htr0 & _).
    destruct (get_module env (req_user request) id None w0)
      as [[[[[instance [im|]] sm] mt]|exn] w1] eqn:Hgm.
    + pose proof (get_module_extends _ _ _ _ _ _ _ Hgm)
        as (_ & _ & _ & (saves & Htr1 & Hsaves)).
      destruct (serve_run env _ _ _ dispatch _ _ _ _ _ _ _ Hreach Hgm)
        as (old & Hold & Hrun).
      unfold forwarded in Hrun. fold cmd in Hrun.
      destruct (handle_ajax (xmod instance) cmd (POST request)) as [exn|[ret m']].
      * rewrite Hrun. simpl.
        exists (saves ++ [EvHandleAjax cmd (POST request); EvLogException exn]).
        split; [by rewrite Htr1, Htr0, <- app_assoc|].
        intros c data [Hin|Hin]%elem_of_app.
        -- eapply Forall_forall in Hsaves; [|done]. done.
        -- apply elem_of_cons in Hin as [[= -> ->]|Hin]; [done|].
           by apply list_elem_of_singleton in Hin.
      * destruct Hrun as (w' & isaves & ssaves & Hrun & Htr & Hi & Hs).
        rewrite Hrun. simpl.
        exists (saves ++ [EvHandleAjax cmd (POST request)] ++ isaves ++ ssaves).
        split; [by rewrite Htr, Htr1, Htr0, <- !app_assoc|].
        intros c data [Hin|Hin]%elem_of_app.
        -- eapply Forall_forall in Hsaves; [|done]. done.
        -- apply elem_of_cons in Hin as [[= -> ->]|Hin]; [done|].
           apply elem_of_app in Hin as [Hin|Hin].
           ++ by eapply His in Hin.
           ++ destruct sm as [s|]; simpl in Hs.
              ** by eapply His in Hin.
              ** subst ssaves. by apply elem_of_nil in Hin.
    + rewrite (serve_get_module _ _ _ _ _ _ _ Hreach), Hgm. simpl.
      pose proof (get_module_extends _ _ _ _ _ _ _ Hgm)
        as (_ & _ & _ & (saves & Htr1 & Hsaves)).
      exists (saves ++ [EvLogDebug id (req_user request)]).
      split; [by rewrite Htr1, Htr0, <- app_assoc|].
      intros c data [Hin|Hin]%elem_of_app.
      * eapply Forall_forall in Hsaves; [|done]. done.
      * by apply list_elem_of_singleton in Hin.
    + rewrite (serve_get_module _ _ _ _ _ _ _ Hreach), Hgm. simpl.
      pose proof (get_module_extends _ _ _ _ _ _ _ Hgm)
        as (_ & _ & _ & (saves & Htr1 & Hsaves)).
      exists saves. split; [by rewrite Htr1, Htr0|].
      intros c data Hin.
      eapply Forall_forall in Hsaves; [|done]. done.
Qed.

End OtherClaims.

(** ** The callback endpoint and the student of the record *)

(** C7, evaluated: a grading callback for user 1, who has no record for the
    problem, posted in the session of user 2 with the header
    [{"queuekey": "key-1"}]. The header is decoded, the endpoint succeeds;
    the record it creates, passes to the module and saves belongs to user 2,
    and user 1 has no record afterwards. *)
Theorem xqueue_callback_uses_session_user :
  let run := xqueue_callback Demo.demo_env Demo.callback_request 1
               Demo.problem_url "score_update" Demo.empty_world in
  pop_xqueue_header Demo.demo_env (POST Demo.callback_request) =
    inr (JObject {[ "queuekey" := "key-1" ]}, ∅) ∧
  User_objects_get Demo.demo_env 1 Demo.empty_world = (Ok Demo.alice, Demo.empty_world) ∧
  req_user Demo.callback_request = Demo.bob ∧
  run.1 = Ok {| content := "" |} ∧
  db run.2 =
    [ {| pk := Some 0; student := Demo.bob; module_type := "problem";
         module_state_key := Demo.problem_url; state := Some "graded";
         grade := Some 1%Z; max_grade := Some 1%Z |} ] ∧
  Forall (λ row, student row ≠ Demo.alice) (db run.2).
Proof.
  intros run. repeat split; try by vm_compute.
  assert (Hdb : db run.2 =
    [ {| pk := Some 0; student := Demo.bob; module_type := "problem";
         module_state_key := Demo.problem_url; state := Some "graded";
         grade := Some 1%Z; max_grade := Some 1%Z |} ]) by (by vm_compute).
  rewrite Hdb. by repeat constructor.
Qed.

(** A header that is not JSON is refused before anything else is done. *)
Example xqueue_callback_refuses_bare_header :
  let request := {| req_user := Demo.bob;
                    POST := {[ "xqueue_header" := ["key-1"] ]} |} in
  xqueue_callback Demo.demo_env request 1 Demo.problem_url "score_update"
    Demo.bob_world =
  (Raise (Exception ("Error in xqueue_callback No JSON object could be decoded"
                     +:+ ": Invalid return format")),
   Demo.bob_world).
Proof. by vm_compute. Qed.

(** The callback as the queue posts it, without a session: it updates the
    record of the user named in the URL when there is one, and answers
    Http404 when there is none. *)
Example xqueue_callback_without_session :
  let run := xqueue_callback Demo.demo_env Demo.anonymous_callback 2
               Demo.problem_url "score_update" Demo.bob_world in
  run.1 = Ok {| content := "" |} ∧
  db run.2 =
    [ {| pk := Some 0; student := Demo.bob; module_type := "problem";
         module_state_key := Demo.problem_url; state := Some "graded";
         grade := Some 1%Z; max_grade := Some 1%Z |} ].
Proof. split; by vm_compute. Qed.

Example xqueue_callback_without_session_or_record :
  let run := xqueue_callback Demo.demo_env Demo.anonymous_callback 1
               Demo.problem_url "score_update" Demo.bob_world in
  run.1 = Raise Http404 ∧ db run.2 = db Demo.bob_world.
Proof. split; by vm_compute. Qed.

(** The generic endpoint in the same situation: user 2, who has a record,
    dispatches to the problem; the record is updated and remains the only
    one. *)
Example modx_dispatch_keeps_one_record :
  let run := modx_dispatch Demo.demo_env (Demo.ajax_request Demo.bob)
               "score_update" Demo.problem_url Demo.bob_world in
  run.1 = Ok {| content := "updated" |} ∧
  db run.2 =
    [ {| pk := Some 0; student := Demo.bob; module_type := "problem";
         module_state_key := Demo.problem_url; state := Some "graded";
         grade := Some 1%Z; max_grade := Some 1%Z |} ].
Proof. split; by vm_compute. Qed.

(** ** The theorems at concrete inputs *)

Lemma records_saved_iff_changed_witness :
  let e := ModxDispatch in
  let request := Demo.ajax_request Demo.alice in
  let w := Demo.empty_world in
  let w0 := (StudentModuleCache_new Demo.alice Demo.video w).2 in
  let gm := get_module Demo.demo_env Demo.alice Demo.video_url None w0 in
  let m' := Demo.demo_constructor Demo.video
              (make_system Demo.demo_env Demo.alice Demo.video None) None None in
  ∃ old resp w' isaves ssaves,
    heap gm.2 !! 0 = Some old ∧
    serve Demo.demo_env e request Demo.video_url "share?x=1" w = (Ok resp, w') ∧
    trace w' = trace gm.2 ++ [EvHandleAjax "share" ∅] ++ isaves ++ ssaves ∧
    instance_saved_iff_changed
      (Demo.mkDemo (Demo.d_id m') (Demo.d_metadata m') (Demo.d_items m')
                   (Demo.d_state m') (Some "note") (Demo.d_score m'))
      old 0 isaves ∧
    shared_saved_iff_changed e
      (Demo.mkDemo (Demo.d_id m') (Demo.d_metadata m') (Demo.d_items m')
                   (Demo.d_state m') (Some "note") (Demo.d_score m'))
      gm.2 (Some 1) ssaves.
Proof.
  intros e request w w0 gm m'.
  eapply (records_saved_iff_changed (Mod := Demo.DemoModule) Demo.demo_env e
            request Demo.video_url "share?x=1" w w0 gm.2
            (mkXInstance m' [StaticUrls "demo"]) 0 (Some 1) "video" "share" ∅
            "shared").
  - exists Demo.video. split; by vm_compute.
  - by vm_compute.
  - by vm_compute.
  - by vm_compute.
Defined.

Lemma response_body_witness :
  let w := Demo.bob_world in
  (∃ w', serve Demo.demo_env ModxDispatch (Demo.ajax_request Demo.bob)
           Demo.problem_url "score_update" w =
         (Ok {| content := "updated" |}, w')) ∧
  (∃ w', serve Demo.demo_env (XqueueCallback 2) Demo.anonymous_callback
           Demo.problem_url "score_update" w =
         (Ok {| content := "" |}, w')).
Proof.
  intros w.
  set (w0 := (StudentModuleCache_new Demo.bob Demo.problem w).2).
  set (m := Demo.demo_constructor Demo.problem
              (make_system Demo.demo_env Demo.bob Demo.problem None)
              (Some "{}") None).
  set (m0 := Demo.demo_constructor Demo.problem
               (make_system Demo.demo_env AnonymousUser Demo.problem None)
               (Some "{}") None).
  split.
  - eapply (response_body (Mod := Demo.DemoModule) Demo.demo_env ModxDispatch
              (Demo.ajax_request Demo.bob) Demo.problem_url "score_update"
              w w0 w0 (mkXInstance m [StaticUrls "demo"]) 0 None "problem"
              "score_update" ∅ "updated").
    + exists Demo.problem. split; by vm_compute.
    + by vm_compute.
    + by vm_compute.
    + by vm_compute.
  - eapply (response_body (Mod := Demo.DemoModule) Demo.demo_env
              (XqueueCallback 2) Demo.anonymous_callback Demo.problem_url
              "score_update" w w0 w0 (mkXInstance m0 [StaticUrls "demo"])
              0 None "problem" "score_update" {[ "queuekey" := ["key-1"] ]}
              "updated").
    + exists (JObject {[ "queuekey" := "key-1" ]}), ∅, false, Demo.problem.
      split; [|split; [|split]]; by vm_compute.
    + by vm_compute.
    + by vm_compute.
    + by vm_compute.
Defined.

Lemma dispatch_cut_at_question_mark_witness :
  let request := Demo.ajax_request Demo.bob in
  let run := modx_dispatch Demo.demo_env request "score_update?x=1&y=2"
               Demo.problem_url Demo.bob_world in
  (Py.partition "?" "score_update?x=1&y=2").1.1 = "score_update" ∧
  run.1 = Ok {| content := "updated" |} ∧
  EvHandleAjax "score_update" ∅ ∈ trace run.2.
Proof.
  intros request run.
  set (w0 := (StudentModuleCache_new Demo.bob Demo.problem Demo.bob_world).2).
  set (m := Demo.demo_constructor Demo.problem
              (make_system Demo.demo_env Demo.bob Demo.problem None)
              (Some "{}") None).
  destruct (dispatch_cut_at_question_mark (Mod := Demo.DemoModule) Demo.demo_env
              request "score_update?x=1&y=2" Demo.problem_url Demo.bob_world)
    as (_ & _ & _ & Hcall & _).
  assert (Hreach : reaches_get_module Demo.demo_env ModxDispatch request
                     Demo.problem_url Demo.bob_world w0).
  { exists Demo.problem. split; by vm_compute. }
  assert (Hgm : get_module Demo.demo_env (req_user request) Demo.problem_url
                  None w0 =
                (Ok (mkXInstance m [StaticUrls "demo"], Some 0, None, "problem"),
                 w0)) by (by vm_compute).
  destruct (Hcall w0 w0 _ 0 None "problem" Hreach Hgm)
    as [(evs & Htr & _) Hres].
  split; [done|]. split; [exact Hres|].
  fold run in Htr. rewrite Htr. apply elem_of_app. right. left.
Defined.

Lemma not_found_iff_no_instance_record_witness :
  let e := ModxDispatch in
  let request := Demo.ajax_request AnonymousUser in
  let w := Demo.bob_world in
  let instance := mkXInstance
                    (Demo.demo_constructor Demo.problem
                       (make_system Demo.demo_env AnonymousUser Demo.problem None)
                       None None) [StaticUrls "demo"] in
  reaches_get_module Demo.demo_env e request Demo.problem_url w w ∧
  get_module Demo.demo_env (req_user request) Demo.problem_url None w =
    (Ok (instance, None, None, "problem"), w) ∧
  ((None : option nat) = None →
     ∃ w', serve Demo.demo_env e request Demo.problem_url "problem_check" w =
             (Raise Http404, w') ∧
           db w' = db w ∧
           trace w' = trace w ++ [EvLogDebug Demo.problem_url (req_user request)]) ∧
  ((None : option nat) ≠ None →
     ∀ w', serve Demo.demo_env e request Demo.problem_url "problem_check" w =
             (Raise Http404, w') →
           ∃ cmd data,
             forwarded Demo.demo_env e request "problem_check" = inr (cmd, data) ∧
             handle_ajax (xmod instance) cmd data = inl Http404).
Proof.
  intros e request w instance.
  assert (Hreach : reaches_get_module Demo.demo_env e request Demo.problem_url w w).
  { exists Demo.problem. split; by vm_compute. }
  assert (Hgm : get_module Demo.demo_env (req_user request) Demo.problem_url None w =
                (Ok (instance, None, None, "problem"), w)) by (by vm_compute).
  split; [done|]. split; [done|].
  apply (not_found_iff_no_instance_record Demo.demo_env e request
           Demo.problem_url "problem_check" w w w instance None None "problem"
           Hreach Hgm).
Defined.

Lemma handler_exception_reraised_witness :
  let e := ModxDispatch in
  let request := Demo.ajax_request Demo.bob in
  let w := Demo.bob_world in
  let w1 := (get_module Demo.demo_env Demo.bob Demo.problem_url None
               (StudentModuleCache_new Demo.bob Demo.problem w).2).2 in
  ∃ w', serve Demo.demo_env e request Demo.problem_url "crash" w = (Raise ValueError, w') ∧
        trace w' = trace w1 ++ [EvHandleAjax "crash" ∅; EvLogException ValueError] ∧
        db w' = db w1 ∧
        heap w' = heap w1.
Proof.
  intros e request w w1.
  eapply (handler_exception_reraised Demo.demo_env e request Demo.problem_url
            "crash" w (StudentModuleCache_new Demo.bob Demo.problem w).2 w1
            _ 0 None "problem" "crash" ∅ ValueError).
  - exists Demo.problem. split; by vm_compute.
  - by vm_compute.
  - by vm_compute.
  - by vm_compute.
Defined.

(** C2 as stated, at two calls where an authenticated user has no instance
    record in the cache and none is created: the metadata of the module has
    no data_dir, so that get_module raises KeyError before it creates
    anything; and the cache is the one of another student while the user has
    a row for the module, so that the table refuses the insert. *)
Lemma get_module_creates_records_counterexample :
  let w0 := (StudentModuleCache_new Demo.alice Demo.page Demo.empty_world).2 in
  let w1 := (StudentModuleCache_new Demo.alice Demo.problem Demo.bob_world).2 in
  (is_authenticated Demo.alice = true ∧
   lookup_refs (heap w0) (cache w0) "html" Demo.page_url = None ∧
   get_module Demo.demo_env Demo.alice Demo.page_url None w0 =
     (Raise (KeyError "data_dir"), w0)) ∧
  (is_authenticated Demo.bob = true ∧
   lookup_refs (heap w1) (cache w1) "problem" Demo.problem_url = None ∧
   ∃ w', get_module Demo.demo_env Demo.bob Demo.problem_url None w1 =
           (Raise IntegrityError, w') ∧
         db w' = db w1 ∧ cache w' = cache w1 ∧ trace w' = trace w1).
Proof.
  intros w0 w1. split.
  - split; [done|]. split; by vm_compute.
  - split; [done|]. split; [by vm_compute|].
    eexists. split; [by vm_compute|]. split; [|split]; by vm_compute.
Qed.

Lemma get_module_creates_records_witness :
  let w := Demo.empty_world in
  let d := Demo.video in
  let m := Demo.demo_constructor d
             (make_system Demo.demo_env Demo.alice d None) None None in
  ∃ module instance_module shared_module w',
    get_module Demo.demo_env Demo.alice Demo.video_url None w =
      (Ok (module, instance_module, shared_module, "video"), w') ∧
    xmod module = m ∧
    (is_authenticated Demo.alice = false →
       w' = w ∧ instance_module = None ∧ shared_module = None) ∧
    (is_authenticated Demo.alice = true →
       (∃ r k, instance_module = Some r ∧
          newly_created w w' r (with_pk k (new_instance_record Demo.alice d m))) ∧
       (∃ r k, shared_module = Some r ∧
          newly_created w w' r (with_pk k (new_shared_record Demo.alice d "lecture" m)))).
Proof.
  intros w d m.
  assert (Hd : modulestore Demo.demo_env !! Demo.video_url = Some d)
    by (by vm_compute).
  assert (Hprefix : metadata m !! "data_dir" = Some "demo") by (by vm_compute).
  exact (get_module_creates_records (Mod := Demo.DemoModule) Demo.demo_env
           Demo.alice Demo.video_url None w d "demo" Hd Hprefix
           ltac:(intros _ _ Hocc; by apply Exists_nil in Hocc)
           ltac:(intros _ key [= <-] _; split;
                 [intros Hocc; by apply Exists_nil in Hocc|done])).
Defined.

Lemma toc_active_flags_witness :
  let run := toc_for_course Demo.demo_env Demo.alice Demo.course
               (Some "Week 1") (Some "Intro") Demo.empty_world in
  let toc := toc_chapters Demo.course_tree (Some "Week 1") (Some "Intro") in
  run.1 = Ok toc ∧
  ∃ w0 course_module im sm mt,
    get_module Demo.demo_env Demo.alice (location_url Demo.course) None w0 =
      (Ok (course_module, im, sm, mt), run.2) ∧
    Forall2 (chapter_listed (Some "Week 1") (Some "Intro"))
            (get_display_items (xmod course_module)) toc ∧
    (∀ chapter, chapter ∈ get_display_items (xmod course_module) →
       display_name chapter = Some "hidden" →
       ∃ entry, entry ∈ toc ∧ chap_name entry = Some "hidden").
Proof.
  intros run toc.
  assert (Hrun : run = (Ok toc, run.2)) by (by vm_compute).
  split; [by rewrite Hrun|].
  exact (toc_active_flags (Mod := Demo.DemoModule) Demo.demo_env Demo.alice
           Demo.course (Some "Week 1") (Some "Intro") Demo.empty_world toc run.2
           Hrun).
Defined.

(** ** The histogram of grades *)

Global Instance grade_le_trans : Transitive grade_le.
Proof. intros [x|] [y|] [z|]; simpl; try done. lia. Qed.

Global Instance grade_le_total : Total grade_le.
Proof. intros [x|] [y|]; simpl; try tauto. lia. Qed.

Global Instance entry_le_trans : Transitive entry_le.
Proof. intros x y z. unfold entry_le. apply grade_le_trans. Qed.

Global Instance entry_le_total : Total entry_le.
Proof. intros x y. unfold entry_le. apply grade_le_total. Qed.

Lemma grade_le_antisym (a b : option Z) : grade_le a b → grade_le b a → a = b.
Proof. destruct a as [x|], b as [y|]; simpl; try done. intros. f_equal. lia. Qed.

Lemma group_count_cons (g : option Z) entry groups :
  group_count g (entry :: groups) =
  (if decide (entry.1 = g) then entry.2 else 0) + group_count g groups.
Proof.
  unfold group_count. rewrite filter_cons.
  destruct (decide (entry.1 = g)); done.
Qed.

Lemma bump_count (g g' : option Z) groups :
  group_count g' (bump g groups) =
  (if decide (g = g') then 1 else 0) + group_count g' groups.
Proof.
  induction groups as [|[g0 n] groups IH]; simpl.
  - rewrite group_count_cons. simpl. unfold group_count. simpl.
    destruct (decide (g = g')); lia.
  - destruct (decide (g = g0)) as [->|Hne].
    + rewrite !group_count_cons. simpl.
      destruct (decide (g0 = g')); lia.
    + rewrite !group_count_cons, IH. simpl.
      destruct (decide (g0 = g')), (decide (g = g')); lia.
Qed.

Lemma bump_keys (g g' : option Z) groups :
  g' ∈ (bump g groups).*1 ↔ g' = g ∨ g' ∈ groups.*1.
Proof.
  induction groups as [|[g0 n] groups IH]; simpl.
  - rewrite list_elem_of_singleton, elem_of_nil. tauto.
  - destruct (decide (g = g0)) as [->|Hne]; simpl.
    + rewrite !elem_of_cons. tauto.
    + rewrite !elem_of_cons, IH. tauto.
Qed.

Lemma bump_NoDup (g : option Z) groups :
  NoDup groups.*1 → NoDup (bump g groups).*1.
Proof.
  induction groups as [|[g0 n] groups IH]; simpl.
  - intros _. apply NoDup_singleton.
  - rewrite NoDup_cons. intros [Hnotin Hnd].
    destruct (decide (g = g0)) as [->|Hne]; simpl.
    + by apply NoDup_cons.
    + apply NoDup_cons. split; [|by apply IH].
      rewrite bump_keys. intros [->|?]; done.
Qed.

Lemma bump_positive (g : option Z) groups :
  Forall (λ entry, 0 < entry.2) groups →
  Forall (λ entry, 0 < entry.2) (bump g groups).
Proof.
  induction groups as [|[g0 n] groups IH]; simpl.
  - intros _. repeat constructor.
  - intros [Hn Hrest]%Forall_cons.
    destruct (decide (g = g0)); constructor; simpl in *; auto with lia.
Qed.

(** The groups of a GROUP BY: distinct grades, positive counts, and under
    each grade the number of rows that have it. *)
Lemma group_by_grade_spec (rows : list StudentModule) :
  NoDup (group_by_grade rows).*1 ∧
  Forall (λ entry, 0 < entry.2) (group_by_grade rows) ∧
  ∀ g, group_count g (group_by_grade rows) =
       length (filter (λ row, grade row = g) rows).
Proof.
  unfold group_by_grade.
  assert (Hgen : ∀ groups,
    NoDup groups.*1 → Forall (λ entry, 0 < entry.2) groups →
    NoDup (fold_left (λ groups row, bump (grade row) groups) rows groups).*1 ∧
    Forall (λ entry, 0 < entry.2)
           (fold_left (λ groups row, bump (grade row) groups) rows groups) ∧
    ∀ g, group_count g (fold_left (λ groups row, bump (grade row) groups) rows groups) =
         group_count g groups + length (filter (λ row, grade row = g) rows)).
  { induction rows as [|row rows IH]; intros groups Hnd Hpos; simpl.
    - repeat split; [done..|]. intros g. simpl. lia.
    - destruct (IH (bump (grade row) groups)) as (Hnd' & Hpos' & Hcount).
      { by apply bump_NoDup. }
      { by apply bump_positive. }
      repeat split; [done..|]. intros g.
      rewrite Hcount, bump_count, filter_cons.
      destruct (decide (grade row = g)); simpl; lia. }
  destruct (Hgen []) as (Hnd & Hpos & Hcount).
  { constructor. }
  { constructor. }
  repeat split; [done..|]. intros g. by rewrite Hcount.
Qed.

Lemma group_count_absent (g : option Z) groups :
  g ∉ groups.*1 → group_count g groups = 0.
Proof.
  induction groups as [|[g0 n0] groups IH]; simpl; [done|].
  rewrite not_elem_of_cons. intros [Hne Hnotin].
  rewrite group_count_cons. simpl. rewrite decide_False by done.
  by rewrite IH.
Qed.

Lemma group_count_elem (g : option Z) (n : nat) groups :
  NoDup groups.*1 → (g, n) ∈ groups → group_count g groups = n.
Proof.
  induction groups as [|[g0 n0] groups IH]; simpl.
  - by intros _ ?%elem_of_nil.
  - rewrite NoDup_cons. intros [Hnotin Hnd] Hin.
    rewrite group_count_cons. simpl.
    apply elem_of_cons in Hin as [[= -> ->]|Hin].
    + rewrite decide_True by done.
      rewrite group_count_absent by done. lia.
    + rewrite decide_False.
      * by rewrite IH.
      * intros ->. apply Hnotin. apply list_elem_of_fmap. by exists (g, n).
Qed.

Lemma group_count_positive (g : option Z) groups :
  0 < group_count g groups → ∃ n, (g, n) ∈ groups.
Proof.
  induction groups as [|[g0 n0] groups IH]; simpl.
  - unfold group_count. simpl. lia.
  - rewrite group_count_cons. simpl.
    destruct (decide (g0 = g)) as [->|Hne].
    + intros _. exists n0. left.
    + intros Hpos. destruct IH as [n Hn]; [lia|]. exists n. by right.
Qed.

Lemma filter_filter_and {A} (P Q : A → Prop) `{∀ x, Decision (P x)}
    `{∀ x, Decision (Q x)} (l : list A) :
  filter Q (filter P l) = filter (λ x, P x ∧ Q x) l.
Proof.
  induction l as [|x l IH]; [done|].
  rewrite !filter_cons.
  destruct (decide (P x)) as [HP|HP].
  - rewrite filter_cons. destruct (decide (Q x)) as [HQ|HQ].
    + rewrite decide_True by done. by rewrite IH.
    + rewrite decide_False by tauto. done.
  - rewrite decide_False by tauto. done.
Qed.

(** The rows the query fetches, sorted. *)
Lemma sorted_groups_spec (rows : list StudentModule) (module_id : string) :
  let grades :=
    merge_sort entry_le
      (group_by_grade (filter (λ row, module_state_key row = module_id) rows)) in
  StronglySorted (λ x y, grade_lt x.1 y.1) grades ∧
  ∀ g n, (g, n) ∈ grades ↔
         n = records_with_grade rows module_id g ∧ 0 < n.
Proof.
  intros grades.
  set (selected := filter (λ row, module_state_key row = module_id) rows) in *.
  destruct (group_by_grade_spec selected) as (Hnd & Hpos & Hcount).
  assert (Hperm : grades ≡ₚ group_by_grade selected)
    by apply merge_sort_Permutation.
  assert (Hrec : ∀ g, group_count g (group_by_grade selected) =
                      records_with_grade rows module_id g).
  { intros g. rewrite Hcount. unfold records_with_grade. subst selected.
    by rewrite filter_filter_and. }
  split.
  - assert (Hnd' : NoDup grades.*1) by (by rewrite Hperm).
    assert (Hs : StronglySorted entry_le grades)
      by (apply StronglySorted_merge_sort; apply _).
    clear Hperm. induction Hs as [|x l Hs IH Hall]; [constructor|].
    simpl in Hnd'. apply NoDup_cons in Hnd' as [Hnotin Hnd'].
    constructor; [by apply IH|].
    apply Forall_forall. intros y Hy. split.
    + eapply Forall_forall in Hall; [|done]. done.
    + intros Heq. apply Hnotin. rewrite Heq.
      apply list_elem_of_fmap. by exists y.
  - intros g n. rewrite Hperm. split.
    + intros Hin. rewrite <- Hrec. split.
      * symmetry. by apply group_count_elem.
      * eapply Forall_forall in Hpos; [|done]. done.
    + intros [-> Hn]. rewrite <- Hrec in *.
      destruct (group_count_positive _ _ Hn) as [n Hin].
      by rewrite (group_count_elem _ _ _ Hnd Hin).
Qed.

Lemma records_with_grade_positive (rows : list StudentModule) (module_id : string)
    (g : option Z) :
  0 < records_with_grade rows module_id g ↔
  ∃ row, row ∈ rows ∧ module_state_key row = module_id ∧ grade row = g.
Proof.
  unfold records_with_grade.
  destruct (filter _ rows) as [|row l] eqn:Hf; simpl.
  - split; [lia|]. intros (row & Hin & Hk & Hg).
    assert (Hin' : row ∈ filter (λ row, module_state_key row = module_id ∧
                                         grade row = g) rows)
      by (by apply list_elem_of_filter).
    rewrite Hf in Hin'. by apply elem_of_nil in Hin'.
  - split; [intros _|lia].
    assert (Hin : row ∈ filter (λ row, module_state_key row = module_id ∧
                                        grade row = g) rows)
      by (rewrite Hf; left).
    apply list_elem_of_filter in Hin as [[Hk Hg] Hin]. by exists row.
Qed.

Lemma grade_histogram_cases (rows : list StudentModule) (module_id : string) :
  let grades :=
    merge_sort entry_le
      (group_by_grade (filter (λ row, module_state_key row = module_id) rows)) in
  (grade_histogram rows module_id = [] ∧ ∃ n, grades = [(None, n)]) ∨
  (grade_histogram rows module_id = grades ∧ ∀ n, grades ≠ [(None, n)]).
Proof.
  intros grades. unfold grade_histogram. fold grades.
  destruct grades as [|[[x|] n] [|entry rest]]; try (right; by split).
  left. split; [done|]. by exists n.
Qed.

(** X1: the histogram lists grades in strictly increasing order, None
    first, and the count next to a grade is the number of records of the
    module that have this grade, which is positive. *)
Theorem grade_histogram_sorted_counts (rows : list StudentModule)
    (module_id : string) :
  StronglySorted (λ x y, grade_lt x.1 y.1) (grade_histogram rows module_id) ∧
  ∀ g n, (g, n) ∈ grade_histogram rows module_id →
         n = records_with_grade rows module_id g ∧ 0 < n.
Proof.
  destruct (sorted_groups_spec rows module_id) as [Hsorted Hin].
  destruct (grade_histogram_cases rows module_id) as [[-> _]|[-> _]].
  - split; [constructor|]. by intros g n ?%elem_of_nil.
  - split; [done|]. intros g n. by rewrite Hin.
Qed.

(** X2: the histogram is empty exactly when no record of the module has a
    grade: when the module has no record at all, or only records whose grade
    is None. *)
Theorem grade_histogram_empty_iff (rows : list StudentModule) (module_id : string) :
  grade_histogram rows module_id = [] ↔
  ∀ row, row ∈ rows → module_state_key row = module_id → grade row = None.
Proof.
  destruct (sorted_groups_spec rows module_id) as [Hsorted Hin].
  destruct (grade_histogram_cases rows module_id)
    as [[-> [n Hgrades]]|[-> Hgrades]].
  - split; [intros _|done]. intros row Hrow Hk.
    assert (Hpos : 0 < records_with_grade rows module_id (grade row)).
    { apply records_with_grade_positive. by exists row. }
    assert (Hentry : (grade row, records_with_grade rows module_id (grade row))
                     ∈ [(None : option Z, n)]).
    { rewrite <- Hgrades. by apply Hin. }
    by apply list_elem_of_singleton in Hentry as [= -> _].
  - split.
    + intros Hnil. intros row Hrow Hk.
      assert (Hpos : 0 < records_with_grade rows module_id (grade row)).
      { apply records_with_grade_positive. by exists row. }
      assert (Hentry : (grade row, records_with_grade rows module_id (grade row))
                       ∈ ([] : list (option Z * nat))).
      { rewrite <- Hnil. by apply Hin. }
      by apply elem_of_nil in Hentry.
    + intros Hungraded.
      assert (Hnone : ∀ entry, entry ∈ merge_sort entry_le
                (group_by_grade
                   (filter (λ row, module_state_key row = module_id) rows)) →
                entry.1 = None).
      { intros [g n] [-> Hpos]%Hin.
        apply records_with_grade_positive in Hpos as (row & Hrow & Hk & <-).
        by apply Hungraded. }
      destruct (merge_sort entry_le _) as [|[g n] [|[g' n'] rest]]; [done|..].
      * pose proof (Hnone (g, n) ltac:(left)) as Hg. simpl in Hg. subst g.
        by destruct (Hgrades n).
      * pose proof (Hnone (g, n) ltac:(left)) as Hg.
        pose proof (Hnone (g', n') ltac:(right; left)) as Hg'.
        simpl in Hg, Hg'. subst g g'.
        apply StronglySorted_inv in Hsorted as [_ Hall].
        apply Forall_cons in Hall as [[_ Hne] _]. done.
Qed.

(** X3: as soon as one record of the module has a grade, the histogram has
    an entry for every grade that occurs among the records of the module,
    None included, and for no other. *)
Theorem grade_histogram_complete (rows : list StudentModule) (module_id : string)
    (graded : StudentModule) :
  graded ∈ rows → module_state_key graded = module_id → grade graded ≠ None →
  ∀ g n, (g, n) ∈ grade_histogram rows module_id ↔
         n = records_with_grade rows module_id g ∧
         ∃ row, row ∈ rows ∧ module_state_key row = module_id ∧ grade row = g.
Proof.
  intros Hgraded Hk Hg g n.
  rewrite <- records_with_grade_positive.
  destruct (sorted_groups_spec rows module_id) as [_ Hin].
  destruct (grade_histogram_cases rows module_id)
    as [[Hnil _]|[-> _]]; [|rewrite Hin; split; by intros [-> ?]].
  destruct Hg. by apply (proj1 (grade_histogram_empty_iff rows module_id) Hnil).
Qed.

Lemma grade_histogram_complete_witness :
  let row g := {| pk := None; student := Demo.alice; module_type := "problem";
                  module_state_key := Demo.problem_url; state := None;
                  grade := g; max_grade := Some 2%Z |} in
  let rows := [row (Some 2%Z); row None; row (Some 0%Z); row (Some 2%Z)] in
  grade_histogram rows Demo.problem_url = [(None, 1); (Some 0%Z, 1); (Some 2%Z, 2)] ∧
  ∀ g n, (g, n) ∈ grade_histogram rows Demo.problem_url ↔
         n = records_with_grade rows Demo.problem_url g ∧
         ∃ r, r ∈ rows ∧ module_state_key r = Demo.problem_url ∧ grade r = g.
Proof.
  intros row rows. split; [by vm_compute|].
  apply (grade_histogram_complete rows Demo.problem_url (row (Some 2%Z))).
  - left.
  - reflexivity.
  - discriminate.
Defined.

(** ** More on get_module *)

Section GetModuleMore.
Context {Mod : Type} `{XModule Mod}.
Variable env : Env.

(** The worlds get_module can lead to: nothing new, or one or two records
    of the user created one after the other, each accepted by the table;
    when the table refuses a record, the world is that of the records
    created before it, with the refused object. *)
Lemma get_module_worlds (user : User) (location : string)
    (position : option string) (w : World) r w1 :
  get_module env user location position w = (r, w1) →
  ∃ w2,
    (w1 = w2 ∨ ∃ o, w1 = refused w2 o ∧ r = Raise IntegrityError) ∧
    (∀ res, r = Ok res → w1 = w2) ∧
    (w2 = w ∨
     is_authenticated user = true ∧
     ((∃ o, w2 = created w o ∧ student o = user ∧ pk o = None ∧
            grade o = None ∧ ¬ occupied (db w) o) ∨
      (∃ o1 o2, w2 = created (created w o1) o2 ∧
                student o1 = user ∧ pk o1 = None ∧ grade o1 = None ∧
                student o2 = user ∧ pk o2 = None ∧ grade o2 = None ∧
                ¬ occupied (db w) o1 ∧
                ¬ occupied (db (created w o1)) o2))).
Proof.
  rewrite get_module_run.
  destruct (modulestore env !! location) as [d|].
  2: { intros [= <- <-]. exists w. split; [by left|]. split; [done|by left]. }
  cbv beta zeta.
  destruct (metadata _ !! "data_dir") as [prefix|].
  2: { intros [= <- <-]. exists w. split; [by left|]. split; [done|by left]. }
  destruct (is_authenticated user).
  2: { intros [= <- <-]. exists w. split; [by left|]. split; [done|by left]. }
  set (m := xmodule_constructor _ _ _ _).
  assert (Hone : ∀ o, student o = user → pk o = None → grade o = None →
            ¬ occupied (db w) o →
            created w o = w ∨
            true = true ∧
            ((∃ o', created w o = created w o' ∧ student o' = user ∧
                    pk o' = None ∧ grade o' = None ∧ ¬ occupied (db w) o') ∨
             (∃ o1 o2, created w o = created (created w o1) o2 ∧
                student o1 = user ∧ pk o1 = None ∧ grade o1 = None ∧
                student o2 = user ∧ pk o2 = None ∧ grade o2 = None ∧
                ¬ occupied (db w) o1 ∧
                ¬ occupied (db (created w o1)) o2))).
  { intros o ? ? ? ?. right. split; [done|]. left. by exists o. }
  destruct (lookup_refs _ _ _ (location_url d));
    (destruct (shared_state_key d) as [key|];
     [destruct (lookup_refs _ _ _ key)|]);
    repeat case_decide; intros [= <- <-].
  - exists w. split; [by left|]. split; [done|by left].
  - exists w. split; [right; by eexists|]. split; [done|by left].
  - eexists. split; [by left|]. split; [done|]. by apply Hone.
  - exists w. split; [by left|]. split; [done|by left].
  - exists w. split; [right; by eexists|]. split; [done|by left].
  - eexists. split; [by left|]. split; [done|]. by apply Hone.
  - exists w. split; [right; by eexists|]. split; [done|by left].
  - eexists. split; [right; by eexists|]. split; [done|]. by apply Hone.
  - eexists. split; [by left|]. split; [done|].
    right. split; [done|]. right. by eexists _, _.
  - exists w. split; [right; by eexists|]. split; [done|by left].
  - eexists. split; [by left|]. split; [done|]. by apply Hone.
Qed.

(** X5: get_module never rewrites or removes a persisted record: the table
    after the call is the table before it followed by at most two new rows;
    the new rows belong to the user of the call, have no grade and carry
    their position in the table as key; for a user who is not authenticated
    there is none. *)
Theorem get_module_appends_rows (user : User) (location : string)
    (position : option string) (w : World) r w1 :
  get_module env user location position w = (r, w1) →
  ∃ new, db w1 = db w ++ new ∧
         (length new ≤ 2)%nat ∧
         (∀ i row, new !! i = Some row →
            student row = user ∧ grade row = None ∧
            pk row = Some (length (db w) + i)) ∧
         (is_authenticated user = false → new = []).
Proof.
  intros (w2 & Hw1 & _ & Hw2)%get_module_worlds.
  assert (Hdb : db w1 = db w2) by (by destruct Hw1 as [->|(o & -> & _)]).
  rewrite Hdb. clear Hdb Hw1 w1.
  destruct Hw2 as [->|[Hauth [(o & -> & Ho & _ & Hg & _)
                    |(o1 & o2 & -> & Ho1 & _ & Hg1 & Ho2 & _ & Hg2 & _)]]].
  - exists []. rewrite app_nil_r. split; [done|]. split; [simpl; lia|].
    split; [|done]. intros i row Hrow. by rewrite lookup_nil in Hrow.
  - eexists [_]. simpl. split; [done|]. split; [lia|]. split; [|congruence].
    intros [|i] row; [|done]. intros [= <-]. simpl.
    by rewrite Nat.add_0_r.
  - eexists [_; _]. simpl. rewrite <- app_assoc. split; [done|].
    split; [lia|]. split; [|congruence].
    intros [|[|i]] row; [| |done]; intros [= <-]; simpl.
    + by rewrite Nat.add_0_r.
    + by rewrite length_app.
Qed.


Lemma lookup_refs_is_Some (objs : list StudentModule) (refs : list nat)
    (type key : string) :
  is_Some (lookup_refs objs refs type key) ↔
  ∃ r o, r ∈ refs ∧ objs !! r = Some o ∧
         module_type o = type ∧ module_state_key o = key.
Proof.
  split.
  - intros [r (o & Ho & Ht & Hk & Hr)%lookup_refs_Some]. by exists r, o.
  - intros (r & o & Hr & Ho & Ht & Hk).
    induction refs as [|r0 refs IH]; [by apply elem_of_nil in Hr|].
    simpl. destruct (objs !! r0) as [o0|] eqn:Ho0.
    + destruct (bool_decide (module_type o0 = type) &&
                bool_decide (module_state_key o0 = key)) eqn:Hm; [by eexists|].
      apply elem_of_cons in Hr as [->|Hr]; [|by apply IH].
      rewrite Ho in Ho0. injection Ho0 as <-.
      by rewrite !bool_decide_true in Hm.
    + apply elem_of_cons in Hr as [->|Hr]; [congruence|by apply IH].
Qed.

Lemma lookup_refs_extends (w w1 : World) (type key : string) :
  extends w w1 →
  is_Some (lookup_refs (heap w) (cache w) type key) →
  is_Some (lookup_refs (heap w1) (cache w1) type key).
Proof.
  intros (_ & (objs & Hheap) & (refs & Hcache) & _).
  rewrite !lookup_refs_is_Some. intros (r & o & Hr & Ho & Ht & Hk).
  exists r, o. rewrite Hheap, Hcache. repeat split; [|by apply lookup_app_l_Some|done..].
  apply elem_of_app. by left.
Qed.

Lemma lookup_refs_created (w : World) (o : StudentModule) :
  is_Some (lookup_refs (heap (created w o)) (cache (created w o))
                       (module_type o) (module_state_key o)).
Proof.
  apply lookup_refs_is_Some.
  exists (length (heap w)), (with_pk (length (db w)) o). simpl.
  repeat split; [|by rewrite lookup_app_r, Nat.sub_diag by lia].
  apply elem_of_app. right. by apply list_elem_of_singleton.
Qed.

(** When the lookups find a record for the module, and one for its shared
    key if it has one, get_module creates nothing. *)
Lemma get_module_found (user : User) (location : string)
    (position : option string) (w : World) (d : Descriptor) :
  modulestore env !! location = Some d →
  (∀ sys i s, is_Some (metadata (xmodule_constructor d sys i s : Mod) !! "data_dir")) →
  is_Some (lookup_refs (heap w) (cache w) (category d) (location_url d)) →
  (∀ key, shared_state_key d = Some key →
          is_Some (lookup_refs (heap w) (cache w) (category d) key)) →
  ∃ module im sm,
    get_module env user location position w =
      (Ok (module, Some im, sm, category d), w) ∧
    (is_Some (shared_state_key d) → is_Some sm).
Proof.
  intros Hd Hdata [ri Hi] Hs.
  rewrite get_module_run, Hd. cbv beta zeta.
  destruct (metadata _ !! "data_dir") as [prefix|] eqn:Hm.
  2: { exfalso. eapply is_Some_None. rewrite <- Hm. apply Hdata. }
  clear Hm. rewrite Hi.
  destruct (shared_state_key d) as [key|] eqn:Hkey.
  - destruct (Hs key eq_refl) as [rs Hrs]. rewrite Hrs.
    destruct (is_authenticated user); eexists _, _, _; split; try done.
  - destruct (is_authenticated user); eexists _, _, _; split; try done;
      by intros [? [=]].
Qed.

(** X6: once get_module has returned for an authenticated user, a second
    call for the same location finds the records and creates nothing,
    provided the module class respects two conventions of the module
    interface: a module's id is the URL of its location, and its metadata
    has a data_dir. *)
Theorem get_module_second_call_creates_nothing (user : User) (location : string)
    (position position' : option string) (w w1 : World) (d : Descriptor) res :
  modulestore env !! location = Some d →
  (∀ sys i s, module_id (xmodule_constructor d sys i s : Mod) = location_url d) →
  (∀ sys i s, is_Some (metadata (xmodule_constructor d sys i s : Mod) !! "data_dir")) →
  is_authenticated user = true →
  get_module env user location position w = (Ok res, w1) →
  ∃ module im sm,
    get_module env user location position' w1 =
      (Ok (module, Some im, sm, category d), w1) ∧
    (is_Some (shared_state_key d) → is_Some sm).
Proof.
  intros Hd Hid Hdata Hauth Hrun.
  apply get_module_found; [done..| |].
  - apply get_module_Ok_run in Hrun. rewrite Hd in Hrun. cbv zeta in Hrun.
    destruct (metadata _ !! "data_dir") as [prefix|]; [|done].
    rewrite Hauth in Hrun.
    destruct (lookup_refs _ _ _ (location_url d)) as [ri|] eqn:Hi.
    + assert (Hext : extends w w1).
      { destruct (shared_state_key d) as [key|];
          [destruct (lookup_refs _ _ _ key)|];
          injection Hrun as <- <-;
          repeat apply extends_created; apply extends_refl. }
      eapply lookup_refs_extends; [done|]. by rewrite Hi.
    + set (m := xmodule_constructor _ _ _ _) in *.
      assert (Hm : module_id m = location_url d) by apply Hid.
      rewrite <- Hm.
      pose proof (lookup_refs_created w (new_instance_record user d m)) as Hnew.
      destruct (shared_state_key d) as [key|];
        [destruct (lookup_refs _ _ _ key)|];
        injection Hrun as <- <-; try exact Hnew.
      eapply lookup_refs_extends; [|exact Hnew].
      apply extends_created, extends_refl.
  - intros key Hkey.
    apply get_module_Ok_run in Hrun. rewrite Hd in Hrun. cbv zeta in Hrun.
    destruct (metadata _ !! "data_dir") as [prefix|]; [|done].
    rewrite Hauth, Hkey in Hrun.
    set (m := xmodule_constructor _ _ _ _) in *.
    destruct (lookup_refs _ _ _ (location_url d)) as [ri|];
      (destruct (lookup_refs _ _ _ key) as [rs|] eqn:Hs;
       injection Hrun as <- <-).
    + by rewrite Hs.
    + apply (lookup_refs_created w (new_shared_record user d key m)).
    + eapply lookup_refs_extends; [apply extends_created, extends_refl|].
      by rewrite Hs.
    + apply (lookup_refs_created _ (new_shared_record user d key m)).
Qed.

End GetModuleMore.

Lemma get_module_appends_rows_witness :
  let run := get_module Demo.demo_env Demo.alice Demo.video_url None Demo.bob_world in
  ∃ new, db run.2 = db Demo.bob_world ++ new ∧
         (length new ≤ 2)%nat ∧
         (∀ i row, new !! i = Some row →
            student row = Demo.alice ∧ grade row = None ∧
            pk row = Some (length (db Demo.bob_world) + i)) ∧
         (is_authenticated Demo.alice = false → new = []).
Proof.
  intros run.
  exact (get_module_appends_rows (Mod := Demo.DemoModule) Demo.demo_env Demo.alice
           Demo.video_url None Demo.bob_world run.1 run.2
           (surjective_pairing run)).
Defined.

Lemma get_module_second_call_creates_nothing_witness :
  let first := get_module Demo.demo_env Demo.alice Demo.video_url None
                 Demo.empty_world in
  length (db first.2) = 2 ∧
  ∃ module im sm,
    get_module Demo.demo_env Demo.alice Demo.video_url (Some "2") first.2 =
      (Ok (module, Some im, sm, category Demo.video), first.2) ∧
    (is_Some (shared_state_key Demo.video) → is_Some sm).
Proof.
  intros first. split; [by vm_compute|].
  assert (Hrun : ∃ res, first = (Ok res, first.2)) by (eexists; by vm_compute).
  destruct Hrun as [res Hrun].
  apply (get_module_second_call_creates_nothing (Mod := Demo.DemoModule)
           Demo.demo_env Demo.alice Demo.video_url None (Some "2")
           Demo.empty_world first.2 Demo.video res).
  - by vm_compute.
  - done.
  - intros sys i s. by eexists.
  - done.
  - exact Hrun.
Defined.

(** ** Whose records a request touches *)

Lemma same_record_refl (a : StudentModule) : same_record a a.
Proof. by repeat split. Qed.

Lemma same_record_sym (a b : StudentModule) : same_record a b → same_record b a.
Proof. intros (? & ? & ? & ?). by repeat split. Qed.

Lemma same_record_trans (a b c : StudentModule) :
  same_record a b → same_record b c → same_record a c.
Proof.
  intros (? & ? & ? & ?) (? & ? & ? & ?). repeat split; congruence.
Qed.

(** Replacing a row by the same record, and adding a record the table does
    not hold, keep the table at one record per student and state key. *)
Lemma at_most_one_record_insert (rows : list StudentModule) (k : nat)
    (row o : StudentModule) :
  rows !! k = Some row → same_record row o →
  at_most_one_record rows → at_most_one_record (<[k := o]> rows).
Proof.
  intros Hk (Hst & _ & Hkey & _) Hone i j a b Hi Hj Hs Hm.
  assert (Hlt : k < length rows) by (by eapply lookup_lt_Some).
  assert (Hget : ∀ n x, <[k := o]> rows !! n = Some x →
            ∃ y, rows !! n = Some y ∧ student y = student x ∧
                 module_state_key y = module_state_key x).
  { intros n x Hn. destruct (decide (n = k)) as [->|Hne].
    - rewrite list_lookup_insert_eq in Hn by done. injection Hn as <-.
      by exists row.
    - rewrite list_lookup_insert_ne in Hn by done. by exists x. }
  destruct (Hget i a Hi) as (a' & Hi' & Hsa & Hma).
  destruct (Hget j b Hj) as (b' & Hj' & Hsb & Hmb).
  apply (Hone i j a' b' Hi' Hj'); congruence.
Qed.

Lemma at_most_one_record_app (rows : list StudentModule) (o : StudentModule) :
  ¬ occupied rows o →
  at_most_one_record rows →
  at_most_one_record (rows ++ [with_pk (length rows) o]).
Proof.
  intros Hfree Hone i j a b Hi Hj Hs Hm.
  assert (Hold : ∀ n x, rows !! n = Some x →
            ¬ (student x = student o ∧ module_state_key x = module_state_key o)).
  { intros n x Hn Hx. apply Hfree. apply Exists_exists. exists x.
    split; [by eapply list_elem_of_lookup_2|done]. }
  apply lookup_app_Some in Hi as [Hi|[Hige Hi]];
    apply lookup_app_Some in Hj as [Hj|[Hjge Hj]].
  - by eapply Hone.
  - apply list_lookup_singleton_Some in Hj as [_ <-]. simpl in Hs, Hm.
    by destruct (Hold i a Hi).
  - apply list_lookup_singleton_Some in Hi as [_ <-]. simpl in Hs, Hm.
    by destruct (Hold j b Hj).
  - apply list_lookup_singleton_Some in Hi as [Hi _].
    apply list_lookup_singleton_Some in Hj as [Hj _]. lia.
Qed.

Lemma rows_kept_refl (us : User → Prop) (w : World) : rows_kept us w w.
Proof.
  split; [|split; [|split]].
  - intros k row Hk. exists row. split; [done|]. split; [apply same_record_refl|done].
  - intros k row Hn Hs. congruence.
  - exists []. split; [by rewrite app_nil_r|]. by intros r row ?%elem_of_nil.
  - done.
Qed.

Lemma rows_kept_trans (us : User → Prop) (w1 w2 w3 : World) :
  rows_kept us w1 w2 → rows_kept us w2 w3 → rows_kept us w1 w3.
Proof.
  intros (Hold1 & Hnew1 & (evs1 & Htr1 & Hev1) & Hone1)
         (Hold2 & Hnew2 & (evs2 & Htr2 & Hev2) & Hone2).
  split; [|split; [|split; [|auto]]].
  - intros k row Hk.
    destruct (Hold1 k row Hk) as (row' & Hk' & Hsame & Hother).
    destruct (Hold2 k row' Hk') as (row'' & Hk'' & Hsame' & Hother').
    exists row''. split; [done|]. split; [by eapply same_record_trans|].
    intros Hnot. pose proof (Hother Hnot) as ->. by apply Hother'.
  - intros k row Hn Hk.
    destruct (db w2 !! k) as [row'|] eqn:Hk2.
    + destruct (Hold2 k row' Hk2) as (row'' & Hk'' & (Hst & _) & _).
      rewrite Hk in Hk''. injection Hk'' as <-. rewrite <- Hst.
      by eapply Hnew1.
    + by eapply Hnew2.
  - exists (evs1 ++ evs2). split; [by rewrite Htr2, Htr1, app_assoc|].
    intros r row [?|?]%elem_of_app; eauto.
Qed.

Lemma cache_owned_mono (us us' : User → Prop) (w : World) :
  (∀ s, us s → us' s) → cache_owned us w → cache_owned us' w.
Proof.
  intros Hsub Hown r o Hr Ho. destruct (Hown r o Hr Ho) as [Hus Hrow]. auto.
Qed.

(** A new cache holds records of its user only, each with its row. *)
Lemma StudentModuleCache_new_owned (user : User) (d : Descriptor) (w : World) r w0 :
  StudentModuleCache_new user d w = (r, w0) →
  cache_owned (λ s, s = user) w0 ∧ db w0 = db w ∧ trace w0 = trace w ∧
  (is_authenticated user = false → cache w0 = []).
Proof.
  intros [= <- <-]. simpl. split; [|split; [done|split; [done|]]].
  - intros ref o Href Ho. simpl in *.
    apply elem_of_seq in Href as [Hge Hlt].
    rewrite lookup_app_r in Ho by done.
    assert (Hin : o ∈ (if is_authenticated user
                       then filter (λ row, student row = user) (imap with_pk (db w))
                       else [])).
    { apply list_elem_of_lookup. by eexists. }
    destruct (is_authenticated user); [|by apply elem_of_nil in Hin].
    apply list_elem_of_filter in Hin as [Hst Hin].
    apply elem_of_lookup_imap in Hin as (k & row & -> & Hk).
    split; [done|]. exists k, row. split; [done|]. split; [done|].
    by repeat split.
  - intros ->. done.
Qed.

Lemma rows_kept_created (us : User → Prop) (w : World) (o : StudentModule) :
  us (student o) → ¬ occupied (db w) o → rows_kept us w (created w o).
Proof.
  intros Hus Hfree. split; [|split; [|split; [|by apply at_most_one_record_app]]];
    simpl.
  - intros k row Hk. exists row.
    split; [by apply lookup_app_l_Some|]. split; [apply same_record_refl|done].
  - intros k row Hn Hk.
    apply lookup_app_Some in Hk as [Hk|[_ Hk]]; [congruence|].
    apply list_lookup_singleton_Some in Hk as [_ <-]. done.
  - eexists. split; [done|]. intros r row [= _ ->]%list_elem_of_singleton. done.
Qed.

Lemma cache_owned_created (us : User → Prop) (w : World) (o : StudentModule) :
  us (student o) → cache_owned us w → cache_owned us (created w o).
Proof.
  intros Hus Hown r o' Href Ho'. simpl in *.
  apply lookup_app_Some in Ho' as [Ho'|[Hge Ho']].
  - assert (Hr : r ∈ cache w).
    { apply elem_of_app in Href as [?|Hnew]; [done|].
      apply list_elem_of_singleton in Hnew as ->.
      apply lookup_lt_Some in Ho'. lia. }
    destruct (Hown r o' Hr Ho') as (Hus' & k & row & Hpk & Hk & Hsame).
    split; [done|]. exists k, row. split; [done|].
    split; [by apply lookup_app_l_Some|done].
  - apply list_lookup_singleton_Some in Ho' as [_ <-].
    split; [done|]. eexists (length (db w)), _. split; [done|].
    split; [by rewrite lookup_app_r, Nat.sub_diag by lia|apply same_record_refl].
Qed.

Lemma rows_kept_same (us : User → Prop) (w w' : World) :
  db w' = db w → trace w' = trace w → rows_kept us w w'.
Proof.
  intros Hdb Htr. split; [|split; [|split]].
  - intros k row Hk. exists row. rewrite Hdb.
    split; [done|]. split; [apply same_record_refl|done].
  - intros k row Hn Hs. congruence.
  - exists []. split; [by rewrite Htr, app_nil_r|]. by intros r row ?%elem_of_nil.
  - by rewrite Hdb.
Qed.

Section Ownership.
Context {Mod : Type} `{XModule Mod}.
Variable env : Env.

(** get_module keeps the rows, and a call that returns keeps the cache
    owned; it only adds to the cache. *)
Lemma get_module_keeps (us : User → Prop) (user : User) (location : string)
    (position : option string) (w : World) r w1 :
  (is_authenticated user = true → us user) →
  cache_owned us w →
  get_module env user location position w = (r, w1) →
  (∀ res, r = Ok res → cache_owned us w1) ∧ rows_kept us w w1.
Proof.
  intros Hus Hown (w2 & Hw1 & Hok & Hw2)%get_module_worlds.
  assert (Hboth : cache_owned us w2 ∧ rows_kept us w w2).
  { destruct Hw2 as [->|[Hauth [(o & -> & Ho & _ & _ & Hfree)
                   |(o1 & o2 & -> & Ho1 & _ & _ & Ho2 & _ & _ & Hfree1 & Hfree2)]]].
    - split; [done|apply rows_kept_refl].
    - specialize (Hus Hauth). rewrite <- Ho in Hus.
      split; [by apply cache_owned_created|by apply rows_kept_created].
    - specialize (Hus Hauth).
      assert (Hus1 : us (student o1)) by (by rewrite Ho1).
      assert (Hus2 : us (student o2)) by (by rewrite Ho2).
      split; [by repeat apply cache_owned_created|].
      eapply rows_kept_trans; by apply rows_kept_created. }
  destruct Hboth as [Hown2 Hkept2]. split.
  - intros res Hres. by rewrite (Hok res Hres).
  - destruct Hw1 as [->|(o & -> & _)]; [done|].
    eapply rows_kept_trans; [done|]. by apply rows_kept_same.
Qed.

(** The records get_module returns are in the cache. *)
Lemma get_module_cached (user : User) (location : string)
    (position : option string) (w : World) module im sm mt w1 :
  get_module env user location position w = (Ok (module, im, sm, mt), w1) →
  (∀ r, im = Some r → r ∈ cache w1) ∧ (∀ r, sm = Some r → r ∈ cache w1).
Proof.
  intros Hgm%get_module_Ok_run. revert Hgm.
  destruct (modulestore env !! location) as [d|]; [|done].
  cbv zeta.
  destruct (metadata _ !! "data_dir") as [prefix|]; [|done].
  assert (Hfound : ∀ type key r,
            lookup_refs (heap w) (cache w) type key = Some r → r ∈ cache w).
  { by intros type key r (o & _ & _ & _ & ?)%lookup_refs_Some. }
  destruct (is_authenticated user).
  - destruct (lookup_refs _ _ _ (location_url d)) as [ri|] eqn:Hi;
      (destruct (shared_state_key d) as [key|];
       [destruct (lookup_refs _ _ _ key) as [rs|] eqn:Hs|]);
      intros [= <- <- <- <- <-]; split; intros r [= <-]; simpl;
      rewrite ?elem_of_app, ?list_elem_of_singleton; eauto 6.
  - intros [= <- <- <- <- <-]. split; intros r Hr.
    + eauto.
    + destruct (shared_state_key d); [eauto|done].
Qed.

End Ownership.


Lemma keeps_unchanged {A} (us : User → Prop) (c : list nat) (m : M A) :
  (∀ w r w', m w = (r, w') → w' = w) → keeps us c m.
Proof.
  intros Hm w r w' Hc Hown Hrun. rewrite (Hm _ _ _ Hrun).
  split; [done|]. split; [done|]. split; [apply rows_kept_refl|done].
Qed.

Lemma keeps_ret {A} (us : User → Prop) (c : list nat) (a : A) :
  keeps us c (mret a).
Proof. apply keeps_unchanged. by intros w r w' [= _ <-]. Qed.

Lemma keeps_raise {A} (us : User → Prop) (c : list nat) (e : Exn) :
  keeps us c (raise e : M A).
Proof. apply keeps_unchanged. by intros w r w' [= _ <-]. Qed.

Lemma keeps_lift_exn {A} (us : User → Prop) (c : list nat) (x : Exn + A) :
  keeps us c (lift_exn x).
Proof. destruct x; [apply keeps_raise|apply keeps_ret]. Qed.

Lemma keeps_deref (us : User → Prop) (c : list nat) (r : nat) :
  keeps us c (deref r).
Proof.
  apply keeps_unchanged. intros w res w'. unfold deref.
  by destruct (heap w !! r); intros [= _ <-].
Qed.

Lemma keeps_bind {A B} (us : User → Prop) (c : list nat) (m : M A) (f : A → M B) :
  keeps us c m → (∀ a, keeps us c (f a)) → keeps us c (m ≫= f).
Proof.
  intros Hm Hf w r w' Hc Hown
    [(a & w1 & Hrun1 & Hrun2)|(e & Hrun1 & ->)]%bind_inv.
  - destruct (Hm _ _ _ Hc Hown Hrun1) as (Hc1 & Hown1 & Hkept1 & Hlen1).
    destruct (Hf a _ _ _ Hc1 Hown1 Hrun2) as (Hc2 & Hown2 & Hkept2 & Hlen2).
    split; [done|]. split; [done|].
    split; [by eapply rows_kept_trans|congruence].
  - by eapply Hm.
Qed.

Lemma keeps_state_of (us : User → Prop) (c : list nat) (x : option nat) :
  keeps us c (state_of x).
Proof.
  destruct x as [r|]; simpl; [|apply keeps_ret].
  apply keeps_bind; [apply keeps_deref|]. intros o. apply keeps_ret.
Qed.

Lemma keeps_emit (us : User → Prop) (c : list nat) (ev : Event) :
  is_save ev = false → keeps us c (emit ev).
Proof.
  intros Hev w r w' Hc Hown [= <- <-]. simpl.
  split; [done|]. split; [done|]. split; [|done].
  split; [|split; [|split]]; simpl.
  - intros k row Hk. exists row. split; [done|]. split; [apply same_record_refl|done].
  - intros k row Hn Hs. congruence.
  - eexists. split; [done|]. intros r row Hin%list_elem_of_singleton.
    by rewrite <- Hin in Hev.
  - done.
Qed.

Lemma keeps_log_and_reraise {A} (us : User → Prop) (c : list nat) (body : M A) :
  keeps us c body → keeps us c (log_and_reraise body).
Proof.
  intros Hbody w r w' Hc Hown. unfold log_and_reraise.
  destruct (body w) as [[a|e] w1] eqn:Hrun.
  - intros [= <- <-]. by eapply Hbody.
  - intros Hrest.
    destruct (Hbody _ _ _ Hc Hown Hrun) as (Hc1 & Hown1 & Hkept1 & Hlen1).
    assert (Hk : keeps us c (emit (EvLogException e) ;; raise e : M A)).
    { apply keeps_bind; [by apply keeps_emit|]. intros _. apply keeps_raise. }
    destruct (Hk _ _ _ Hc1 Hown1 Hrest) as (Hc2 & Hown2 & Hkept2 & Hlen2).
    split; [done|]. split; [done|].
    split; [by eapply rows_kept_trans|congruence].
Qed.

(** Assigning the state or the grade of a cached object. *)
Lemma keeps_modify (us : User → Prop) (c : list nat) (r : nat)
    (f : StudentModule → StudentModule) :
  (∀ o, pk (f o) = pk o ∧ same_record o (f o)) → keeps us c (modify r f).
Proof.
  intros Hf w res w' Hc Hown. unfold modify.
  destruct (heap w !! r) as [o|] eqn:Ho; intros [= <- <-]; simpl.
  2: { split; [done|]. split; [done|]. split; [apply rows_kept_refl|done]. }
  split; [done|]. split; [|split; [by apply rows_kept_same|done]].
  intros r' o' Hr' Ho'. simpl in *.
  destruct (decide (r' = r)) as [->|Hne].
  - rewrite list_lookup_insert_eq in Ho' by (by eapply lookup_lt_Some).
    injection Ho' as <-.
    destruct (Hown r o Hr' Ho) as (Hus & k & row & Hpk & Hk & Hsame).
    destruct (Hf o) as [Hpk' Hsame'].
    split; [by destruct Hsame' as [<- _]|].
    exists k, row. split; [congruence|]. split; [done|].
    by eapply same_record_trans.
  - rewrite list_lookup_insert_ne in Ho' by done. exact (Hown r' o' Hr' Ho').
Qed.

(** Saving a cached object writes its own row. *)
Lemma keeps_save (us : User → Prop) (c : list nat) (r : nat) :
  r ∈ c → keeps us c (save r).
Proof.
  intros Hr w res w' Hc Hown. subst c. unfold save.
  destruct (heap w !! r) as [o|] eqn:Ho.
  2: { intros [= <- <-]. split; [done|]. split; [done|].
       split; [apply rows_kept_refl|done]. }
  destruct (Hown r o Hr Ho) as (Hus & k & row & Hpk & Hk & Hsame).
  rewrite Hpk. intros [= <- <-]. simpl.
  assert (Hlt : k < length (db w)) by (by eapply lookup_lt_Some).
  split; [done|]. split; [|split; [|by rewrite length_insert]].
  2: split; [|split; [|split]]; simpl.
  - intros r' o' Hr' Ho'. simpl in *.
    destruct (Hown r' o' Hr' Ho') as (Hus' & k' & row' & Hpk' & Hk' & Hsame').
    split; [done|]. exists k'.
    destruct (decide (k' = k)) as [->|Hne].
    + exists o. rewrite list_lookup_insert_eq by done.
      split; [done|]. split; [done|].
      rewrite Hk in Hk'. injection Hk' as <-.
      eapply same_record_trans; [|done]. by apply same_record_sym.
    + exists row'. by rewrite list_lookup_insert_ne.
  - intros k' row' Hk'.
    destruct (decide (k' = k)) as [->|Hne].
    + exists o. rewrite list_lookup_insert_eq by done.
      rewrite Hk in Hk'. injection Hk' as <-.
      split; [done|]. split; [done|].
      intros Hnot. destruct Hnot. by destruct Hsame as [-> _].
    + exists row'. rewrite list_lookup_insert_ne by done.
      split; [done|]. split; [apply same_record_refl|done].
  - intros k' row' Hn Hs.
    apply lookup_ge_None in Hn. apply lookup_lt_Some in Hs.
    rewrite length_insert in Hs. lia.
  - eexists. split; [done|]. intros r' row' [= _ <-]%list_elem_of_singleton. done.
  - by apply (at_most_one_record_insert _ _ row).
Qed.

Lemma with_state_same (s : option string) (o : StudentModule) :
  pk (with_state s o) = pk o ∧ same_record o (with_state s o).
Proof. by repeat split. Qed.

Lemma with_grade_same (g : option Z) (o : StudentModule) :
  pk (with_grade g o) = pk o ∧ same_record o (with_grade g o).
Proof. by repeat split. Qed.

Section OwnershipOfRequests.
Context {Mod : Type} `{XModule Mod}.
Variable env : Env.

Lemma keeps_save_instance_module (us : User → Prop) (c : list nat)
    (instance : XInstance Mod) (im : nat) oldgrade old_instance_state :
  im ∈ c →
  keeps us c (save_instance_module instance im oldgrade old_instance_state).
Proof.
  intros Him. unfold save_instance_module.
  apply keeps_bind; [apply keeps_modify, with_state_same|]. intros _.
  apply keeps_bind.
  { destruct (get_score (xmod instance));
      [apply keeps_modify, with_grade_same|apply keeps_ret]. }
  intros _. apply keeps_bind; [apply keeps_deref|]. intros o.
  destruct (_ || _); [by apply keeps_save|apply keeps_ret].
Qed.

Lemma keeps_call_handle_ajax (us : User → Prop) (c : list nat)
    (instance : XInstance Mod) (cmd : string) (data : QueryDict) :
  keeps us c (call_handle_ajax instance cmd data).
Proof.
  unfold call_handle_ajax. apply keeps_log_and_reraise.
  apply keeps_bind; [by apply keeps_emit|]. intros _.
  apply keeps_bind; [apply keeps_lift_exn|]. intros [ret m']. apply keeps_ret.
Qed.

(** Whatever its outcome, a request keeps every row at its key as the same
    record, changes only rows of its writers, adds only rows of its writers
    and saves only records of its writers; the rows it adds are added by its
    call of get_module: afterwards the table keeps its size. *)
Lemma serve_kept (e : Endpoint) (request : Request) (id dispatch : string)
    (w : World) r w' :
  serve env e request id dispatch w = (r, w') →
  rows_kept (writers env e request) w w' ∧
  (db w' = db w ∨
   ∃ w0 r1 w1,
     reaches_get_module env e request id w w0 ∧ db w0 = db w ∧
     get_module env (req_user request) id None w0 = (r1, w1) ∧
     length (db w') = length (db w1)).
Proof.
  intros Hserve.
  destruct (serve_prologue env e request id dispatch w)
    as [[w0 Hreach]|(exn & Hraise & _)].
  2: { rewrite Hraise in Hserve. injection Hserve as _ <-.
       split; [apply rows_kept_refl|by left]. }
  assert (Hw0 : cache_owned (writers env e request) w0 ∧
                db w0 = db w ∧ trace w0 = trace w).
  { destruct e as [|userid]; simpl in Hreach.
    - destruct Hreach as (d & _ & Hnew).
      apply StudentModuleCache_new_owned in Hnew as (Hown & Hdb & Htr & Hempty).
      split; [|done].
      destruct (is_authenticated (req_user request)) eqn:Hauth.
      + eapply cache_owned_mono; [|done]. intros s ->. by left.
      + intros ref o Href. rewrite (Hempty eq_refl) in Href.
        by apply elem_of_nil in Href.
    - destruct Hreach as (header & get & staff & d & _ & Hstaff & _ & Hnew).
      apply StudentModuleCache_new_owned in Hnew as (Hown & Hdb & Htr & _).
      split; [|done].
      eapply cache_owned_mono; [|done]. intros s ->. right. by exists staff. }
  destruct Hw0 as (Hown0 & Hdb0 & Htr0).
  pose proof (rows_kept_same (writers env e request) w w0 Hdb0 Htr0) as Hkept0.
  pose proof Hserve as Hserve0.
  rewrite (serve_get_module _ _ _ _ _ _ _ Hreach) in Hserve.
  destruct (get_module env (req_user request) id None w0)
    as [[[[[instance im] sm] mt]|exn] w1] eqn:Hgm.
  2: { injection Hserve as _ <-. split.
       - eapply rows_kept_trans; [done|].
         eapply (get_module_keeps env (writers env e request));
           [|done..]. intros Hauth. by left.
       - right. by exists w0, (Raise exn), w1. }
  destruct (get_module_keeps env (writers env e request) _ _ _ _ _ _
              (λ Hauth, or_introl (conj Hauth eq_refl)) Hown0 Hgm)
    as [Hown1 Hkept1].
  specialize (Hown1 _ eq_refl).
  destruct (get_module_cached env _ _ _ _ _ _ _ _ _ Hgm) as [Him Hsm].
  assert (Htail : rows_kept (writers env e request) w1 w' ∧
                  length (db w') = length (db w1)).
  { destruct im as [im|].
    2: { injection Hserve as _ <-.
         eapply (keeps_emit _ (cache w1) (EvLogDebug id (req_user request))
                   eq_refl w1); [done..|]. reflexivity. }
    destruct (heap w1 !! im) as [old|];
      [|injection Hserve as _ <-; split; [apply rows_kept_refl|done]].
    destruct (forwarded env e request dispatch) as [exn|[cmd data]];
      [injection Hserve as _ <-; split; [apply rows_kept_refl|done]|].
    specialize (Him im eq_refl).
    destruct e as [|userid].
    - match type of Hserve with
      | ?m w1 = _ =>
          assert (Hk : keeps (writers env ModxDispatch request) (cache w1) m)
      end; [|exact (proj2 (proj2 (Hk w1 r w' eq_refl Hown1 Hserve)))].
      apply keeps_bind; [apply keeps_state_of|]. intros old_shared_state.
      apply keeps_bind; [apply keeps_call_handle_ajax|]. intros [ret instance'].
      apply keeps_bind; [by apply keeps_save_instance_module|]. intros _.
      apply keeps_bind; [|intros _; apply keeps_ret].
      destruct sm as [s|]; [|apply keeps_ret].
      apply keeps_bind; [apply keeps_modify, with_state_same|]. intros _.
      apply keeps_bind; [apply keeps_deref|]. intros o.
      destruct (bool_decide _); [|apply keeps_ret].
      apply keeps_save. by apply Hsm.
    - match type of Hserve with
      | ?m w1 = _ =>
          assert (Hk : keeps (writers env (XqueueCallback userid) request)
                             (cache w1) m)
      end; [|exact (proj2 (proj2 (Hk w1 r w' eq_refl Hown1 Hserve)))].
      apply keeps_bind; [apply keeps_call_handle_ajax|]. intros [ret instance'].
      apply keeps_bind; [by apply keeps_save_instance_module|]. intros _.
      apply keeps_ret. }
  destruct Htail as [Hkept2 Hlen]. split.
  - eapply rows_kept_trans; [done|]. by eapply rows_kept_trans.
  - right. by exists w0, (Ok (instance, im, sm, mt)), w1.
Qed.

Lemma serve_rows_kept (e : Endpoint) (request : Request) (id dispatch : string)
    (w : World) r w' :
  serve env e request id dispatch w = (r, w') →
  rows_kept (writers env e request) w w'.
Proof. by intros [? _]%serve_kept. Qed.

End OwnershipOfRequests.

(** ** One record per student and state key *)

Section RecordsInvariant.
Context {Mod : Type} `{XModule Mod}.
Variable env : Env.




End RecordsInvariant.


Section RequestsAndRecords.
Context {Mod : Type} `{XModule Mod}.
Variable env : Env.

(** X7: no request deletes a record or changes whose record it is: after a
    run of either endpoint, whatever its outcome, every row of the table is
    still at its key, with the student, the module type, the state key and
    the maximal grade it had. *)
Theorem requests_keep_every_record (e : Endpoint) (request : Request)
    (id dispatch : string) (w : World) r w' (k : nat) (row : StudentModule) :
  serve env e request id dispatch w = (r, w') →
  db w !! k = Some row →
  ∃ row', db w' !! k = Some row' ∧
          student row' = student row ∧
          module_type row' = module_type row ∧
          module_state_key row' = module_state_key row ∧
          max_grade row' = max_grade row.
Proof.
  intros [Hold _]%serve_rows_kept Hk.
  destruct (Hold k row Hk) as (row' & Hk' & (? & ? & ? & ?) & _).
  by exists row'.
Qed.

(** X8: a request leaves the records of other students as they are: a row
    whose student is neither the user of the session nor, for the callback,
    the user named in the URL is the same after the run, whatever the
    module's handle_ajax does. *)
Theorem requests_leave_other_students_records (e : Endpoint) (request : Request)
    (id dispatch : string) (w : World) r w' (k : nat) (row : StudentModule) :
  serve env e request id dispatch w = (r, w') →
  db w !! k = Some row →
  student row ≠ req_user request →
  (∀ userid, e = XqueueCallback userid → user_id (student row) ≠ Some userid) →
  db w' !! k = Some row.
Proof.
  intros [Hold _]%serve_rows_kept Hk Hsession Htarget.
  destruct (Hold k row Hk) as (row' & Hk' & _ & Hother).
  rewrite Hk', Hother; [done|].
  intros [[_ ?]|Hw]; [done|].
  destruct e as [|userid]; [done|].
  destruct Hw as (staff & _ & Hst).
  apply (Htarget userid eq_refl). by rewrite Hst.
Qed.

(** X9: modx_dispatch creates and saves records of the user of the session
    only: every save event of the run, and every row the run adds to the
    table, has request.user as its student. *)
Theorem modx_dispatch_writes_session_user (request : Request)
    (dispatch id : string) (w : World) r w' :
  modx_dispatch env request dispatch id w = (r, w') →
  (∃ evs, trace w' = trace w ++ evs ∧
          ∀ ref row, EvSave ref row ∈ evs → student row = req_user request) ∧
  (∀ k row, db w !! k = None → db w' !! k = Some row →
            student row = req_user request).
Proof.
  intros Hrun.
  destruct (serve_rows_kept env ModxDispatch request id dispatch w r w' Hrun)
    as (_ & Hnew & (evs & Htr & Hevs) & _).
  split.
  - exists evs. split; [done|]. intros ref row Hin.
    by destruct (Hevs ref row Hin) as [[_ ?]|[]].
  - intros k row Hn Hk. by destruct (Hnew k row Hn Hk) as [[_ ?]|[]].
Qed.

(** X10: a callback posted without a session, or in the session of the
    user named in the URL, writes records of that user only: every save
    event of the run and every row it adds has the user of userid as its
    student. *)
Theorem xqueue_callback_writes_target_user (request : Request) (userid : Z)
    (id dispatch : string) (w : World) r w' :
  is_authenticated (req_user request) = false ∨
    user_id (req_user request) = Some userid →
  xqueue_callback env request userid id dispatch w = (r, w') →
  (∃ evs, trace w' = trace w ++ evs ∧
          ∀ ref row, EvSave ref row ∈ evs → user_id (student row) = Some userid) ∧
  (∀ k row, db w !! k = None → db w' !! k = Some row →
            user_id (student row) = Some userid).
Proof.
  intros Hsession Hrun.
  destruct (serve_rows_kept env (XqueueCallback userid) request id dispatch
              w r w' Hrun) as (_ & Hnew & (evs & Htr & Hevs) & _).
  assert (Hw : ∀ s, writers env (XqueueCallback userid) request s →
                    user_id s = Some userid).
  { intros s [[Hauth ->]|(staff & _ & ->)]; [|done].
    destruct Hsession as [Hanon|Hsame]; [congruence|done]. }
  split.
  - exists evs. split; [done|]. intros ref row Hin. by eapply Hw, Hevs.
  - intros k row Hn Hk. by eapply Hw, Hnew.
Qed.

End RequestsAndRecords.

Lemma requests_keep_every_record_witness :
  let run := serve Demo.demo_env (XqueueCallback 1) Demo.callback_request
               Demo.problem_url "score_update" Demo.bob_world in
  ∃ row', db run.2 !! 0 = Some row' ∧
          student row' = student Demo.bob_row ∧
          module_type row' = module_type Demo.bob_row ∧
          module_state_key row' = module_state_key Demo.bob_row ∧
          max_grade row' = max_grade Demo.bob_row.
Proof.
  intros run.
  exact (requests_keep_every_record (Mod := Demo.DemoModule) Demo.demo_env
           (XqueueCallback 1) Demo.callback_request Demo.problem_url
           "score_update" Demo.bob_world run.1 run.2 0 Demo.bob_row
           (surjective_pairing run) eq_refl).
Defined.

Lemma requests_leave_other_students_records_witness :
  let run := serve Demo.demo_env ModxDispatch (Demo.ajax_request Demo.alice)
               Demo.problem_url "score_update" Demo.bob_world in
  run.1 = Ok {| content := "updated" |} ∧ db run.2 !! 0 = Some Demo.bob_row.
Proof.
  intros run. split; [by vm_compute|].
  apply (requests_leave_other_students_records (Mod := Demo.DemoModule)
           Demo.demo_env ModxDispatch (Demo.ajax_request Demo.alice)
           Demo.problem_url "score_update" Demo.bob_world run.1 run.2 0
           Demo.bob_row (surjective_pairing run) eq_refl).
  - discriminate.
  - discriminate.
Defined.

Lemma modx_dispatch_writes_session_user_witness :
  let request := Demo.ajax_request Demo.alice in
  let run := modx_dispatch Demo.demo_env request "score_update"
               Demo.video_url Demo.bob_world in
  length (db run.2) = 3 ∧
  (∃ evs, trace run.2 = trace Demo.bob_world ++ evs ∧
          ∀ ref row, EvSave ref row ∈ evs → student row = req_user request) ∧
  (∀ k row, db Demo.bob_world !! k = None → db run.2 !! k = Some row →
            student row = req_user request).
Proof.
  intros request run. split; [by vm_compute|].
  exact (modx_dispatch_writes_session_user (Mod := Demo.DemoModule)
           Demo.demo_env request "score_update" Demo.video_url Demo.bob_world
           run.1 run.2 (surjective_pairing run)).
Defined.

Lemma xqueue_callback_writes_target_user_witness :
  let run := xqueue_callback Demo.demo_env Demo.anonymous_callback 2
               Demo.problem_url "score_update" Demo.bob_world in
  run.1 = Ok {| content := "" |} ∧
  (∃ evs, trace run.2 = trace Demo.bob_world ++ evs ∧
          ∀ ref row, EvSave ref row ∈ evs → user_id (student row) = Some 2%Z) ∧
  (∀ k row, db Demo.bob_world !! k = None → db run.2 !! k = Some row →
            user_id (student row) = Some 2%Z).
Proof.
  intros run. split; [by vm_compute|].
  apply (xqueue_callback_writes_target_user (Mod := Demo.DemoModule)
           Demo.demo_env Demo.anonymous_callback 2 Demo.problem_url
           "score_update" Demo.bob_world run.1 run.2).
  - by left.
  - exact (surjective_pairing run).
Defined.

(** ** Error and edge behaviour of the endpoints *)

Section EndpointEdges.
Context {Mod : Type} `{XModule Mod}.
Variable env : Env.

(** X11: modx_dispatch never serves a user who is not authenticated: the
    run raises, handle_ajax is not called and the table is unchanged; when
    the module exists and has a data_dir the exception is Http404, after the
    debug log entry. *)
Theorem modx_dispatch_anonymous (request : Request) (dispatch id : string)
    (w : World) :
  is_authenticated (req_user request) = false →
  ∃ exn w',
    modx_dispatch env request dispatch id w = (Raise exn, w') ∧
    db w' = db w ∧
    (exn = Http404 ∧
       trace w' = trace w ++ [EvLogDebug id (req_user request)] ∨
     exn = ItemNotFoundError id ∧ modulestore env !! id = None ∧
       trace w' = trace w ∨
     exn = KeyError "data_dir" ∧ trace w' = trace w).
Proof.
  intros Hauth.
  destruct (modulestore env !! id) as [d|] eqn:Hd.
  - set (w0 := mkWorld (db w) (heap w ++ []) [] (trace w)).
    assert (Hreach : reaches_get_module env ModxDispatch request id w w0).
    { exists d. split; [done|]. unfold StudentModuleCache_new.
      by rewrite Hauth. }
    change (modx_dispatch env request dispatch id)
      with (serve env ModxDispatch request id dispatch).
    rewrite (serve_get_module _ _ _ _ _ _ _ Hreach).
    rewrite get_module_run, Hd. cbv zeta. rewrite Hauth.
    destruct (metadata _ !! "data_dir") as [prefix|].
    + change (lookup_refs (heap w0) (cache w0) (category d) (location_url d))
        with (@None nat).
      eexists _, _. split; [done|]. split; [done|]. by left.
    + eexists _, _. split; [done|]. split; [done|]. by right; right.
  - unfold modx_dispatch, modulestore_get_item.
    destruct (Py.partition "?" dispatch) as [[cmd sep] rest].
    rewrite Hd. eexists _, _. split; [done|]. split; [done|].
    right; left. done.
Qed.


(** Every call of handle_ajax made by a run carries the command and the
    data of [forwarded]. *)
Lemma serve_handle_ajax_events (e : Endpoint) (request : Request)
    (id dispatch : string) (w : World) r w' :
  serve env e request id dispatch w = (r, w') →
  ∃ evs, trace w' = trace w ++ evs ∧
         ∀ c data, EvHandleAjax c data ∈ evs →
                   forwarded env e request dispatch = inr (c, data).
Proof.
  intros Hserve.
  destruct (serve_prologue env e request id dispatch w)
    as [[w0 Hreach]|(exn & Hraise & _)].
  2: { rewrite Hraise in Hserve. injection Hserve as _ <-.
       exists []. split; [by rewrite app_nil_r|]. by intros c data ?%elem_of_nil. }
  destruct (reaches_get_module_db _ _ _ _ _ _ Hreach) as (_ & Htr0 & _).
  destruct (get_module env (req_user request) id None w0)
    as [[[[[instance [im|]] sm] mt]|exn] w1] eqn:Hgm;
    pose proof (get_module_extends _ _ _ _ _ _ _ Hgm)
      as (_ & _ & _ & (saves & Htr1 & Hsaves)).
  - destruct (serve_run env _ _ _ dispatch _ _ _ _ _ _ _ Hreach Hgm)
      as (old & Hold & Hrun).
    assert (His : ∀ ref changed P evs c data,
              saved_iff evs ref changed P → EvHandleAjax c data ∉ evs).
    { intros ref changed P evs c data [(_ & row & -> & _)|[_ ->]] Hin.
      - by apply list_elem_of_singleton in Hin.
      - by apply elem_of_nil in Hin. }
    destruct (forwarded env e request dispatch) as [exn|[cmd data]].
    + rewrite Hrun in Hserve. injection Hserve as _ <-.
      exists saves. split; [by rewrite Htr1, Htr0|].
      intros c data' Hin. eapply Forall_forall in Hsaves; [|done]. done.
    + destruct (handle_ajax (xmod instance) cmd data) as [exn|[ret m']].
      * rewrite Hrun in Hserve. injection Hserve as _ <-. simpl.
        exists (saves ++ [EvHandleAjax cmd data; EvLogException exn]).
        split; [by rewrite Htr1, Htr0, <- app_assoc|].
        intros c data' [Hin|Hin]%elem_of_app.
        -- eapply Forall_forall in Hsaves; [|done]. done.
        -- apply elem_of_cons in Hin as [[= -> ->]|Hin]; [done|].
           by apply list_elem_of_singleton in Hin.
      * destruct Hrun as (w'' & isaves & ssaves & Hrun & Htr & Hi & Hs).
        rewrite Hrun in Hserve. injection Hserve as _ <-.
        exists (saves ++ [EvHandleAjax cmd data] ++ isaves ++ ssaves).
        split; [by rewrite Htr, Htr1, Htr0, <- !app_assoc|].
        intros c data' [Hin|Hin]%elem_of_app.
        -- eapply Forall_forall in Hsaves; [|done]. done.
        -- apply elem_of_cons in Hin as [[= -> ->]|Hin]; [done|].
           apply elem_of_app in Hin as [Hin|Hin].
           ++ by eapply His in Hin.
           ++ destruct e as [|userid], sm as [s|]; simpl in Hs;
                first [by eapply His in Hin
                      |subst ssaves; by apply elem_of_nil in Hin].
  - rewrite (serve_get_module _ _ _ _ _ _ _ Hreach), Hgm in Hserve.
    injection Hserve as _ <-. simpl.
    exists (saves ++ [EvLogDebug id (req_user request)]).
    split; [by rewrite Htr1, Htr0, <- app_assoc|].
    intros c data [Hin|Hin]%elem_of_app.
    + eapply Forall_forall in Hsaves; [|done]. done.
    + by apply list_elem_of_singleton in Hin.
  - rewrite (serve_get_module _ _ _ _ _ _ _ Hreach), Hgm in Hserve.
    injection Hserve as _ <-.
    exists saves. split; [by rewrite Htr1, Htr0|].
    intros c data Hin. eapply Forall_forall in Hsaves; [|done]. done.
Qed.

(** X13: what the module receives from xqueue_callback: the dispatch
    string as it is, not cut at a question mark, and the posted data without
    the xqueue_header, with the queuekey of the decoded header added after
    the posted values of that key, and every other key as posted. *)
Theorem xqueue_callback_forwards (request : Request) (userid : Z)
    (id dispatch : string) (w : World) r w' :
  xqueue_callback env request userid id dispatch w = (r, w') →
  ∃ evs, trace w' = trace w ++ evs ∧
    ∀ c data, EvHandleAjax c data ∈ evs →
      c = dispatch ∧
      data !! "xqueue_header" = None ∧
      (∃ header get queuekey,
         pop_xqueue_header env (POST request) = inr (header, get) ∧
         header_getitem header "queuekey" = inr queuekey ∧
         data !! "queuekey" =
           Some (default [] (POST request !! "queuekey") ++ [queuekey])) ∧
      (∀ key, key ≠ "queuekey" → key ≠ "xqueue_header" →
              data !! key = POST request !! key).
Proof.
  intros Hrun.
  destruct (serve_handle_ajax_events (XqueueCallback userid) request id dispatch
              w r w' Hrun) as (evs & Htr & Hevs).
  exists evs. split; [done|]. intros c data Hin.
  specialize (Hevs c data Hin). simpl in Hevs.
  destruct (pop_xqueue_header env (POST request)) as [err|[header get]] eqn:Hpop;
    [done|].
  destruct (header_getitem header "queuekey") as [err|queuekey] eqn:Hkey; [done|].
  injection Hevs as <- <-.
  assert (Hget : get = delete "xqueue_header" (POST request)).
  { unfold pop_xqueue_header in Hpop.
    destruct (POST request !! "xqueue_header") as [[|v vs]|]; [done| |done].
    destruct (json_loads env v); by simplify_eq. }
  subst get. unfold querydict_update.
  split; [done|]. split; [|split].
  - rewrite lookup_insert_ne by done. apply lookup_delete_eq.
  - exists header, (delete "xqueue_header" (POST request)), queuekey.
    split; [done|]. split; [done|].
    rewrite lookup_insert_eq. by rewrite lookup_delete_ne.
  - intros key Hq Hh. rewrite lookup_insert_ne by done.
    by rewrite lookup_delete_ne.
Qed.

(** ** The table of contents *)

(** X14: in the table toc_for_course returns, an active section is always
    inside an active chapter, and the sections of a chapter are those of its
    display items, in order. *)
Theorem toc_active_section_in_active_chapter (user : User) (course : Descriptor)
    (active_chapter active_section : option string) (w : World) toc w' :
  toc_for_course env user course active_chapter active_section w = (Ok toc, w') →
  ∀ entry s, entry ∈ toc → s ∈ chap_sections entry →
             sec_active s = true → chap_active entry = true.
Proof.
  unfold toc_for_course.
  intros (? & w0 & _ & Hrun)%bind_Ok_inv.
  apply bind_Ok_inv in Hrun as ([[[course_module im] sm] mt] & w1 & Hgm & Hret).
  apply ret_inv in Hret as [[= ->] ->].
  intros entry s. rewrite toc_chapters_map.
  intros (chapter & -> & _)%list_elem_of_fmap. simpl.
  rewrite toc_sections_map.
  intros (section & -> & _)%list_elem_of_fmap. simpl.
  by intros [? _]%andb_true_iff.
Qed.

End EndpointEdges.

(** The histogram is not empty exactly when some record of the module has a
    grade. *)
Lemma grade_histogram_nonempty (rows : list StudentModule) (module_id : string) :
  grade_histogram rows module_id ≠ [] ↔
  ∃ row, row ∈ rows ∧ module_state_key row = module_id ∧ grade row ≠ None.
Proof.
  destruct (sorted_groups_spec rows module_id) as [Hsorted Hin].
  destruct (grade_histogram_cases rows module_id)
    as [[Hnil [n Hgrades]]|[Heq Hgrades]].
  - rewrite Hnil. split; [done|]. intros (row & Hrow & Hk & Hg).
    assert (Hpos : 0 < records_with_grade rows module_id (grade row)).
    { apply records_with_grade_positive. by exists row. }
    assert (Hentry : (grade row, records_with_grade rows module_id (grade row))
                     ∈ [(None : option Z, n)]).
    { rewrite <- Hgrades. by apply Hin. }
    by apply list_elem_of_singleton in Hentry as [= ? _].
  - rewrite Heq. split.
    + intros Hne.
      destruct (merge_sort entry_le _) as [|[g n] rest] eqn:Hm; [done|].
      destruct g as [x|].
      * destruct (proj1 (Hin (Some x) n) ltac:(left)) as [-> Hpos].
        apply records_with_grade_positive in Hpos as (row & Hrow & Hk & Hg).
        exists row. by rewrite Hg.
      * destruct rest as [|[g' n'] rest]; [by destruct (Hgrades n)|].
        apply StronglySorted_inv in Hsorted as [_ Hall].
        apply Forall_cons in Hall as [[_ Hne'] _]. simpl in Hne'.
        destruct g' as [x|]; [|done].
        destruct (proj1 (Hin (Some x) n') ltac:(right; left)) as [-> Hpos].
        apply records_with_grade_positive in Hpos as (row & Hrow & Hk & Hg).
        exists row. by rewrite Hg.
    + intros (row & Hrow & Hk & Hg) Hnil.
      assert (Hpos : 0 < records_with_grade rows module_id (grade row)).
      { apply records_with_grade_positive. by exists row. }
      assert (Hentry : (grade row, records_with_grade rows module_id (grade row))
                       ∈ ([] : list (option Z * nat))).
      { rewrite <- Hnil. by apply Hin. }
      by apply elem_of_nil in Hentry.
Qed.

Lemma modx_dispatch_anonymous_witness :
  let request := Demo.ajax_request AnonymousUser in
  ∃ exn w',
    modx_dispatch Demo.demo_env request "problem_check" Demo.problem_url
      Demo.bob_world = (Raise exn, w') ∧
    db w' = db Demo.bob_world ∧
    (exn = Http404 ∧
       trace w' = trace Demo.bob_world ++
                  [EvLogDebug Demo.problem_url (req_user request)] ∨
     exn = ItemNotFoundError Demo.problem_url ∧
       modulestore Demo.demo_env !! Demo.problem_url = None ∧
       trace w' = trace Demo.bob_world ∨
     exn = KeyError "data_dir" ∧ trace w' = trace Demo.bob_world).
Proof.
  intros request.
  exact (modx_dispatch_anonymous (Mod := Demo.DemoModule) Demo.demo_env request
           "problem_check" Demo.problem_url Demo.bob_world eq_refl).
Defined.

Lemma xqueue_callback_forwards_witness :
  let request := {| req_user := AnonymousUser;
                    POST := {[ "xqueue_header" := [Demo.xqueue_header "key-1"];
                               "queuekey" := ["posted"];
                               "response" := ["correct"] ]} |} in
  let run := xqueue_callback Demo.demo_env request 2 Demo.problem_url
               "score_update?x" Demo.bob_world in
  length (trace run.2) = 1 ∧
  ∃ evs, trace run.2 = trace Demo.bob_world ++ evs ∧
    ∀ c data, EvHandleAjax c data ∈ evs →
      c = "score_update?x" ∧
      data !! "xqueue_header" = None ∧
      (∃ header get queuekey,
         pop_xqueue_header Demo.demo_env (POST request) = inr (header, get) ∧
         header_getitem header "queuekey" = inr queuekey ∧
         data !! "queuekey" =
           Some (default [] (POST request !! "queuekey") ++ [queuekey])) ∧
      (∀ key, key ≠ "queuekey" → key ≠ "xqueue_header" →
              data !! key = POST request !! key).
Proof.
  intros request run. split; [by vm_compute|].
  exact (xqueue_callback_forwards (Mod := Demo.DemoModule) Demo.demo_env request
           2 Demo.problem_url "score_update?x" Demo.bob_world run.1 run.2
           (surjective_pairing run)).
Defined.

Lemma toc_active_section_in_active_chapter_witness :
  let run := toc_for_course Demo.demo_env Demo.alice Demo.course
               (Some "Week 1") (Some "Intro") Demo.empty_world in
  let toc := toc_chapters Demo.course_tree (Some "Week 1") (Some "Intro") in
  run.1 = Ok toc ∧
  ∀ entry s, entry ∈ toc → s ∈ chap_sections entry →
             sec_active s = true → chap_active entry = true.
Proof.
  intros run toc.
  assert (Hrun : run = (Ok toc, run.2)) by (by vm_compute).
  split; [by rewrite Hrun|].
  exact (toc_active_section_in_active_chapter (Mod := Demo.DemoModule)
           Demo.demo_env Demo.alice Demo.course (Some "Week 1") (Some "Intro")
           Demo.empty_world toc run.2 Hrun).
Defined.

(** ** Rendering *)

Section RenderingFacts.
Context {Mod : Type} `{XModule Mod}.
Variable env : Env.
Variable R : Renderer Mod.

(** The wrappers get_module puts around get_html: the static URLs of the
    module's data_dir and, outside it, the staff histogram when the feature
    is on and the user is staff. *)
Lemma get_module_wrappers (user : User) (location : string)
    (position : option string) (w : World) module im sm mt w1 :
  get_module env user location position w = (Ok (module, im, sm, mt), w1) →
  ∃ prefix,
    metadata (xmod module) !! "data_dir" = Some prefix ∧
    html_wrappers module =
      if DISPLAY_HISTOGRAMS_TO_STAFF env && is_staff user
      then [Histogram; StaticUrls prefix]
      else [StaticUrls prefix].
Proof.
  intros Hgm%get_module_Ok_run. revert Hgm.
  destruct (modulestore env !! location) as [d|]; [|done].
  cbv zeta.
  destruct (metadata _ !! "data_dir") as [prefix|] eqn:Hprefix; [|done].
  intros Hrun. exists prefix.
  assert (Hmod : module =
            if DISPLAY_HISTOGRAMS_TO_STAFF env && is_staff user
            then add_histogram (replace_static_urls
                   (mkXInstance (xmodule_constructor d
                      (make_system env user d position)
                      (state_at w (lookup_refs (heap w) (cache w) (category d)
                                     (location_url d)))
                      (state_at w match shared_state_key d with
                                  | Some key =>
                                      lookup_refs (heap w) (cache w) (category d) key
                                  | None => None
                                  end)) []) prefix)
            else replace_static_urls
                   (mkXInstance (xmodule_constructor d
                      (make_system env user d position)
                      (state_at w (lookup_refs (heap w) (cache w) (category d)
                                     (location_url d)))
                      (state_at w match shared_state_key d with
                                  | Some key =>
                                      lookup_refs (heap w) (cache w) (category d) key
                                  | None => None
                                  end)) []) prefix).
  { destruct (is_authenticated user); [|by injection Hrun as <-].
    destruct (lookup_refs _ _ _ (location_url d));
      (destruct (shared_state_key d) as [key|];
       [destruct (lookup_refs _ _ _ key)|]);
      by injection Hrun as <-. }
  rewrite Hmod.
  destruct (DISPLAY_HISTOGRAMS_TO_STAFF env && is_staff user); by split.
Qed.

(** X16: for a user who does not get the staff histogram, the html of the
    module get_module returns is the module's own html with its static URLs
    replaced under the module's data_dir; it does not depend on the table. *)
Theorem get_module_html_static_urls (user : User) (location : string)
    (position : option string) (w : World) module im sm mt w1
    (rows : list StudentModule) :
  DISPLAY_HISTOGRAMS_TO_STAFF env && is_staff user = false →
  get_module env user location position w = (Ok (module, im, sm, mt), w1) →
  ∃ prefix,
    metadata (xmod module) !! "data_dir" = Some prefix ∧
    instance_get_html env R rows module =
      Html (replace_urls R (original_get_html R (xmod module)) prefix).
Proof.
  intros Hflag (prefix & Hprefix & Hwrap)%get_module_wrappers.
  exists prefix. split; [done|].
  unfold instance_get_html. rewrite Hwrap, Hflag. done.
Qed.

(** X17: for a staff user with the histogram feature on, and the edit
    link off, the html is the staff template rendered around the module's
    html with its static URLs replaced; the replacement is not applied to the
    output of the template. The histogram passed is that of the module's id
    over the table at the time of the call, and it is rendered exactly when
    some record of the module has a grade. *)
Theorem get_module_html_staff (user : User) (location : string)
    (position : option string) (w : World) module im sm mt w1
    (rows : list StudentModule) :
  DISPLAY_HISTOGRAMS_TO_STAFF env && is_staff user = true →
  DISPLAY_EDIT_LINK R && DEBUG env = false →
  get_module env user location position w = (Ok (module, im, sm, mt), w1) →
  ∃ prefix ctx,
    metadata (xmod module) !! "data_dir" = Some prefix ∧
    instance_get_html env R rows module =
      Html (render_to_string R "staff_problem_info.html" ctx) ∧
    ctx_module_content ctx =
      replace_urls R (original_get_html R (xmod module)) prefix ∧
    ctx_histogram ctx =
      dumps_histogram R (grade_histogram rows (module_id (xmod module))) ∧
    ctx_edit_link ctx = false ∧
    (ctx_render_histogram ctx = true ↔
       ∃ row, row ∈ rows ∧
              module_state_key row = module_id (xmod module) ∧
              grade row ≠ None).
Proof.
  intros Hflag Hedit (prefix & Hprefix & Hwrap)%get_module_wrappers.
  exists prefix. eexists. split; [done|].
  unfold instance_get_html. rewrite Hwrap, Hflag. simpl. rewrite Hedit.
  split; [done|]. simpl. split; [done|]. split; [done|]. split; [done|].
  rewrite bool_decide_eq_true.
  pose proof (grade_histogram_nonempty rows (module_id (xmod module))) as Hne.
  destruct (grade_histogram rows (module_id (xmod module))) as [|entry l];
    simpl; split.
  - lia.
  - intros Hex. by apply Hne in Hex.
  - intros _. by apply Hne.
  - lia.
Qed.

(** X18: with DISPLAY_EDIT_LINK and DEBUG both set, the html of a module
    wrapped for staff cannot be produced: the condition of the edit link
    reads a name that is not bound, and the call ends in a NameError before
    the module's own html is asked for. *)
Theorem get_module_html_edit_link (user : User) (location : string)
    (position : option string) (w : World) module im sm mt w1
    (rows : list StudentModule) :
  DISPLAY_HISTOGRAMS_TO_STAFF env && is_staff user = true →
  DISPLAY_EDIT_LINK R && DEBUG env = true →
  get_module env user location position w = (Ok (module, im, sm, mt), w1) →
  instance_get_html env R rows module = NameError "module_xml".
Proof.
  intros Hflag Hedit (prefix & Hprefix & Hwrap)%get_module_wrappers.
  unfold instance_get_html. rewrite Hwrap, Hflag. simpl. by rewrite Hedit.
Qed.

End RenderingFacts.

Lemma get_module_html_static_urls_witness :
  let run := get_module Demo.demo_env Demo.alice Demo.problem_url None
               Demo.empty_world in
  ∃ module im sm mt,
    run = (Ok (module, im, sm, mt), run.2) ∧
    ∃ prefix,
      metadata (xmod module) !! "data_dir" = Some prefix ∧
      instance_get_html Demo.demo_env (DemoRender.renderer false)
        DemoRender.graded_rows module =
        Html (replace_urls (DemoRender.renderer false)
                (original_get_html (DemoRender.renderer false) (xmod module))
                prefix).
Proof.
  intros run.
  assert (Hrun : ∃ module im sm mt, run = (Ok (module, im, sm, mt), run.2))
    by (eexists _, _, _, _; by vm_compute).
  destruct Hrun as (module & im & sm & mt & Hrun).
  exists module, im, sm, mt. split; [done|].
  exact (get_module_html_static_urls (Mod := Demo.DemoModule) Demo.demo_env
           (DemoRender.renderer false) Demo.alice Demo.problem_url None
           Demo.empty_world module im sm mt run.2 DemoRender.graded_rows
           eq_refl Hrun).
Defined.

Lemma get_module_html_staff_witness :
  let env := DemoRender.staff_env false in
  let R := DemoRender.renderer true in
  let run := get_module env DemoRender.carol Demo.problem_url None
               Demo.empty_world in
  ∃ module im sm mt,
    run = (Ok (module, im, sm, mt), run.2) ∧
    ∃ prefix ctx,
      metadata (xmod module) !! "data_dir" = Some prefix ∧
      instance_get_html env R DemoRender.graded_rows module =
        Html (render_to_string R "staff_problem_info.html" ctx) ∧
      ctx_module_content ctx =
        replace_urls R (original_get_html R (xmod module)) prefix ∧
      ctx_histogram ctx =
        dumps_histogram R
          (grade_histogram DemoRender.graded_rows (module_id (xmod module))) ∧
      ctx_edit_link ctx = false ∧
      (ctx_render_histogram ctx = true ↔
         ∃ row, row ∈ DemoRender.graded_rows ∧
                module_state_key row = module_id (xmod module) ∧
                grade row ≠ None).
Proof.
  intros env R run.
  assert (Hrun : ∃ module im sm mt, run = (Ok (module, im, sm, mt), run.2))
    by (eexists _, _, _, _; by vm_compute).
  destruct Hrun as (module & im & sm & mt & Hrun).
  exists module, im, sm, mt. split; [done|].
  exact (get_module_html_staff (Mod := Demo.DemoModule) env R DemoRender.carol
           Demo.problem_url None Demo.empty_world module im sm mt run.2
           DemoRender.graded_rows eq_refl eq_refl Hrun).
Defined.

Lemma get_module_html_edit_link_witness :
  let env := DemoRender.staff_env true in
  let R := DemoRender.renderer true in
  let run := get_module env DemoRender.carol Demo.problem_url None
               Demo.empty_world in
  ∃ module im sm mt,
    run = (Ok (module, im, sm, mt), run.2) ∧
    instance_get_html env R DemoRender.graded_rows module = NameError "module_xml".
Proof.
  intros env R run.
  assert (Hrun : ∃ module im sm mt, run = (Ok (module, im, sm, mt), run.2))
    by (eexists _, _, _, _; by vm_compute).
  destruct Hrun as (module & im & sm & mt & Hrun).
  exists module, im, sm, mt. split; [done|].
  exact (get_module_html_edit_link (Mod := Demo.DemoModule) env R
           DemoRender.carol Demo.problem_url None Demo.empty_world module im sm
           mt run.2 DemoRender.graded_rows eq_refl eq_refl Hrun).
Defined.

(** The staff view of the demo problem: the template around the module's
    html with its static URLs replaced, and a histogram of three grades. *)
Example staff_html_of_demo_problem :
  let env := DemoRender.staff_env false in
  let R := DemoRender.renderer false in
  let run := get_module env DemoRender.carol Demo.problem_url None
               Demo.empty_world in
  match run.1 with
  | Ok (module, _, _, _) =>
      instance_get_html env R DemoRender.graded_rows module =
        Html "staff_problem_info.html([demo]<p>i4x://edx/demo/problem/p1</p>)" ∧
      grade_histogram DemoRender.graded_rows (module_id (xmod module)) =
        [(None, 1); (Some 0%Z, 1); (Some 1%Z, 1)]
  | Raise _ => False
  end.
Proof. by vm_compute. Qed.

(** ** From the table to the module and back *)

(** A lookup in a cache whose references are the objects [l], placed in the
    heap after [pre], finds the first object of [l] with the type and the
    key. *)
Lemma lookup_refs_seq (pre l : list StudentModule) (type key : string) :
  lookup_refs (pre ++ l) (seq (length pre) (length l)) type key =
  (λ found, length pre + found.1) <$>
    list_find (λ o, module_type o = type ∧ module_state_key o = key) l.
Proof.
  revert pre. induction l as [|o l IH]; intros pre; [done|].
  simpl. rewrite lookup_app_r, Nat.sub_diag by lia. simpl.
  destruct (decide (module_type o = type ∧ module_state_key o = key))
    as [[Ht Hk]|Hno].
  - rewrite !bool_decide_true by done. simpl. f_equal. lia.
  - assert (Hb : bool_decide (module_type o = type) &&
                 bool_decide (module_state_key o = key) = false).
    { apply andb_false_iff.
      destruct (decide (module_type o = type)) as [Ht|Ht].
      - right. apply bool_decide_false. tauto.
      - left. by apply bool_decide_false. }
    rewrite Hb.
    replace (pre ++ o :: l) with ((pre ++ [o]) ++ l) by (by rewrite <- app_assoc).
    replace (S (length pre)) with (length (pre ++ [o]))
      by (rewrite length_app; simpl; lia).
    rewrite IH, length_app. simpl.
    destruct (list_find _ l) as [[i x]|]; simpl; [|done]. f_equal. lia.
Qed.

(** The first record of a student in the rows loaded for him is the first
    record of the table. *)
Lemma list_find_loaded (u : User) (type key : string)
    (f : nat → StudentModule → StudentModule) (rows : list StudentModule) :
  (∀ i row, student (f i row) = student row ∧
            module_type (f i row) = module_type row ∧
            module_state_key (f i row) = module_state_key row) →
  snd <$> list_find (λ o, module_type o = type ∧ module_state_key o = key)
            (filter (λ row, student row = u) (imap f rows)) =
  (λ found, f found.1 found.2) <$> list_find (record_matches u type key) rows.
Proof.
  revert f. induction rows as [|row rows IH]; intros f Hf; [done|].
  rewrite imap_cons, filter_cons. simpl.
  destruct (Hf 0 row) as (Hst & Hty & Hke).
  assert (Hshift : ∀ i row, student ((f ∘ S) i row) = student row ∧
            module_type ((f ∘ S) i row) = module_type row ∧
            module_state_key ((f ∘ S) i row) = module_state_key row).
  { intros i r. apply Hf. }
  specialize (IH (f ∘ S) Hshift).
  destruct (decide (record_matches u type key row)) as [(Hu & Ht & Hk)|Hno].
  - rewrite decide_True by congruence. simpl.
    rewrite decide_True by (split; congruence). done.
  - destruct (decide (student (f 0 row) = u)) as [Hu|Hu].
    + simpl. rewrite decide_False.
      2: { intros [Ht Hk]. apply Hno. repeat split; congruence. }
      rewrite <- option_fmap_compose. simpl.
      change (snd ∘ prod_map S id) with (@snd nat StudentModule).
      rewrite IH. rewrite <- option_fmap_compose. done.
    + rewrite IH. rewrite <- option_fmap_compose. done.
Qed.

(** What a lookup finds in a new cache: the first record of the student in
    the table, as an object with the key of its row; nothing when the
    student has no such record. *)
Lemma new_cache_lookup (u : User) (d : Descriptor) (w w0 : World)
    (type key : string) :
  is_authenticated u = true →
  StudentModuleCache_new u d w = (Ok (), w0) →
  match list_find (record_matches u type key) (db w) with
  | Some (j, row) =>
      ∃ r, lookup_refs (heap w0) (cache w0) type key = Some r ∧
           heap w0 !! r = Some (with_pk j row)
  | None => lookup_refs (heap w0) (cache w0) type key = None
  end.
Proof.
  intros Hauth [= <-]. simpl. rewrite Hauth.
  set (loaded := filter (λ row, student row = u) (imap with_pk (db w))).
  rewrite lookup_refs_seq.
  pose proof (list_find_loaded u type key with_pk (db w)
                (λ i row, conj eq_refl (conj eq_refl eq_refl))) as Hfind.
  fold loaded in Hfind.
  destruct (list_find (record_matches u type key) (db w)) as [[j row]|];
    simpl in Hfind.
  - destruct (list_find _ loaded) as [[i o]|] eqn:Hi; [|done].
    injection Hfind as Ho. simpl in Ho. subst o.
    apply list_find_Some in Hi as (Hi & _).
    exists (length (heap w) + i). split; [done|].
    rewrite lookup_app_r by lia.
    by replace (length (heap w) + i - length (heap w)) with i by lia.
  - by destruct (list_find _ loaded).
Qed.

Lemma new_cache_state (u : User) (d : Descriptor) (w w0 : World)
    (type key : string) :
  is_authenticated u = true →
  StudentModuleCache_new u d w = (Ok (), w0) →
  state_at w0 (lookup_refs (heap w0) (cache w0) type key) =
  stored_state (db w) u type key.
Proof.
  intros Hauth Hnew.
  pose proof (new_cache_lookup u d w w0 type key Hauth Hnew) as Hfound.
  unfold stored_state, stored_record.
  destruct (list_find (record_matches u type key) (db w)) as [[j row]|]; simpl.
  - destruct Hfound as (r & -> & Hr). simpl. by rewrite Hr.
  - by rewrite Hfound.
Qed.

Section StoredState.
Context {Mod : Type} `{XModule Mod}.
Variable env : Env.

(** X19: state is read before the module is built: after a cache has
    been built for an authenticated user, the module get_module returns is
    constructed from the state of that user's first record for the module's
    type and location, and from the state of their first record for the
    shared key when the module has one; a missing record gives None. *)
Theorem module_built_from_stored_state (owner user : User) (d' d : Descriptor)
    (location : string) (position : option string) (w w0 w1 : World)
    module im sm mt :
  is_authenticated owner = true →
  StudentModuleCache_new owner d' w = (Ok (), w0) →
  modulestore env !! location = Some d →
  get_module env user location position w0 = (Ok (module, im, sm, mt), w1) →
  xmod module =
    xmodule_constructor d (make_system env user d position)
      (stored_state (db w) owner (category d) (location_url d))
      match shared_state_key d with
      | Some key => stored_state (db w) owner (category d) key
      | None => None
      end.
Proof.
  intros Hauth Hnew Hd Hgm.
  apply get_module_Ok_run in Hgm. rewrite Hd in Hgm. cbv zeta in Hgm.
  rewrite (new_cache_state owner d' w w0 _ _ Hauth Hnew) in Hgm.
  assert (Hshared :
    state_at w0 match shared_state_key d with
                | Some key => lookup_refs (heap w0) (cache w0) (category d) key
                | None => None
                end =
    match shared_state_key d with
    | Some key => stored_state (db w) owner (category d) key
    | None => None
    end).
  { destruct (shared_state_key d); [|done].
    by apply (new_cache_state owner d'). }
  rewrite Hshared in Hgm. clear Hshared.
  set (m := xmodule_constructor _ _ _ _) in *.
  destruct (metadata m !! "data_dir") as [prefix|]; [|done].
  assert (Hmod : xmod module = m); [|done].
  destruct (DISPLAY_HISTOGRAMS_TO_STAFF env && is_staff user);
    (destruct (is_authenticated user); [|by injection Hgm as <-]);
    (destruct (lookup_refs _ _ _ (location_url d));
     (destruct (shared_state_key d) as [key|];
      [destruct (lookup_refs _ _ _ key)|]));
    by injection Hgm as <-.
Qed.

End StoredState.

Lemma module_built_from_stored_state_witness :
  let w := mkWorld [with_state (Some "answered") Demo.bob_row] [] [] [] in
  let w0 := (StudentModuleCache_new Demo.bob Demo.problem w).2 in
  let run := get_module Demo.demo_env AnonymousUser Demo.problem_url None w0 in
  ∃ module im sm mt,
    run = (Ok (module, im, sm, mt), run.2) ∧
    Demo.d_state (xmod module) = Some "answered" ∧
    xmod module =
      xmodule_constructor Demo.problem
        (make_system Demo.demo_env AnonymousUser Demo.problem None)
        (stored_state (db w) Demo.bob "problem" Demo.problem_url)
        None.
Proof.
  intros w w0 run.
  assert (Hrun : ∃ module im sm mt, run = (Ok (module, im, sm, mt), run.2))
    by (eexists _, _, _, _; by vm_compute).
  destruct Hrun as (module & im & sm & mt & Hrun).
  exists module, im, sm, mt. split; [done|].
  pose proof (module_built_from_stored_state (Mod := Demo.DemoModule)
                Demo.demo_env Demo.bob AnonymousUser Demo.problem Demo.problem
                Demo.problem_url None w w0 run.2 module im sm mt
                eq_refl eq_refl eq_refl Hrun) as Hbuilt.
  split; [|exact Hbuilt].
  rewrite Hbuilt. by vm_compute.
Defined.

Lemma with_pk_idemp (k : nat) (o : StudentModule) :
  with_pk k (with_pk k o) = with_pk k o.
Proof. done. Qed.

Lemma with_pk_own (k : nat) (o : StudentModule) : pk o = Some k → with_pk k o = o.
Proof. destruct o. simpl. by intros ->. Qed.

Lemma backed_created_old (w : World) (o' : StudentModule) r o k :
  backed w r o k → backed (created w o') r o k.
Proof.
  intros (Hr & Hpk & row & Hk & Ho). split; [|split; [done|]]; simpl.
  - by apply lookup_app_l_Some.
  - exists row. split; [by apply lookup_app_l_Some|done].
Qed.

Lemma backed_created_new (w : World) (o : StudentModule) :
  backed (created w o) (length (heap w)) (with_pk (length (db w)) o)
         (length (db w)).
Proof.
  split; [|split; [done|]]; simpl.
  - by rewrite lookup_app_r, Nat.sub_diag by lia.
  - eexists. split; [by rewrite lookup_app_r, Nat.sub_diag by lia|done].
Qed.

Lemma list_find_created_old (u : User) (type key : string) (w : World)
    (o : StudentModule) found :
  list_find (record_matches u type key) (db w) = Some found →
  list_find (record_matches u type key) (db (created w o)) = Some found.
Proof. destruct found as [j row]. simpl. apply list_find_app_l. Qed.

Lemma list_find_created_new (u : User) (type key : string) (w : World)
    (o : StudentModule) :
  list_find (record_matches u type key) (db w) = None →
  record_matches u type key o →
  list_find (record_matches u type key) (db (created w o)) =
    Some (length (db w), with_pk (length (db w)) o).
Proof.
  intros Hnone Hmatch. simpl. rewrite list_find_app_r by done. simpl.
  by rewrite decide_True.
Qed.

Lemma list_find_created_other (u : User) (type key : string) (w : World)
    (o : StudentModule) :
  ¬ record_matches u type key o →
  list_find (record_matches u type key) (db (created w o)) =
  list_find (record_matches u type key) (db w).
Proof.
  intros Hno. simpl.
  destruct (list_find (record_matches u type key) (db w)) as [[j row]|] eqn:Hf.
  - by apply list_find_app_l.
  - rewrite list_find_app_r by done. simpl. by rewrite decide_False.
Qed.


Lemma list_find_insert_first {A} (P : A → Prop) `{!∀ x, Decision (P x)}
    (l : list A) (k : nat) (x x' : A) :
  list_find P l = Some (k, x) → P x' →
  list_find P (<[k := x']> l) = Some (k, x').
Proof.
  intros (Hk & _ & Hbefore)%list_find_Some Hx'.
  apply list_find_Some. split; [|split; [done|]].
  - apply list_lookup_insert_eq. by eapply lookup_lt_Some.
  - intros j y Hj Hlt. rewrite list_lookup_insert_ne in Hj by lia.
    by eapply Hbefore.
Qed.

Lemma list_find_insert_other {A} (P : A → Prop) `{!∀ x, Decision (P x)}
    (l : list A) (j k : nat) (x x' : A) :
  list_find P l = Some (k, x) → j ≠ k → ¬ P x' →
  list_find P (<[j := x']> l) = Some (k, x).
Proof.
  intros (Hk & Hx & Hbefore)%list_find_Some Hjk Hx'.
  apply list_find_Some. split; [|split; [done|]].
  - by rewrite list_lookup_insert_ne.
  - intros i y Hi Hlt. destruct (decide (i = j)) as [->|Hij].
    + apply list_lookup_insert_Some in Hi as [(_ & <- & _)|[? _]]; done.
    + rewrite list_lookup_insert_ne in Hi by done. by eapply Hbefore.
Qed.

(** [if changed: obj.save()] for an object that has a row, and that is that
    row unless it has changed: afterwards the row is the object. *)
Lemma sync_row (w : World) (r k : nat) (o row : StudentModule) (changed : bool) :
  heap w !! r = Some o → pk o = Some k → db w !! k = Some row →
  (changed = false → o = with_pk k row) →
  ∃ w' row',
    (if changed then save r else mret ()) w = (Ok (), w') ∧
    heap w' = heap w ∧ db w' = <[k := row']> (db w) ∧ o = with_pk k row'.
Proof.
  intros Ho Hpk Hrow Hsame. destruct changed.
  - unfold save. rewrite Ho, Hpk. eexists _, o. split; [done|].
    split; [done|]. split; [done|]. by rewrite with_pk_own.
  - exists w, row. split; [done|]. split; [done|].
    split; [by rewrite list_insert_id|by apply Hsame].
Qed.

Section Persistence.
Context {Mod : Type} `{XModule Mod}.
Variable env : Env.

(** After the cache of a user has been built, get_module for that user
    builds the module from the stored state and returns as instance record
    the user's first record for the module in the table, creating it when
    there is none, and as shared record the user's first record for the
    shared key, created likewise. *)
Lemma get_module_first_record (user : User) (d' d : Descriptor)
    (location : string) (position : option string) (w w0 w1 : World)
    module im sm mt :
  is_authenticated user = true →
  StudentModuleCache_new user d' w = (Ok (), w0) →
  modulestore env !! location = Some d →
  (∀ sys i s, module_id (xmodule_constructor d sys i s : Mod) = location_url d) →
  shared_state_key d ≠ Some (location_url d) →
  get_module env user location position w0 = (Ok (module, im, sm, mt), w1) →
  xmod module =
    xmodule_constructor d (make_system env user d position)
      (stored_state (db w) user (category d) (location_url d))
      (match shared_state_key d with
       | Some key => stored_state (db w) user (category d) key
       | None => None
       end) ∧
  (∃ r k row,
     im = Some r ∧ backed w1 r (with_pk k row) k ∧
     list_find (record_matches user (category d) (location_url d)) (db w1) =
       Some (k, row) ∧
     grade row =
       stored_record (db w) user (category d) (location_url d) ≫= grade) ∧
  match shared_state_key d with
  | Some key =>
      ∃ s k row,
        sm = Some s ∧ backed w1 s (with_pk k row) k ∧
        list_find (record_matches user (category d) key) (db w1) = Some (k, row) ∧
        state row =
          from_option state (get_shared_state (xmod module))
            (stored_record (db w) user (category d) key)
  | None => sm = None
  end.
Proof.
  intros Hauth Hnew Hd Hid Hdistinct Hgm.
  assert (Hdb0 : db w0 = db w) by (by injection Hnew as <-).
  pose proof (new_cache_lookup user d' w w0 (category d) (location_url d)
                Hauth Hnew) as Hfi.
  apply get_module_Ok_run in Hgm. rewrite Hd in Hgm. cbv zeta in Hgm.
  rewrite (new_cache_state user d' w w0 _ _ Hauth Hnew) in Hgm.
  assert (Hshared : state_at w0
                match shared_state_key d with
                | Some key => lookup_refs (heap w0) (cache w0) (category d) key
                | None => None
                end =
    match shared_state_key d with
    | Some key => stored_state (db w) user (category d) key
    | None => None
    end).
  { destruct (shared_state_key d); [|done].
    by apply (new_cache_state user d'). }
  rewrite Hshared in Hgm. clear Hshared.
  set (m := xmodule_constructor _ _ _ _) in *.
  assert (Hm : module_id m = location_url d) by apply Hid.
  destruct (metadata m !! "data_dir") as [prefix|]; [|done].
  rewrite Hauth in Hgm.
  (* the instance record, in the world [wi] before the shared record *)
  assert (Hinst : ∃ wi r k row,
    match lookup_refs (heap w0) (cache w0) (category d) (location_url d) with
    | Some r => (Some r, w0)
    | None => (Some (length (heap w0)),
               created w0 (new_instance_record user d m))
    end = (Some r, wi) ∧
    (wi = w0 ∨ wi = created w0 (new_instance_record user d m)) ∧
    backed wi r (with_pk k row) k ∧
    list_find (record_matches user (category d) (location_url d)) (db wi) =
      Some (k, row) ∧
    grade row = stored_record (db w) user (category d) (location_url d) ≫= grade).
  { unfold stored_record.
    destruct (list_find (record_matches user (category d) (location_url d)) (db w))
      as [[j row]|] eqn:Hfind.
    - destruct Hfi as (r & -> & Hheap).
      exists w0, r, j, row. split; [done|]. split; [by left|].
      split; [|split; [by rewrite Hdb0|done]].
      split; [done|]. split; [done|]. exists row.
      apply list_find_Some in Hfind as (Hj & _). by rewrite Hdb0.
    - rewrite Hfi.
      eexists _, _, (length (db w0)), (with_pk (length (db w0))
                                         (new_instance_record user d m)).
      split; [done|]. split; [by right|].
      split; [exact (backed_created_new w0 (new_instance_record user d m))|].
      split; [|done].
      apply list_find_created_new; [by rewrite Hdb0|].
      by split. }
  destruct Hinst as (wi & r & k & row & Hwi & Hcases & Hback & Hfind & Hgrade).
  rewrite Hwi in Hgm. clear Hwi Hfi.
  assert (Hmod : xmod module = m).
  { destruct (DISPLAY_HISTOGRAMS_TO_STAFF env && is_staff user);
      (destruct (shared_state_key d) as [key|];
       [destruct (lookup_refs _ _ _ key)|]);
      by injection Hgm as <-. }
  split; [done|]. rewrite Hmod. clear Hmod.
  destruct (shared_state_key d) as [key|] eqn:Hkey.
  - assert (Hne : key ≠ location_url d) by congruence.
    pose proof (new_cache_lookup user d' w w0 (category d) key Hauth Hnew) as Hfs.
    destruct (list_find (record_matches user (category d) key) (db w))
      as [[j row2]|] eqn:Hfind2.
    + destruct Hfs as (s & Hs & Hheap). rewrite Hs in Hgm.
      injection Hgm as <- <- <- <- <-. split.
      * by exists r, k, row.
      * exists s, j, row2. split; [done|].
        assert (Hback0 : backed w0 s (with_pk j row2) j).
        { split; [done|]. split; [done|]. exists row2.
          apply list_find_Some in Hfind2 as (Hj & _). by rewrite Hdb0. }
        assert (Hstate : state row2 =
                  from_option state (get_shared_state m)
                    (stored_record (db w) user (category d) key))
          by (unfold stored_record; by rewrite Hfind2).
        rewrite <-Hdb0 in Hfind2. split; [|split; [|done]].
        -- destruct Hcases as [->| ->]; [done|by apply backed_created_old].
        -- destruct Hcases as [->| ->]; [done|by apply list_find_created_old].
    + rewrite Hfs in Hgm. injection Hgm as <- <- <- <- <-. split.
      * exists r, k, row. split; [done|].
        split; [by apply backed_created_old|].
        split; [by apply list_find_created_old|done].
      * eexists _, (length (db wi)), (with_pk (length (db wi))
                                        (new_shared_record user d key m)).
        split; [done|].
        split; [exact (backed_created_new wi (new_shared_record user d key m))|].
        split; [|unfold stored_record; by rewrite Hfind2].
        apply list_find_created_new; [|by split].
        destruct Hcases as [->| ->]; [by rewrite Hdb0|].
        rewrite list_find_created_other; [by rewrite Hdb0|].
        intros (_ & _ & Hk). simpl in Hk. congruence.
  - injection Hgm as <- <- <- <- <-. split; [|done].
    by exists r, k, row.
Qed.

(** [save_instance_module] on a record that has a row: afterwards the row
    holds the state and the grade of the module, and is the object. *)
Lemma save_instance_module_row (instance : XInstance Mod) (r k : nat)
    (row : StudentModule) (w : World) :
  backed w r (with_pk k row) k →
  ∃ w' row',
    save_instance_module instance r (grade row) (state row) w = (Ok (), w') ∧
    heap w' = <[r := with_pk k row']> (heap w) ∧
    db w' = <[k := row']> (db w) ∧
    same_record row' row ∧
    state row' = get_instance_state (xmod instance) ∧
    grade row' = match get_score (xmod instance) with
                 | Some sc => Some (score sc)
                 | None => grade row
                 end.
Proof.
  intros (Hold & _ & row0 & Hrow0 & Hsame).
  unfold save_instance_module.
  set (old := with_pk k row) in *.
  set (new_state := get_instance_state (xmod instance)).
  set (new_grade := match get_score (xmod instance) with
                    | Some sc => Some (score sc)
                    | None => grade row
                    end).
  set (cur := with_grade new_grade (with_state new_state old)).
  set (w0 := mkWorld (db w) (<[r := with_state new_state old]> (heap w))
                     (cache w) (trace w)).
  set (w1 := mkWorld (db w) (<[r := cur]> (heap w)) (cache w) (trace w)).
  assert (Hr : r < length (heap w)) by (by eapply lookup_lt_Some).
  assert (Hstep :
    match get_score (xmod instance) with
    | Some sc => modify r (with_grade (Some (score sc)))
    | None => mret ()
    end w0 = (Ok (), w1)).
  { subst w0 w1 cur new_grade. destruct (get_score (xmod instance)) as [sc|].
    - erewrite modify_run; simpl; [|by apply list_lookup_insert_eq].
      by rewrite list_insert_insert_eq.
    - done. }
  assert (Hcur : heap w1 !! r = Some cur) by (by apply list_lookup_insert_eq).
  rewrite bind_run, (modify_run _ _ _ _ Hold). fold w0.
  rewrite bind_run, Hstep, bind_run, (deref_run _ _ _ Hcur).
  destruct (sync_row w1 r k cur row0
              (bool_decide (grade cur ≠ grade row) ||
               bool_decide (state cur ≠ state row)))
    as (w' & row' & Hrun & Hheap & Hdb & Hrow'); [done..| |].
  { intros [Hg Hs]%orb_false_iff.
    rewrite bool_decide_eq_false in Hg. rewrite bool_decide_eq_false in Hs.
    apply dec_stable in Hg. apply dec_stable in Hs.
    rewrite <-Hsame. subst cur old. simpl in Hg, Hs. rewrite Hg, Hs.
    by destruct row. }
  exists w', row'. split; [done|]. rewrite Hheap, Hdb.
  split; [simpl; by rewrite <-Hrow'|]. split; [done|].
  assert (Hfields : student cur = student row' ∧ module_type cur = module_type row' ∧
            module_state_key cur = module_state_key row' ∧
            max_grade cur = max_grade row' ∧ state cur = state row' ∧
            grade cur = grade row') by (by rewrite Hrow').
  destruct Hfields as (? & ? & ? & ? & ? & ?). by repeat split.
Qed.

(** The same for the shared record, of which only the state is written. *)
Lemma save_shared_module_row (m : Mod) (s k : nat) (row : StudentModule)
    (w : World) :
  backed w s (with_pk k row) k →
  ∃ w' row',
    (modify s (with_state (get_shared_state m)) ;;
     o ← deref s;
     if bool_decide (state o ≠ state row) then save s else mret ()) w =
      (Ok (), w') ∧
    heap w' = <[s := with_pk k row']> (heap w) ∧
    db w' = <[k := row']> (db w) ∧
    same_record row' row ∧
    state row' = get_shared_state m.
Proof.
  intros (Hold & _ & row0 & Hrow0 & Hsame).
  set (old := with_pk k row) in *.
  set (cur := with_state (get_shared_state m) old).
  assert (Hs : s < length (heap w)) by (by eapply lookup_lt_Some).
  rewrite bind_run, (modify_run _ _ _ _ Hold).
  set (w1 := mkWorld _ _ _ _).
  assert (Hcur : heap w1 !! s = Some cur) by (by apply list_lookup_insert_eq).
  rewrite bind_run, (deref_run _ _ _ Hcur).
  destruct (sync_row w1 s k cur row0 (bool_decide (state cur ≠ state row)))
    as (w' & row' & Hrun & Hheap & Hdb & Hrow'); [done..| |].
  { intros Hst. rewrite bool_decide_eq_false in Hst. apply dec_stable in Hst.
    rewrite <-Hsame. subst cur old. simpl in Hst. rewrite Hst.
    by destruct row. }
  exists w', row'. split; [done|]. rewrite Hheap, Hdb.
  split; [simpl; by rewrite <-Hrow'|]. split; [done|].
  assert (Hfields : student cur = student row' ∧ module_type cur = module_type row' ∧
            module_state_key cur = module_state_key row' ∧
            max_grade cur = max_grade row' ∧ state cur = state row')
    by (by rewrite Hrow').
  destruct Hfields as (? & ? & ? & ? & ?). by repeat split.
Qed.

(** X20: what a successful modx_dispatch request leaves in the table.
    The module is built from the stored state of the session user, its
    handler is called once with the command and the POST data, and when the
    request returns, the user's record for the module holds the instance
    state of the module as the handler left it, and its score if it has one
    (otherwise the grade stays); the user's record for the shared key holds
    its shared state. The response carries what the handler returned. The
    module's id is assumed to be the URL of its location, and its shared key,
    if any, to differ from that URL. *)
Theorem modx_dispatch_persists (request : Request) (dispatch id : string)
    (d : Descriptor) (w w' : World) (resp : HttpResponse) :
  modulestore env !! id = Some d →
  (∀ sys i s, module_id (xmodule_constructor d sys i s : Mod) = location_url d) →
  shared_state_key d ≠ Some (location_url d) →
  modx_dispatch env request dispatch id w = (Ok resp, w') →
  let user := req_user request in
  let type := category d in
  let m : Mod :=
    xmodule_constructor d (make_system env user d None)
      (stored_state (db w) user type (location_url d))
      (match shared_state_key d with
       | Some key => stored_state (db w) user type key
       | None => None
       end) in
  ∃ m',
    handle_ajax m (Py.partition "?" dispatch).1.1 (POST request) =
      inr (content resp, m') ∧
    (∃ row,
       stored_record (db w') user type (location_url d) = Some row ∧
       state row = get_instance_state m' ∧
       grade row = match get_score m' with
                   | Some sc => Some (score sc)
                   | None =>
                       stored_record (db w) user type (location_url d) ≫= grade
                   end) ∧
    (∀ key, shared_state_key d = Some key →
       stored_state (db w') user type key = get_shared_state m').
Proof.
  intros Hd Hid Hdistinct Hrun. cbv zeta.
  set (user := req_user request) in *. set (type := category d).
  set (m := xmodule_constructor d _ _ _).
  set (w0 := (StudentModuleCache_new user d w).2).
  assert (Hnew : StudentModuleCache_new user d w = (Ok (), w0)) by done.
  assert (Hreach : reaches_get_module env ModxDispatch request id w w0)
    by (by exists d).
  pose proof (serve_get_module env ModxDispatch request id dispatch w w0 Hreach)
    as Hserve.
  change (serve env ModxDispatch request id dispatch w)
    with (modx_dispatch env request dispatch id w) in Hserve.
  rewrite Hrun in Hserve. clear Hrun. fold user in Hserve.
  destruct (get_module env user id None w0)
    as [[[[[module im] sm] mt]|exn] w1] eqn:Hgm; [|done].
  destruct im as [r|]; [|done].
  assert (Hauth : is_authenticated user = true).
  { destruct (is_authenticated user) eqn:Hauth; [done|]. exfalso.
    apply get_module_Ok_run in Hgm. rewrite Hd in Hgm. cbv zeta in Hgm.
    destruct (metadata _ !! "data_dir"); [|done].
    rewrite Hauth in Hgm. subst w0. unfold StudentModuleCache_new in Hgm.
    rewrite Hauth in Hgm. simpl in Hgm. done. }
  destruct (get_module_first_record user d d id None w w0 w1 module
              (Some r) sm mt Hauth Hnew Hd Hid Hdistinct Hgm)
    as (Hmod & (r' & k & row & [= <-] & Hback & Hfind & Hgrade) & Hshared).
  fold type m in Hmod. fold type in Hfind, Hgrade, Hshared.
  pose proof Hback as (Hr & _ & _). rewrite Hr in Hserve.
  cbn [forwarded] in Hserve.
  assert (Hold_shared : state_of sm w1 = (Ok (state_at w1 sm), w1)).
  { apply state_of_valid. intros s ->. destruct (shared_state_key d); [|done].
    destruct Hshared as (s' & k2 & row2 & [= <-] & (Hs & _) & _ & _).
    by eexists. }
  rewrite bind_run, Hold_shared, bind_run, call_handle_ajax_run, Hmod in Hserve.
  destruct (handle_ajax m _ _) as [exn|[ret m']] eqn:Hajax; [done|].
  exists m'.
  set (w2 := mkWorld _ _ _ _) in Hserve.
  assert (Hback2 : backed w2 r (with_pk k row) k) by done.
  destruct (save_instance_module_row (mkXInstance m' (html_wrappers module))
              r k row w2 Hback2)
    as (w3 & row' & Hsave & Hheap3 & Hdb3 & Hsame & Hstate & Hnewgrade).
  change (grade (with_pk k row)) with (grade row) in Hserve.
  change (state (with_pk k row)) with (state row) in Hserve.
  rewrite bind_run, Hsave, bind_run in Hserve.
  change (db w2) with (db w1) in Hdb3. change (heap w2) with (heap w1) in Hheap3.
  cbn [xmod] in Hserve, Hstate, Hnewgrade.
  pose proof Hfind as (Hk & (Hu & Ht & Hurl) & _)%list_find_Some.
  destruct Hsame as (Hu' & Ht' & Hurl' & _).
  assert (Hmatch : record_matches user type (location_url d) row').
  { split; [congruence|]. split; congruence. }
  destruct (shared_state_key d) as [key|] eqn:Hkey.
  - assert (Hne : key ≠ location_url d) by congruence.
    destruct Hshared as (s & k2 & row2 & -> & Hbacks & Hfinds & _).
    pose proof Hfinds as (Hk2 & (Hu2 & Ht2 & Hkey2) & _)%list_find_Some.
    pose proof Hbacks as (Hs & _ & _).
    assert (Hkk : k2 ≠ k) by (intros ->; congruence).
    assert (Hrs : s ≠ r).
    { intros ->. rewrite Hr in Hs. injection Hs as Hpk _. done. }
    assert (Hback3 : backed w3 s (with_pk k2 row2) k2).
    { split; [|split; [done|]].
      - by rewrite Hheap3, list_lookup_insert_ne.
      - exists row2. split; [|done]. by rewrite Hdb3, list_lookup_insert_ne. }
    destruct (save_shared_module_row m' s k2 row2 w3 Hback3)
      as (w4 & row2' & Hsave2 & _ & Hdb4 & (Hu3 & Ht3 & Hkey3 & _) & Hstate2).
    assert (Hold : state_at w1 (Some s) = state row2).
    { unfold state_at. by rewrite Hs. }
    rewrite Hold, Hsave2 in Hserve. injection Hserve as -> ->.
    rewrite Hdb4, Hdb3. split; [done|]. split.
    + exists row'. unfold stored_record. rewrite Hgrade in Hnewgrade.
      rewrite (list_find_insert_other _ _ k2 k row' row2'); [done| |done|].
      * by eapply list_find_insert_first.
      * intros (_ & _ & Hbad). congruence.
    + intros ? [= <-]. unfold stored_state, stored_record.
      rewrite (list_find_insert_first _ _ k2 row2 row2'); [done| |].
      * apply list_find_insert_other; [done|done|].
        intros (_ & _ & Hbad). congruence.
      * split; [congruence|]. split; congruence.
  - subst sm. injection Hserve as -> ->. split; [done|]. split; [|done].
    exists row'. unfold stored_record. rewrite Hgrade in Hnewgrade.
    rewrite Hdb3. by rewrite (list_find_insert_first _ _ k row row').
Qed.

End Persistence.

Lemma modx_dispatch_persists_witness :
  let request := Demo.ajax_request Demo.alice in
  let run := modx_dispatch Demo.demo_env request "share?now" Demo.video_url
               Demo.bob_world in
  let m : Demo.DemoModule :=
    xmodule_constructor Demo.video
      (make_system Demo.demo_env Demo.alice Demo.video None) None None in
  run.1 = Ok {| content := "shared" |} ∧
  stored_state (db Demo.bob_world) Demo.alice "video" "lecture" = None ∧
  stored_state (db run.2) Demo.alice "video" "lecture" = Some "note" ∧
  ∃ m',
    handle_ajax m "share" (POST request) = inr ("shared", m') ∧
    (∃ row,
       stored_record (db run.2) Demo.alice "video" Demo.video_url = Some row ∧
       state row = get_instance_state m' ∧
       grade row = match get_score m' with
                   | Some sc => Some (score sc)
                   | None =>
                       stored_record (db Demo.bob_world) Demo.alice "video"
                         Demo.video_url ≫= grade
                   end) ∧
    (∀ key, shared_state_key Demo.video = Some key →
       stored_state (db run.2) Demo.alice "video" key = get_shared_state m').
Proof.
  intros request run m.
  assert (Hd : modulestore Demo.demo_env !! Demo.video_url = Some Demo.video)
    by (by vm_compute).
  assert (Hrun : run = (Ok {| content := "shared" |}, run.2)).
  { rewrite (surjective_pairing run) at 1. f_equal; by vm_compute. }
  split; [by vm_compute|]. split; [by vm_compute|]. split; [by vm_compute|].
  exact (modx_dispatch_persists (Mod := Demo.DemoModule) Demo.demo_env request
           "share?now" Demo.video_url Demo.video Demo.bob_world run.2
           {| content := "shared" |} Hd (λ _ _ _, eq_refl)
           ltac:(discriminate) Hrun).
Defined.

Section CallbackPersistence.
Context {Mod : Type} `{XModule Mod}.
Variable env : Env.

(** X21: what a successful xqueue_callback leaves in the table when the
    session user is the user named in the URL. The module is built from that
    user's stored state, its handler is called with the dispatch and the
    POST data extended with the queue key, the response is empty, and
    afterwards the user's record for the module holds the instance state of
    the module as the handler left it, and its score if it has one. The
    shared record is never written back: it keeps the state it had, or, when
    get_module has just created it, the shared state of the module before the
    handler ran. The module's id is assumed to be the URL of its location,
    and its shared key, if any, to differ from that URL. *)
Theorem xqueue_callback_persists (request : Request) (userid : Z) (staff : bool)
    (id dispatch : string) (d : Descriptor) (w w' : World)
    (resp : HttpResponse) :
  req_user request = RegisteredUser userid staff →
  auth_user env !! userid = Some staff →
  modulestore env !! id = Some d →
  (∀ sys i s, module_id (xmodule_constructor d sys i s : Mod) = location_url d) →
  shared_state_key d ≠ Some (location_url d) →
  xqueue_callback env request userid id dispatch w = (Ok resp, w') →
  let user := req_user request in
  let type := category d in
  let m : Mod :=
    xmodule_constructor d (make_system env user d None)
      (stored_state (db w) user type (location_url d))
      (match shared_state_key d with
       | Some key => stored_state (db w) user type key
       | None => None
       end) in
  ∃ data ret m',
    forwarded env (XqueueCallback userid) request dispatch =
      inr (dispatch, data) ∧
    handle_ajax m dispatch data = inr (ret, m') ∧
    content resp = "" ∧
    (∃ row,
       stored_record (db w') user type (location_url d) = Some row ∧
       state row = get_instance_state m' ∧
       grade row = match get_score m' with
                   | Some sc => Some (score sc)
                   | None =>
                       stored_record (db w) user type (location_url d) ≫= grade
                   end) ∧
    (∀ key, shared_state_key d = Some key →
       stored_state (db w') user type key =
       from_option state (get_shared_state m)
         (stored_record (db w) user type key)).
Proof.
  intros Huser Hstaff Hd Hid Hdistinct Hrun. cbv zeta.
  set (user := req_user request) in *. set (type := category d).
  set (m := xmodule_constructor d _ _ _).
  destruct (serve_prologue env (XqueueCallback userid) request id dispatch w)
    as [[w0 Hreach]|(exn & Hraise & _)].
  2: { simpl in Hraise. congruence. }
  pose proof (serve_get_module env (XqueueCallback userid) request id dispatch
                w w0 Hreach) as Hserve.
  change (serve env (XqueueCallback userid) request id dispatch w)
    with (xqueue_callback env request userid id dispatch w) in Hserve.
  rewrite Hrun in Hserve. clear Hrun. fold user in Hserve.
  destruct Hreach as (header & get & staff' & d' & Hpop & Hstaff' & Hd' & Hnew).
  rewrite Hstaff in Hstaff'. injection Hstaff' as <-.
  rewrite Hd in Hd'. injection Hd' as <-.
  rewrite <-Huser in Hnew.
  assert (Hauth : is_authenticated user = true) by (by rewrite Huser).
  destruct (get_module env user id None w0)
    as [[[[[module im] sm] mt]|exn] w1] eqn:Hgm; [|done].
  destruct im as [r|]; [|done].
  destruct (get_module_first_record env user d d id None w w0 w1 module
              (Some r) sm mt Hauth Hnew Hd Hid Hdistinct Hgm)
    as (Hmod & (r' & k & row & [= <-] & Hback & Hfind & Hgrade) & Hshared).
  fold type m in Hmod. fold type in Hfind, Hgrade, Hshared.
  pose proof Hback as (Hr & _ & _). rewrite Hr in Hserve.
  cbn [forwarded] in Hserve |- *. rewrite Hpop in Hserve |- *.
  destruct (header_getitem header "queuekey") as [exn|queuekey]; [done|].
  rewrite bind_run, call_handle_ajax_run, Hmod in Hserve.
  destruct (handle_ajax m _ _) as [exn|[ret m']] eqn:Hajax; [done|].
  eexists _, ret, m'. split; [done|]. split; [done|].
  set (w2 := mkWorld _ _ _ _) in Hserve.
  assert (Hback2 : backed w2 r (with_pk k row) k) by done.
  destruct (save_instance_module_row (mkXInstance m' (html_wrappers module))
              r k row w2 Hback2)
    as (w3 & row' & Hsave & Hheap3 & Hdb3 & Hsame & Hstate & Hnewgrade).
  change (grade (with_pk k row)) with (grade row) in Hserve.
  change (state (with_pk k row)) with (state row) in Hserve.
  rewrite bind_run, Hsave in Hserve.
  change (db w2) with (db w1) in Hdb3.
  cbn [xmod] in Hstate, Hnewgrade.
  injection Hserve as -> ->. split; [done|].
  pose proof Hfind as (Hk & (Hu & Ht & Hurl) & _)%list_find_Some.
  destruct Hsame as (Hu' & Ht' & Hurl' & _).
  assert (Hmatch : record_matches user type (location_url d) row').
  { split; [congruence|]. split; congruence. }
  rewrite Hdb3. split.
  - exists row'. unfold stored_record. rewrite Hgrade in Hnewgrade.
    by rewrite (list_find_insert_first _ _ k row row').
  - intros key Hkey. rewrite Hkey in Hshared.
    assert (Hne : key ≠ location_url d) by congruence.
    destruct Hshared as (s & k2 & row2 & -> & Hbacks & Hfinds & Hshared_state).
    pose proof Hfinds as (Hk2 & (Hu2 & Ht2 & Hkey2) & _)%list_find_Some.
    assert (Hkk : k ≠ k2) by (intros ->; congruence).
    unfold stored_state at 1. unfold stored_record at 1.
    rewrite (list_find_insert_other _ _ k k2 row2 row'); [|done|done|].
    + simpl. by rewrite Hshared_state, Hmod.
    + intros (_ & _ & Hbad). congruence.
Qed.

End CallbackPersistence.

Lemma xqueue_callback_persists_witness :
  let request := Demo.callback_request in
  let run := xqueue_callback Demo.demo_env request 2 Demo.video_url
               "score_update" Demo.bob_world in
  let m : Demo.DemoModule :=
    xmodule_constructor Demo.video
      (make_system Demo.demo_env Demo.bob Demo.video None) None None in
  run.1 = Ok {| content := "" |} ∧
  stored_state (db run.2) Demo.bob "video" Demo.video_url = Some "graded" ∧
  stored_state (db run.2) Demo.bob "video" "lecture" = Some "{}" ∧
  ∃ data ret m',
    forwarded Demo.demo_env (XqueueCallback 2) request "score_update" =
      inr ("score_update", data) ∧
    handle_ajax m "score_update" data = inr (ret, m') ∧
    content {| content := "" |} = "" ∧
    (∃ row,
       stored_record (db run.2) Demo.bob "video" Demo.video_url = Some row ∧
       state row = get_instance_state m' ∧
       grade row = match get_score m' with
                   | Some sc => Some (score sc)
                   | None =>
                       stored_record (db Demo.bob_world) Demo.bob "video"
                         Demo.video_url ≫= grade
                   end) ∧
    (∀ key, shared_state_key Demo.video = Some key →
       stored_state (db run.2) Demo.bob "video" key =
       from_option state (get_shared_state m)
         (stored_record (db Demo.bob_world) Demo.bob "video" key)).
Proof.
  intros request run m.
  assert (Hstaff : auth_user Demo.demo_env !! 2%Z = Some false)
    by (by vm_compute).
  assert (Hd : modulestore Demo.demo_env !! Demo.video_url = Some Demo.video)
    by (by vm_compute).
  assert (Hrun : run = (Ok {| content := "" |}, run.2)).
  { rewrite (surjective_pairing run) at 1. f_equal; by vm_compute. }
  split; [by vm_compute|]. split; [by vm_compute|]. split; [by vm_compute|].
  exact (xqueue_callback_persists (Mod := Demo.DemoModule) Demo.demo_env request
           2 false Demo.video_url "score_update" Demo.video Demo.bob_world run.2
           {| content := "" |} eq_refl Hstaff Hd (λ _ _ _, eq_refl)
           ltac:(discriminate) Hrun).
Defined.

Section NavigationFacts.
Context {T : Type} `{XNode T}.

Lemma is_first_named_lookup (name : option string) (xs : list T) (x : T) :
  is_first_named name xs x →
  ∃ i, xs !! i = Some x ∧ display_name x = name ∧
       ∀ i' y, (i' < i)%nat → xs !! i' = Some y → display_name y ≠ name.
Proof.
  intros (before & after & -> & Hname & Hbefore).
  exists (length before). split; [|split; [done|]].
  - by rewrite lookup_app_r, Nat.sub_diag by lia.
  - intros i' y Hlt Hy. rewrite lookup_app_l in Hy by done.
    rewrite Forall_forall in Hbefore. apply Hbefore.
    by eapply list_elem_of_lookup_2.
Qed.

(** X22: get_section and the table of contents agree. When the course and
    its chapters display their children, the section get_section returns for
    a chapter name and a section name sits where the table built for the
    same names has its first active chapter and, in it, its first active
    section: the entries at that position are active and carry the two
    names, and no entry before them is active. *)
Theorem get_section_first_active_entry (course : T)
    (chapter section : option string) (s : T) :
  get_display_items course = get_children course →
  (∀ c, c ∈ get_children course → get_display_items c = get_children c) →
  get_section (Some course) chapter section = Some s →
  ∃ i j chapter_module centry sentry,
    get_children course !! i = Some chapter_module ∧
    get_children chapter_module !! j = Some s ∧
    toc_chapters course chapter section !! i = Some centry ∧
    chap_sections centry !! j = Some sentry ∧
    chap_name centry = chapter ∧ chap_active centry = true ∧
    sec_name sentry = section ∧ sec_active sentry = true ∧
    (∀ i' e, (i' < i)%nat → toc_chapters course chapter section !! i' = Some e →
             chap_active e = false) ∧
    (∀ j' e, (j' < j)%nat → chap_sections centry !! j' = Some e →
             sec_active e = false).
Proof.
  intros Hcourse Hchapters Hget. simpl in Hget.
  destruct (first_named chapter (get_children course)) as [cm|] eqn:Hcm; [|done].
  apply first_named_Some, is_first_named_lookup in Hcm as (i & Hi & Hcname & Hci).
  apply first_named_Some, is_first_named_lookup in Hget as (j & Hj & Hsname & Hsj).
  assert (Hitems : get_display_items cm = get_children cm).
  { apply Hchapters. by eapply list_elem_of_lookup_2. }
  exists i, j, cm, (chapter_entry chapter section cm),
    (section_entry chapter section cm s).
  rewrite toc_chapters_map, Hcourse. cbn [chapter_entry chap_sections].
  rewrite toc_sections_map, Hitems, !list_lookup_fmap, Hi, Hj.
  split; [done|]. split; [done|]. split; [done|]. split; [done|].
  split; [done|]. split; [by apply bool_decide_eq_true|].
  split; [done|]. split.
  { simpl. by rewrite !bool_decide_eq_true_2. }
  split.
  - intros i' e Hlt He. rewrite list_lookup_fmap in He.
    destruct (get_children course !! i') as [c|] eqn:Hc; [|done].
    injection He as <-. simpl. apply bool_decide_eq_false. by eapply Hci.
  - intros j' e Hlt He. rewrite list_lookup_fmap in He.
    destruct (get_children cm !! j') as [c|] eqn:Hc; [|done].
    injection He as <-. simpl. apply andb_false_iff. right.
    apply bool_decide_eq_false. by eapply Hsj.
Qed.

End NavigationFacts.

Lemma get_section_first_active_entry_witness :
  ∃ i j chapter_module centry sentry,
    get_children Demo.course_tree !! i = Some chapter_module ∧
    get_children chapter_module !! j = Some (Demo.leaf "Homework") ∧
    toc_chapters Demo.course_tree (Some "Week 1") (Some "Homework") !! i =
      Some centry ∧
    chap_sections centry !! j = Some sentry ∧
    chap_name centry = Some "Week 1" ∧ chap_active centry = true ∧
    sec_name sentry = Some "Homework" ∧ sec_active sentry = true ∧
    (∀ i' e, (i' < i)%nat →
             toc_chapters Demo.course_tree (Some "Week 1") (Some "Homework")
               !! i' = Some e →
             chap_active e = false) ∧
    (∀ j' e, (j' < j)%nat → chap_sections centry !! j' = Some e →
             sec_active e = false).
Proof.
  exact (get_section_first_active_entry (T := Demo.DemoModule) Demo.course_tree
           (Some "Week 1") (Some "Homework") (Demo.leaf "Homework")
           eq_refl (λ _ _, eq_refl) eq_refl).
Defined.
